(** * Plan summarizer (server/events/openrouter_summarizer.go)

    A shallow embedding of [SummarizePlans] together with the parts of the
    Go standard library it calls ([strings], [unicode/utf8], [os],
    [encoding/json], [net/http]), and the properties of the function that
    the specification states.

    Go strings are byte sequences; they are modelled by [string], whose
    characters are the 256 values of [ascii]. *)

From Stdlib Require Import ZArith Ascii String List Lia Bool.
From stdpp Require Import base strings gmap list.

Set Warnings "-register-all".

Open Scope string_scope.
Open Scope Z_scope.

(** ** Byte and slice helpers *)

Definition byte_of (c : ascii) : Z := Z.of_N (N_of_ascii c).

Definition byte_to (z : Z) : ascii := ascii_of_N (Z.to_N (z mod 256)).

(** [s[i]], with 0 standing in for an index the callers never use. *)
Definition at_index (s : string) (i : nat) : Z :=
  match String.get i s with
  | Some c => byte_of c
  | None => 0
  end.

(** The Go slice expression [s[lo:hi]]. *)
Definition slice (s : string) (lo hi : nat) : string :=
  String.substring lo (hi - lo) s.

(** The Go slice expression [s[lo:]]. *)
Definition slice_from (s : string) (lo : nat) : string :=
  slice s lo (String.length s).

(** Every byte of [s] satisfies [p]. *)
Fixpoint all_bytes (p : Z -> bool) (s : string) : bool :=
  match s with
  | String c rest => p (byte_of c) && all_bytes p rest
  | EmptyString => true
  end.

(** ** unicode/utf8 *)

Module utf8.

Definition RuneError : Z := 65533.
Definition RuneSelf : Z := 128.
Definition UTFMax : nat := 4.

(** The classes of the table [first]: what a leading byte announces. *)
Inductive lead :=
| ASCII
| Invalid
| Seq (size : nat) (lo hi : Z).

Definition first (b : Z) : lead :=
  if b <? 128 then ASCII
  else if b <? 194 then Invalid
  else if b <? 224 then Seq 2 128 191
  else if b =? 224 then Seq 3 160 191
  else if b <? 237 then Seq 3 128 191
  else if b =? 237 then Seq 3 128 159
  else if b <? 240 then Seq 3 128 191
  else if b =? 240 then Seq 4 144 191
  else if b <? 244 then Seq 4 128 191
  else if b =? 244 then Seq 4 128 143
  else Invalid.

Definition continuation (b : Z) : bool := (128 <=? b) && (b <=? 191).

(** [DecodeRuneInString]: the first rune of [s] and its width in bytes. *)
Definition DecodeRuneInString (s : string) : Z * nat :=
  let n := String.length s in
  if (n <? 1)%nat then (RuneError, 0%nat)
  else
    let s0 := at_index s 0 in
    match first s0 with
    | ASCII => (s0, 1%nat)
    | Invalid => (RuneError, 1%nat)
    | Seq sz lo hi =>
        if (n <? sz)%nat then (RuneError, 1%nat)
        else
          let s1 := at_index s 1 in
          if (s1 <? lo) || (hi <? s1) then (RuneError, 1%nat)
          else if (sz <=? 2)%nat then
            (Z.lor (Z.shiftl (Z.land s0 31) 6) (Z.land s1 63), 2%nat)
          else
            let s2 := at_index s 2 in
            if negb (continuation s2) then (RuneError, 1%nat)
            else if (sz <=? 3)%nat then
              (Z.lor (Z.lor (Z.shiftl (Z.land s0 15) 12)
                            (Z.shiftl (Z.land s1 63) 6))
                     (Z.land s2 63), 3%nat)
            else
              let s3 := at_index s 3 in
              if negb (continuation s3) then (RuneError, 1%nat)
              else
                (Z.lor (Z.lor (Z.lor (Z.shiftl (Z.land s0 7) 18)
                                     (Z.shiftl (Z.land s1 63) 12))
                              (Z.shiftl (Z.land s2 63) 6))
                       (Z.land s3 63), 4%nat)
    end.

(** [RuneStart]: the byte is not a continuation byte. *)
Definition RuneStart (b : Z) : bool := negb (Z.land b 192 =? 128).

(** The backwards scan of [DecodeLastRuneInString]: from [start] down to
    [lim], stop at the first byte that can start a rune.  [steps] bounds
    the scan, which looks at no more than [UTFMax] bytes. *)
Fixpoint scan_back (s : string) (steps : nat) (start lim : Z) : Z :=
  match steps with
  | O => start
  | S steps' =>
      if start <? lim then start
      else if RuneStart (at_index s (Z.to_nat start)) then start
      else scan_back s steps' (start - 1) lim
  end.

(** [DecodeLastRuneInString]: the last rune of [s] and its width. *)
Definition DecodeLastRuneInString (s : string) : Z * nat :=
  let end_ := String.length s in
  if (end_ =? 0)%nat then (RuneError, 0%nat)
  else
    let start := Z.of_nat end_ - 1 in
    let r := at_index s (Z.to_nat start) in
    if r <? RuneSelf then (r, 1%nat)
    else
      let lim := Z.max (Z.of_nat end_ - Z.of_nat UTFMax) 0 in
      let start := scan_back s (S UTFMax) (start - 1) lim in
      let start := if start <? 0 then 0 else start in
      let '(r, size) := DecodeRuneInString (slice s (Z.to_nat start) end_) in
      if negb (start + Z.of_nat size =? Z.of_nat end_) then (RuneError, 1%nat)
      else (r, size).

(** [AppendRune] on an empty buffer: the UTF-8 encoding of [r], that of
    [RuneError] for a surrogate half or a value out of range. *)
Definition EncodeRune (r : Z) : string :=
  let enc (l : list Z) := string_of_list_ascii (map byte_to l) in
  if (0 <=? r) && (r <=? 127) then enc [r]
  else if (0 <=? r) && (r <=? 2047) then
    enc [Z.lor 192 (Z.shiftr r 6); Z.lor 128 (Z.land r 63)]
  else if (r <? 0) || (1114111 <? r) || ((55296 <=? r) && (r <=? 57343)) then
    enc [239; 191; 189]
  else if r <=? 65535 then
    enc [Z.lor 224 (Z.shiftr r 12);
         Z.lor 128 (Z.land (Z.shiftr r 6) 63);
         Z.lor 128 (Z.land r 63)]
  else
    enc [Z.lor 240 (Z.shiftr r 18);
         Z.lor 128 (Z.land (Z.shiftr r 12) 63);
         Z.lor 128 (Z.land (Z.shiftr r 6) 63);
         Z.lor 128 (Z.land r 63)].

End utf8.

(** ** unicode *)

Module unicode.

(** [IsSpace]: the Latin-1 cases first, then the White_Space table. *)
Definition IsSpace (r : Z) : bool :=
  if r <=? 255 then
    (r =? 9) || (r =? 10) || (r =? 11) || (r =? 12) || (r =? 13)
    || (r =? 32) || (r =? 133) || (r =? 160)
  else
    (r =? 5760) || ((8192 <=? r) && (r <=? 8202))
    || (r =? 8232) || (r =? 8233) || (r =? 8239) || (r =? 8287)
    || (r =? 12288).

End unicode.

(** ** strings *)

Module strings.

(** [Join]: nothing for no element, the element itself for one, and
    otherwise the builder loop that writes [sep] before every further
    element. *)
Definition Join (elems : list string) (sep : string) : string :=
  match elems with
  | [] => ""
  | e :: rest => foldl (fun b s => b +:+ sep +:+ s) e rest
  end.

(** [indexFunc s f false]: the byte index of the first rune that does
    not satisfy [f], or -1.  [i] is the index reached so far. *)
Fixpoint index_not (f : Z -> bool) (fuel : nat) (s : string) (i : nat) : Z :=
  match fuel with
  | O => -1
  | S fuel' =>
      if (String.length s <=? i)%nat then -1
      else
        let '(r, size) := utf8.DecodeRuneInString (slice_from s i) in
        if negb (f r) then Z.of_nat i
        else index_not f fuel' s (i + size)
  end.

(** [lastIndexFunc s f false]: the byte index of the last rune that does
    not satisfy [f], or -1.  [i] is the end of the part still to scan. *)
Fixpoint last_index_not (f : Z -> bool) (fuel : nat) (s : string) (i : nat) : Z :=
  match fuel with
  | O => -1
  | S fuel' =>
      if (i =? 0)%nat then -1
      else
        let '(r, size) := utf8.DecodeLastRuneInString (slice s 0 i) in
        let i := (i - size)%nat in
        if negb (f r) then Z.of_nat i
        else last_index_not f fuel' s i
  end.

Definition TrimLeftFunc (s : string) (f : Z -> bool) : string :=
  let i := index_not f (S (String.length s)) s 0 in
  if i =? -1 then "" else slice_from s (Z.to_nat i).

Definition TrimRightFunc (s : string) (f : Z -> bool) : string :=
  let i := last_index_not f (S (String.length s)) s (String.length s) in
  let i :=
    if (0 <=? i) && (utf8.RuneSelf <=? at_index s (Z.to_nat i)) then
      let '(_, wid) := utf8.DecodeRuneInString (slice_from s (Z.to_nat i)) in
      i + Z.of_nat wid
    else i + 1 in
  slice s 0 (Z.to_nat i).

Definition TrimFunc (s : string) (f : Z -> bool) : string :=
  TrimRightFunc (TrimLeftFunc s f) f.

Definition asciiSpace (c : Z) : bool :=
  (c =? 9) || (c =? 10) || (c =? 11) || (c =? 12) || (c =? 13) || (c =? 32).

(** The two loops of [TrimSpace].  Each either settles on an index
    ([inl]) or meets a byte outside ASCII and hands over to the
    rune-aware functions ([inr]). *)
Fixpoint trim_start (fuel : nat) (s : string) (start : nat) : nat + string :=
  match fuel with
  | O => inl start
  | S fuel' =>
      if (String.length s <=? start)%nat then inl start
      else
        let c := at_index s start in
        if utf8.RuneSelf <=? c then
          inr (TrimFunc (slice_from s start) unicode.IsSpace)
        else if negb (asciiSpace c) then inl start
        else trim_start fuel' s (S start)
  end.

Fixpoint trim_stop (fuel : nat) (s : string) (start stop : nat) : nat + string :=
  match fuel with
  | O => inl stop
  | S fuel' =>
      if (stop <=? start)%nat then inl stop
      else
        let c := at_index s (stop - 1) in
        if utf8.RuneSelf <=? c then
          inr (TrimRightFunc (slice s start stop) unicode.IsSpace)
        else if negb (asciiSpace c) then inl stop
        else trim_stop fuel' s start (stop - 1)
  end.

Definition TrimSpace (s : string) : string :=
  match trim_start (S (String.length s)) s 0 with
  | inr r => r
  | inl start =>
      match trim_stop (S (String.length s)) s start (String.length s) with
      | inr r => r
      | inl stop => slice s start stop
      end
  end.

End strings.

(** ** unicode/utf16 *)

Module utf16.

Definition IsSurrogate (r : Z) : bool := (55296 <=? r) && (r <? 57344).

(** [DecodeRune]: the code point of a surrogate pair, U+FFFD when the
    two halves do not form one. *)
Definition DecodeRune (r1 r2 : Z) : Z :=
  if (55296 <=? r1) && (r1 <? 56320) && (56320 <=? r2) && (r2 <? 57344) then
    Z.lor (Z.shiftl (r1 - 55296) 10) (r2 - 56320) + 65536
  else 65533.

End utf16.

(** ** encoding/json: the syntax of JSON texts *)

Module jsonsyntax.

(** A JSON value.  A string is kept as its raw literal (the bytes
    between the quotes, escapes included) and a number as its literal. *)
Inductive value :=
| Null
| Bool (b : bool)
| Number (lit : string)
| Str (raw : string)
| Array (elems : list value)
| Object (members : list (string * value)).

Definition maxNestingDepth : Z := 10000.

Definition isSpace (c : Z) : bool :=
  (c <=? 32) && ((c =? 32) || (c =? 9) || (c =? 13) || (c =? 10)).

Fixpoint skip_space (s : string) : string :=
  match s with
  | String c rest => if isSpace (byte_of c) then skip_space rest else s
  | EmptyString => s
  end.

Definition isDigit (c : Z) : bool := (48 <=? c) && (c <=? 57).

Definition isHex (c : Z) : bool :=
  isDigit c || ((97 <=? c) && (c <=? 102)) || ((65 <=? c) && (c <=? 70)).

(** The scanner states inside a string literal ([stateInString],
    [stateInStringEsc], [stateInStringEscU] and its three successors):
    the raw literal up to the closing quote, and what follows it.
    [esc] counts the characters still owed to an escape: 5 after a
    backslash, 4 to 1 for the hexadecimal digits of a [\u] escape. *)
Fixpoint scan_string (s : string) (esc : nat) (acc : string) : option (string * string) :=
  match s with
  | EmptyString => None
  | String c rest =>
      let b := byte_of c in
      let acc' := acc +:+ String c "" in
      match esc with
      | O =>
          if b =? 34 then Some (acc, rest)
          else if b =? 92 then scan_string rest 5 acc'
          else if b <? 32 then None
          else scan_string rest 0 acc'
      | 5%nat =>
          if (b =? 98) || (b =? 102) || (b =? 110) || (b =? 114) || (b =? 116)
             || (b =? 92) || (b =? 47) || (b =? 34)
          then scan_string rest 0 acc'
          else if b =? 117 then scan_string rest 4 acc'
          else None
      | S esc' =>
          if isHex b then scan_string rest esc' acc' else None
      end
  end.

Fixpoint scan_digits (s : string) (acc : string) : string * string :=
  match s with
  | String c rest =>
      if isDigit (byte_of c) then scan_digits rest (acc +:+ String c "")
      else (acc, s)
  | EmptyString => (acc, s)
  end.

Definition head_byte (s : string) : Z :=
  match s with
  | String c _ => byte_of c
  | EmptyString => -1
  end.

Definition tail (s : string) : string :=
  match s with
  | String _ rest => rest
  | EmptyString => s
  end.

(** The scanner states of a number ([stateNeg], [state0], [state1],
    [stateDot], [stateE] and their successors). *)
Definition scan_number (s : string) : option (string * string) :=
  let '(sign, s) :=
    if head_byte s =? 45 then ("-", tail s) else ("", s) in
  let int_part :=
    if head_byte s =? 48 then Some ("0", tail s)
    else if (49 <=? head_byte s) && (head_byte s <=? 57) then
      Some (scan_digits s "")
    else None in
  match int_part with
  | None => None
  | Some (int, s) =>
      let frac_part :=
        if head_byte s =? 46 then
          let '(ds, s') := scan_digits (tail s) "" in
          if (String.length ds =? 0)%nat then None else Some ("." +:+ ds, s')
        else Some ("", s) in
      match frac_part with
      | None => None
      | Some (frac, s) =>
          if (head_byte s =? 101) || (head_byte s =? 69) then
            let e := String (byte_to (head_byte s)) "" in
            let s := tail s in
            let '(esign, s) :=
              if (head_byte s =? 43) || (head_byte s =? 45)
              then (String (byte_to (head_byte s)) "", tail s) else ("", s) in
            let '(ds, s') := scan_digits s "" in
            if (String.length ds =? 0)%nat then None
            else Some (sign +:+ int +:+ frac +:+ e +:+ esign +:+ ds, s')
          else Some (sign +:+ int +:+ frac, s)
      end
  end.

Definition expect (word : string) (v : value) (s : string) : option (value * string) :=
  if String.prefix word s
  then Some (v, slice_from s (String.length word))
  else None.

(** One value at the head of [s], after optional white space, and the
    rest of the text.  [depth] is the number of arrays and objects
    already open; the scanner refuses to open more than
    [maxNestingDepth]. *)
Fixpoint parse_value (fuel : nat) (depth : Z) (s : string) : option (value * string) :=
  match fuel with
  | O => None
  | S fuel' =>
      let s := skip_space s in
      let c := head_byte s in
      if c =? 123 then
        if maxNestingDepth <? depth + 1 then None
        else
          let s' := skip_space (tail s) in
          if head_byte s' =? 125 then Some (Object [], tail s')
          else
            match parse_members fuel' (depth + 1) s' with
            | Some (ms, rest) => Some (Object ms, rest)
            | None => None
            end
      else if c =? 91 then
        if maxNestingDepth <? depth + 1 then None
        else
          let s' := skip_space (tail s) in
          if head_byte s' =? 93 then Some (Array [], tail s')
          else
            match parse_elems fuel' (depth + 1) s' with
            | Some (vs, rest) => Some (Array vs, rest)
            | None => None
            end
      else if c =? 34 then
        match scan_string (tail s) 0 "" with
        | Some (raw, rest) => Some (Str raw, rest)
        | None => None
        end
      else if (c =? 45) || isDigit c then
        match scan_number s with
        | Some (lit, rest) => Some (Number lit, rest)
        | None => None
        end
      else if c =? 116 then expect "true" (Bool true) s
      else if c =? 102 then expect "false" (Bool false) s
      else if c =? 110 then expect "null" Null s
      else None
  end

(** The elements of an array after its opening bracket, up to and
    including the closing one. *)
with parse_elems (fuel : nat) (depth : Z) (s : string) : option (list value * string) :=
  match fuel with
  | O => None
  | S fuel' =>
      match parse_value fuel' depth s with
      | None => None
      | Some (v, rest) =>
          let rest := skip_space rest in
          if head_byte rest =? 44 then
            match parse_elems fuel' depth (tail rest) with
            | Some (vs, rest') => Some (v :: vs, rest')
            | None => None
            end
          else if head_byte rest =? 93 then Some ([v], tail rest)
          else None
      end
  end

(** The members of an object after its opening brace, up to and
    including the closing one. *)
with parse_members (fuel : nat) (depth : Z) (s : string) : option (list (string * value) * string) :=
  match fuel with
  | O => None
  | S fuel' =>
      let s := skip_space s in
      if negb (head_byte s =? 34) then None
      else
        match scan_string (tail s) 0 "" with
        | None => None
        | Some (key, rest) =>
            let rest := skip_space rest in
            if negb (head_byte rest =? 58) then None
            else
              match parse_value fuel' depth (tail rest) with
              | None => None
              | Some (v, rest) =>
                  let rest := skip_space rest in
                  if head_byte rest =? 44 then
                    match parse_members fuel' depth (tail rest) with
                    | Some (ms, rest') => Some ((key, v) :: ms, rest')
                    | None => None
                    end
                  else if head_byte rest =? 125 then Some ([(key, v)], tail rest)
                  else None
              end
        end
  end.

(** [checkValid]: the whole text is one JSON value, white space around
    it allowed. *)
Definition parse (data : string) : option value :=
  match parse_value (2 * String.length data + 2) 0 data with
  | Some (v, rest) =>
      if (String.length (skip_space rest) =? 0)%nat then Some v else None
  | None => None
  end.

End jsonsyntax.

(** ** The payload types of the summarizer *)

(** [openRouterMessage]: a message of the chat completion request. *)
Record openRouterMessage := {
  Role : string;
  Content : string
}.

(** [openRouterRequest]: the request payload. *)
Record openRouterRequest := {
  Model : string;
  Messages : list openRouterMessage
}.

(** [openRouterChoice]: a choice of the response.  Its field is
    [Message] in the source; the prefix tells it from the field of the
    same name of [openRouterError]. *)
Record openRouterChoice := {
  choice_Message : openRouterMessage
}.

(** [openRouterError]: an error object of the API, with the fields
    [Message] and [Type] of the source. *)
Record openRouterError := {
  error_Message : string;
  error_Type : string
}.

(** [openRouterResponse]: the response payload.  A Go slice of length 0,
    nil or not, is the empty list; the pointer [Error] is an option. *)
Record openRouterResponse := {
  Choices : list openRouterChoice;
  Error : option openRouterError
}.

(** The zero values that Go gives to declared variables. *)
Definition zero_message : openRouterMessage := {| Role := ""; Content := "" |}.
Definition zero_choice : openRouterChoice := {| choice_Message := zero_message |}.
Definition zero_error : openRouterError := {| error_Message := ""; error_Type := "" |}.
Definition zero_response : openRouterResponse := {| Choices := []; Error := None |}.

(** A Go [error] value, by its message. *)
Definition error := string.

(** ** encoding/json *)

Module json.

Import jsonsyntax.

(** *** Decoding *)

Definition hex_digit (c : Z) : Z :=
  if isDigit c then c - 48
  else if (97 <=? c) && (c <=? 102) then c - 97 + 10
  else if (65 <=? c) && (c <=? 70) then c - 65 + 10
  else -1.

(** [getu4]: the value of a [\uXXXX] escape at the head of [s], or -1. *)
Definition getu4 (s : string) : Z :=
  if (String.length s <? 6)%nat || negb (at_index s 0 =? 92) || negb (at_index s 1 =? 117)
  then -1
  else
    let h i := hex_digit (at_index s i) in
    if (h 2%nat <? 0) || (h 3%nat <? 0) || (h 4%nat <? 0) || (h 5%nat <? 0) then -1
    else h 2%nat * 4096 + h 3%nat * 256 + h 4%nat * 16 + h 5%nat.

(** The loop of [unquoteBytes] over the raw literal [s] from index [r]:
    escapes are replaced by what they stand for, and bytes that are not
    well-formed UTF-8 by the encoding of U+FFFD.  [None] is the result
    [ok = false]. *)
Fixpoint unquote_from (fuel : nat) (s : string) (r : nat) : option string :=
  match fuel with
  | O => None
  | S fuel' =>
      if (String.length s <=? r)%nat then Some ""
      else
        let c := at_index s r in
        let emit (out : string) (r' : nat) :=
          match unquote_from fuel' s r' with
          | Some t => Some (out +:+ t)
          | None => None
          end in
        if c =? 92 then
          let r := S r in
          if (String.length s <=? r)%nat then None
          else
            let e := at_index s r in
            if (e =? 34) || (e =? 92) || (e =? 47) || (e =? 39) then
              emit (String (byte_to e) "") (S r)
            else if e =? 98 then emit (String (byte_to 8) "") (S r)
            else if e =? 102 then emit (String (byte_to 12) "") (S r)
            else if e =? 110 then emit (String (byte_to 10) "") (S r)
            else if e =? 114 then emit (String (byte_to 13) "") (S r)
            else if e =? 116 then emit (String (byte_to 9) "") (S r)
            else if e =? 117 then
              let r := (r - 1)%nat in
              let rr := getu4 (slice_from s r) in
              if rr <? 0 then None
              else
                let r := (r + 6)%nat in
                if utf16.IsSurrogate rr then
                  let rr1 := getu4 (slice_from s r) in
                  let dec := utf16.DecodeRune rr rr1 in
                  if negb (dec =? 65533) then emit (utf8.EncodeRune dec) (r + 6)%nat
                  else emit (utf8.EncodeRune 65533) r
                else emit (utf8.EncodeRune rr) r
            else None
        else if (c =? 34) || (c <? 32) then None
        else if c <? utf8.RuneSelf then emit (String (byte_to c) "") (S r)
        else
          let '(rr, size) := utf8.DecodeRuneInString (slice_from s r) in
          emit (utf8.EncodeRune rr) (r + size)%nat
  end.

Definition unquote (raw : string) : option string :=
  unquote_from (S (String.length raw)) raw 0.

(** [foldName], as far as a comparison with an ASCII name can tell:
    ASCII letters go to upper case; of the runes outside ASCII only the
    Kelvin sign and the long s fold to an ASCII letter, every other one
    folds to a rune outside ASCII and is left as it is here. *)
Fixpoint fold_from (fuel : nat) (s : string) (i : nat) : string :=
  match fuel with
  | O => ""
  | S fuel' =>
      if (String.length s <=? i)%nat then ""
      else
        let c := at_index s i in
        if c <? utf8.RuneSelf then
          let c := if (97 <=? c) && (c <=? 122) then c - 32 else c in
          String (byte_to c) (fold_from fuel' s (S i))
        else
          let '(r, n) := utf8.DecodeRuneInString (slice_from s i) in
          let r := if r =? 8490 then 75 else if r =? 383 then 83 else r in
          utf8.EncodeRune r +:+ fold_from fuel' s (i + n)%nat
  end.

Definition foldName (s : string) : string :=
  fold_from (S (String.length s)) s 0.

(** The field of a struct that a member key selects: the field whose
    name is the key, else the one whose folded name is the folded key.
    [names] are the JSON names of the fields. *)
Definition find_field (names : list string) (key : string) : option string :=
  match List.find (String.eqb key) names with
  | Some n => Some n
  | None => List.find (fun n => String.eqb (foldName n) (foldName key)) names
  end.

(** [literalStore] into a string field: a string literal sets it,
    [null] leaves it, anything else is an [UnmarshalTypeError]. *)
Definition decode_string (v : value) (old : string) : string + error :=
  match v with
  | Str raw =>
      match unquote raw with
      | Some s => inl s
      | None => inr "json: invalid string literal"
      end
  | Null => inl old
  | _ => inr "json: cannot unmarshal value into Go struct field of type string"
  end.

(** The members of an object, in order, each decoded into the field it
    selects; members that select no field are skipped. *)
Fixpoint decode_members {A : Type} (set : string -> value -> A -> A + error)
         (names : list string) (ms : list (string * value)) (old : A) : A + error :=
  match ms with
  | [] => inl old
  | (rawkey, v) :: ms' =>
      match unquote rawkey with
      | None => inr "json: invalid string literal"
      | Some key =>
          match find_field names key with
          | None => decode_members set names ms' old
          | Some f =>
              match set f v old with
              | inl new => decode_members set names ms' new
              | inr e => inr e
              end
          end
      end
  end.

(** Decoding into a struct: an object sets the fields its members
    select, [null] leaves the struct as it is. *)
Definition decode_struct {A : Type} (set : string -> value -> A -> A + error)
           (names : list string) (v : value) (old : A) : A + error :=
  match v with
  | Object ms => decode_members set names ms old
  | Null => inl old
  | _ => inr "json: cannot unmarshal value into Go value of struct type"
  end.

Definition decode_message : value -> openRouterMessage -> openRouterMessage + error :=
  decode_struct
    (fun f v old =>
       if String.eqb f "role" then
         match decode_string v (Role old) with
         | inl s => inl {| Role := s; Content := Content old |}
         | inr e => inr e
         end
       else
         match decode_string v (Content old) with
         | inl s => inl {| Role := Role old; Content := s |}
         | inr e => inr e
         end)
    ["role"; "content"].

Definition decode_choice : value -> openRouterChoice -> openRouterChoice + error :=
  decode_struct
    (fun f v old =>
       match decode_message v (choice_Message old) with
       | inl m => inl {| choice_Message := m |}
       | inr e => inr e
       end)
    ["message"].

Definition decode_error : value -> openRouterError -> openRouterError + error :=
  decode_struct
    (fun f v old =>
       if String.eqb f "message" then
         match decode_string v (error_Message old) with
         | inl s => inl {| error_Message := s; error_Type := error_Type old |}
         | inr e => inr e
         end
       else
         match decode_string v (error_Type old) with
         | inl s => inl {| error_Message := error_Message old; error_Type := s |}
         | inr e => inr e
         end)
    ["message"; "type"].

(** The elements of a JSON array decoded into a slice.  The decoder
    decodes element [i] into the value that the backing array already
    holds at [i], a zero value where it holds none, and cuts the slice
    to the number of elements; what the backing array holds beyond that
    stays for a later array of the same text.  [backing] is the backing
    array from index [i] on. *)
Fixpoint decode_elems (vs : list value) (backing : list openRouterChoice)
  : (list openRouterChoice * list openRouterChoice) + error :=
  match vs with
  | [] => inl ([], backing)
  | v :: vs' =>
      match decode_choice v (hd zero_choice backing) with
      | inr e => inr e
      | inl c =>
          match decode_elems vs' (tl backing) with
          | inr e => inr e
          | inl (cs, hidden) => inl (c :: cs, hidden)
          end
      end
  end.

(** The response while it is decoded: the slice [Choices] as its
    visible elements and the rest of its backing array. *)
Record decoding := {
  visible : list openRouterChoice;
  hidden : list openRouterChoice;
  err_field : option openRouterError
}.

Definition decode_response_field (f : string) (v : value) (old : decoding) : decoding + error :=
  if String.eqb f "choices" then
    match v with
    | Null => inl {| visible := []; hidden := []; err_field := err_field old |}
    | Array [] => inl {| visible := []; hidden := []; err_field := err_field old |}
    | Array vs =>
        match decode_elems vs (visible old ++ hidden old) with
        | inl (cs, rest) => inl {| visible := cs; hidden := rest; err_field := err_field old |}
        | inr e => inr e
        end
    | _ => inr "json: cannot unmarshal value into Go struct field of slice type"
    end
  else
    match v with
    | Null => inl {| visible := visible old; hidden := hidden old; err_field := None |}
    | _ =>
        match decode_error v (default zero_error (err_field old)) with
        | inl e => inl {| visible := visible old; hidden := hidden old; err_field := Some e |}
        | inr e => inr e
        end
    end.

(** The JSON names of the fields of [openRouterResponse]. *)
Definition response_fields : list string := ["choices"; "error"].

(** [Unmarshal] of [data] into a zero [openRouterResponse]: a syntax
    error or the first type error, else the decoded response. *)
Definition Unmarshal (data : string) : openRouterResponse + error :=
  match parse data with
  | None => inr "json: syntax error"
  | Some v =>
      match decode_struct decode_response_field response_fields v
              {| visible := []; hidden := []; err_field := None |} with
      | inl d => inl {| Choices := visible d; Error := err_field d |}
      | inr e => inr e
      end
  end.

(** *** Encoding *)

Definition hex : string := "0123456789abcdef".

Definition hex_at (i : Z) : string := String (byte_to (at_index hex (Z.to_nat i))) "".

(** [htmlSafeSet]: the ASCII bytes that [Marshal] writes as they are. *)
Definition htmlSafe (b : Z) : bool :=
  (32 <=? b) && (b <? 128)
  && negb ((b =? 34) || (b =? 92) || (b =? 60) || (b =? 62) || (b =? 38)).

(** The replacement character U+FFFD in UTF-8. *)
Definition replacement : string :=
  String (byte_to 239) (String (byte_to 191) (String (byte_to 189) "")).

(** The loop that writes the inside of a string literal, from index [i],
    with HTML escaping on as in [Marshal].  A byte that is not part of
    well-formed UTF-8 goes out as the three bytes of U+FFFD. *)
Fixpoint escape_from (fuel : nat) (src : string) (i : nat) : string :=
  match fuel with
  | O => ""
  | S fuel' =>
      if (String.length src <=? i)%nat then ""
      else
        let b := at_index src i in
        if b <? utf8.RuneSelf then
          let out :=
            if htmlSafe b then String (byte_to b) ""
            else if (b =? 92) || (b =? 34) then String (byte_to 92) (String (byte_to b) "")
            else if b =? 8 then String (byte_to 92) "b"
            else if b =? 12 then String (byte_to 92) "f"
            else if b =? 10 then String (byte_to 92) "n"
            else if b =? 13 then String (byte_to 92) "r"
            else if b =? 9 then String (byte_to 92) "t"
            else String (byte_to 92) "u00" +:+ hex_at (Z.shiftr b 4) +:+ hex_at (Z.land b 15) in
          out +:+ escape_from fuel' src (S i)
        else
          let n := Nat.min (String.length src - i) utf8.UTFMax in
          let '(c, size) := utf8.DecodeRuneInString (slice src i (i + n)) in
          if (c =? utf8.RuneError) && (size =? 1)%nat then
            replacement +:+ escape_from fuel' src (i + size)%nat
          else if (c =? 8232) || (c =? 8233) then
            String (byte_to 92) "u202" +:+ hex_at (Z.land c 15)
            +:+ escape_from fuel' src (i + size)%nat
          else slice src i (i + size) +:+ escape_from fuel' src (i + size)%nat
  end.

Definition dquote : string := String (byte_to 34) "".

(** A Go string as a JSON string literal. *)
Definition encode_string (src : string) : string :=
  dquote +:+ escape_from (S (String.length src)) src 0 +:+ dquote.

Definition encode_key (name : string) : string := dquote +:+ name +:+ dquote +:+ ":".

Definition encode_message (m : openRouterMessage) : string :=
  "{" +:+ encode_key "role" +:+ encode_string (Role m) +:+ ","
      +:+ encode_key "content" +:+ encode_string (Content m) +:+ "}".

(** A slice of messages; the empty list stands for the nil slice. *)
Definition encode_messages (ms : list openRouterMessage) : string :=
  match ms with
  | [] => "null"
  | _ => "[" +:+ strings.Join (map encode_message ms) "," +:+ "]"
  end.

Definition encode_request (req : openRouterRequest) : string :=
  "{" +:+ encode_key "model" +:+ encode_string (Model req) +:+ ","
      +:+ encode_key "messages" +:+ encode_messages (Messages req) +:+ "}".

(** [Marshal] of an [openRouterRequest].  Strings, slices and structs
    of them always encode, so the error result is never used. *)
Definition Marshal (req : openRouterRequest) : string + error :=
  inl (encode_request req).

End json.

(** ** os, io, time, fmt *)

Module os.

(** [Getenv]: the value of the variable, empty when it is not set.
    [environ] is the environment of the process. *)
Definition Getenv (environ : gmap string string) (key : string) : string :=
  default "" (environ !! key).

End os.

Module io.

(** What reading a stream to its end gives: the bytes read, and the
    error that stopped the reading if it was not the end of the stream. *)
Record Reader := {
  data : string;
  failure : option error
}.

Definition ReadAll (r : Reader) : string * option error := (data r, failure r).

End io.

Module time.

(** A [Duration] counts nanoseconds. *)
Definition Second : Z := 1000000000.

End time.

Module fmt.

(** [Sprintf] for formats whose only verb is [%s], with string
    operands: each verb is replaced by the next operand. *)
Fixpoint Sprintf (format : string) (args : list string) : string :=
  match format with
  | String "%" (String "s" rest) =>
      match args with
      | a :: args' => a +:+ Sprintf rest args'
      | [] => "%!s(MISSING)" +:+ Sprintf rest []
      end
  | String c rest => String c (Sprintf rest args)
  | EmptyString => ""
  end.

End fmt.

(** ** net/http *)

Module http.

Definition StatusOK : Z := 200.

Abbreviation header := (gmap string (list string)).

(** [validHeaderFieldByte]: the bytes of an RFC 7230 token. *)
Definition validHeaderFieldByte (c : Z) : bool :=
  ((48 <=? c) && (c <=? 57)) || ((65 <=? c) && (c <=? 90)) || ((97 <=? c) && (c <=? 122))
  || (c =? 33) || (c =? 35) || (c =? 36) || (c =? 37) || (c =? 38) || (c =? 39)
  || (c =? 42) || (c =? 43) || (c =? 45) || (c =? 46) || (c =? 94) || (c =? 95)
  || (c =? 96) || (c =? 124) || (c =? 126).

(** The letters of a header key: upper case at the start and after a
    dash, lower case elsewhere. *)
Fixpoint canon (upper : bool) (s : string) : string :=
  match s with
  | String c rest =>
      let b := byte_of c in
      let b :=
        if upper && (97 <=? b) && (b <=? 122) then b - 32
        else if negb upper && (65 <=? b) && (b <=? 90) then b + 32
        else b in
      String (byte_to b) (canon (b =? 45) rest)
  | EmptyString => ""
  end.

(** [textproto.CanonicalMIMEHeaderKey]: a key that is not a token is
    left as it is. *)
Definition CanonicalMIMEHeaderKey (s : string) : string :=
  if all_bytes validHeaderFieldByte s then canon true s else s.

(** [Header.Set]. *)
Definition Header_Set (h : header) (key value : string) : header :=
  <[CanonicalMIMEHeaderKey key := [value]]> h.

(** [Header.Get]: the first value of the key, empty when there is none. *)
Definition Header_Get (h : header) (key : string) : string :=
  match h !! CanonicalMIMEHeaderKey key with
  | Some (v :: _) => v
  | _ => ""
  end.

Record Request := {
  Method : string;
  URL : string;
  Header : header;
  Payload : string
}.

Record Response := {
  StatusCode : Z;
  Body : io.Reader
}.

Record Client := {
  Timeout : Z
}.

Definition validMethod (method : string) : bool :=
  (0 <? String.length method)%nat && all_bytes validHeaderFieldByte method.

(** The first check of [url.Parse]: no ASCII control byte. *)
Definition stringContainsCTLByte (s : string) : bool :=
  negb (all_bytes (fun b => negb ((b <? 32) || (b =? 127))) s).

(** [NewRequest], for a body held in a buffer.  Of the checks of
    [url.Parse] only the first is written out; the others are on the
    syntax of scheme, host and escapes, which the one URL this file
    passes satisfies. *)
Definition NewRequest (method url body : string) : Request + error :=
  let method := if String.eqb method "" then "GET" else method in
  if negb (validMethod method) then inr "net/http: invalid method"
  else if stringContainsCTLByte url then inr "net/url: invalid control character in URL"
  else inl {| Method := method; URL := url; Header := ∅; Payload := body |}.

End http.

(** ** The summarizer *)

Definition newline : string := String (byte_to 10) "".

Definition openRouterURL : string := "https://openrouter.ai/api/v1/chat/completions".
Definition openRouterAPIKeyEnv : string := "OPENROUTER_API_KEY".
Definition openRouterSystemPromptEnv : string := "OPENROUTER_TERRAFORM_PLAN_SUMMARIZER_SYSTEM_PROMPT".
Definition openRouterTimeout : Z := 30 * time.Second.
Definition defaultSystemPrompt : string :=
  "You are giving a summary of the changes in this terraform plan to a senior engineer. They are looking to know at a glance what is in this plan. Especially highlight any differences between environments; this is very important. For example, if a change is only being applied to one environment this MUST be called out. Your output should be a one-sentence summary followed by detailed bullet points of the changes to be made. Use as many bullet points as you need; the bullet points must cover every change. You may summarize a change, such as "
  +:+ json.dquote +:+ "the AMI is being updated from X to Y in all environments" +:+ json.dquote
  +:+ "; these would not need to be individual bullets. If a change is happening to every environment in the output, do not enumerate environments, just say "
  +:+ json.dquote +:+ "all environments" +:+ json.dquote +:+ " or "
  +:+ json.dquote +:+ "all worker_generic" +:+ json.dquote +:+ " environments.".

(** The separator between the plans, two line feeds on each side of
    three dashes. *)
Definition planSeparator : string :=
  newline +:+ newline +:+ "---" +:+ newline +:+ newline.

(** An operand of a log line. *)
Inductive operand :=
| OpString (s : string)
| OpInt (n : Z).

(** What a call does to the world outside: the lines it hands to the
    logger, the request it gives to the HTTP client, and the closing of
    the response body. *)
Inductive event :=
| Debug (format : string) (args : list operand)
| Warn (format : string) (args : list operand)
| ClientDo (client : http.Client) (req : http.Request)
| BodyClose.

(** A run: the string returned and the events in the order they happen. *)
Definition run : Type := string * list event.

Definition ret (s : string) : run := (s, []).

(** An event, then the rest of the run. *)
Definition emit (e : event) (k : run) : run := (k.1, e :: k.2).

(** A deferred event: it happens when the rest of the run has returned. *)
Definition defer (e : event) (k : run) : run := (k.1, (k.2 ++ [e])%list).

Section Summarizer.

(** The environment of the process. *)
Variable environ : gmap string string.

(** The network: what [client.Do] gives for a request, a response or a
    transport error (a timeout is one). *)
Variable Do : http.Client -> http.Request -> http.Response + error.

(** The payload of lines 69 to 91. *)
Definition reqBody (terraformOutputs : list string) : openRouterRequest :=
  let combinedOutput := strings.Join terraformOutputs planSeparator in
  let systemPrompt := os.Getenv environ openRouterSystemPromptEnv in
  let systemPrompt :=
    if String.eqb systemPrompt "" then defaultSystemPrompt else systemPrompt in
  {| Model := "anthropic/claude-sonnet-4.5";
     Messages := [ {| Role := "system"; Content := systemPrompt |};
                   {| Role := "user"; Content := combinedOutput |} ] |}.

(** The request of lines 100 to 108, once [NewRequest] has made it. *)
Definition withHeaders (req : http.Request) (apiKey : string) : http.Request :=
  let h := http.Header req in
  let h := http.Header_Set h "Authorization" (fmt.Sprintf "Bearer %s" [apiKey]) in
  let h := http.Header_Set h "Content-Type" "application/json" in
  let h := http.Header_Set h "HTTP-Referer" "https://github.com/memfault/atlantis-openrouter-summarizer" in
  {| http.Method := http.Method req; http.URL := http.URL req;
     http.Header := h; http.Payload := http.Payload req |}.

(** Lines 124 to 163: from the response to the summary. *)
Definition readSummary (resp : http.Response) : run :=
  let '(body, err) := io.ReadAll (http.Body resp) in
  match err with
  | Some err =>
      emit (Warn "failed to read OpenRouter response: %s" [OpString err]) (ret "")
  | None =>
      if negb (http.StatusCode resp =? http.StatusOK) then
        emit (Warn "OpenRouter API returned status %d: %s"
                   [OpInt (http.StatusCode resp); OpString body]) (ret "")
      else
        match json.Unmarshal body with
        | inr err =>
            emit (Warn "failed to parse OpenRouter response: %s" [OpString err]) (ret "")
        | inl openRouterResp =>
            match Error openRouterResp with
            | Some e =>
                emit (Warn "OpenRouter API error: %s (type: %s)"
                           [OpString (error_Message e); OpString (error_Type e)]) (ret "")
            | None =>
                match Choices openRouterResp with
                | [] => emit (Warn "OpenRouter response contained no choices" []) (ret "")
                | choice0 :: _ =>
                    let summary := strings.TrimSpace (Content (choice_Message choice0)) in
                    if String.eqb summary "" then
                      emit (Warn "OpenRouter returned empty summary" []) (ret "")
                    else
                      emit (Debug "successfully received summary from OpenRouter" [])
                           (ret summary)
                end
            end
        end
  end.

Definition SummarizePlans (terraformOutputs : list string) : run :=
  if (length terraformOutputs =? 0)%nat then
    emit (Debug "no terraform outputs to summarize" []) (ret "")
  else
    let apiKey := os.Getenv environ openRouterAPIKeyEnv in
    if String.eqb apiKey "" then
      emit (Debug "OPENROUTER_API_KEY not set, skipping plan summarization" []) (ret "")
    else
      match json.Marshal (reqBody terraformOutputs) with
      | inr err =>
          emit (Warn "failed to marshal OpenRouter request: %s" [OpString err]) (ret "")
      | inl jsonData =>
          match http.NewRequest "POST" openRouterURL jsonData with
          | inr err =>
              emit (Warn "failed to create OpenRouter request: %s" [OpString err]) (ret "")
          | inl req =>
              let req := withHeaders req apiKey in
              let client := {| http.Timeout := openRouterTimeout |} in
              emit (Debug "sending plan to OpenRouter for summarization" [])
                (emit (ClientDo client req)
                   match Do client req with
                   | inr err =>
                       emit (Warn "failed to send request to OpenRouter: %s" [OpString err])
                            (ret "")
                   | inl resp => defer BodyClose (readSummary resp)
                   end)
          end
      end.

End Summarizer.

(** ** What a run did *)

(** The requests a run gave to the HTTP client, in order. *)
Fixpoint requests (t : list event) : list http.Request :=
  match t with
  | ClientDo _ req :: t' => req :: requests t'
  | _ :: t' => requests t'
  | [] => []
  end.

(** The warnings of a run, by their format. *)
Fixpoint warnings (t : list event) : list string :=
  match t with
  | Warn format _ :: t' => format :: warnings t'
  | _ :: t' => warnings t'
  | [] => []
  end.

(** The lines a run handed to the logger, in order. *)
Fixpoint logs (t : list event) : list event :=
  match t with
  | Debug format args :: t' => Debug format args :: logs t'
  | Warn format args :: t' => Warn format args :: logs t'
  | _ :: t' => logs t'
  | [] => []
  end.

(** How many times a run closed a response body. *)
Fixpoint closes (t : list event) : nat :=
  match t with
  | BodyClose :: t' => S (closes t')
  | _ :: t' => closes t'
  | [] => O
  end.

(** The clients a run used, in order. *)
Fixpoint clients (t : list event) : list http.Client :=
  match t with
  | ClientDo client _ :: t' => client :: clients t'
  | _ :: t' => clients t'
  | [] => []
  end.

(** The request that [SummarizePlans] sends for the plans
    [terraformOutputs] when the API key is [apiKey]. *)
Definition sentRequest (environ : gmap string string) (terraformOutputs : list string)
           (apiKey : string) : http.Request :=
  withHeaders
    {| http.Method := "POST"; http.URL := openRouterURL; http.Header := ∅;
       http.Payload := json.encode_request (reqBody environ terraformOutputs) |}
    apiKey.

(** The client that [SummarizePlans] makes. *)
Definition summarizerClient : http.Client := {| http.Timeout := openRouterTimeout |}.

(** JSON texts in the examples are written with an apostrophe where the
    text has a double quote. *)
Definition quoted (s : string) : string :=
  string_of_list_ascii
    (map (fun c => if byte_of c =? 39 then byte_to 34 else c) (list_ascii_of_string s)).

(** A response with the given status whose body reads to its end. *)
Definition respond (status : Z) (body : string) : http.Response :=
  {| http.StatusCode := status; http.Body := {| io.data := body; io.failure := None |} |}.

(** A member of a JSON object whose name selects none of the fields
    [names]. *)
Definition selects_no_field (names : list string) (m : string * jsonsyntax.value) : bool :=
  match json.unquote m.1 with
  | Some key =>
      match json.find_field names key with
      | None => true
      | Some _ => false
      end
  | None => false
  end.

(** A JSON value that has neither choices nor an error: null, or an
    object none of whose members selects one of the two fields. *)
Definition omits_fields (v : jsonsyntax.value) : bool :=
  match v with
  | jsonsyntax.Null => true
  | jsonsyntax.Object ms => forallb (selects_no_field json.response_fields) ms
  | _ => false
  end.

(** A body with members, none of them choices or error. *)
Definition body_other_members : string :=
  quoted "{'id':'gen-1','model':'anthropic/claude-sonnet-4.5','usage':{'total_tokens':5}}".

(** A string that is neither empty nor opened by white space: its first
    byte is an ASCII byte other than a space of [asciiSpace]. *)
Definition opens_with_text (s : string) : Prop :=
  (1 <= String.length s)%nat
  /\ at_index s 0 < utf8.RuneSelf
  /\ strings.asciiSpace (at_index s 0) = false.

(** A string that is neither empty nor closed by white space. *)
Definition closes_with_text (s : string) : Prop :=
  (1 <= String.length s)%nat
  /\ at_index s (String.length s - 1) < utf8.RuneSelf
  /\ strings.asciiSpace (at_index s (String.length s - 1)) = false.

(** A string that neither starts nor ends with a byte of ASCII white
    space; the empty string is one. *)
Definition no_space_at_ends (t : string) : Prop :=
  t = ""
  \/ (strings.asciiSpace (at_index t 0) = false
      /\ strings.asciiSpace (at_index t (String.length t - 1)) = false).

(** A byte that a string literal holds as it is. *)
Definition plain (b : Z) : bool := (32 <=? b) && negb (b =? 34) && negb (b =? 92).

(** The inside of the string literal that [Marshal] writes for [s]. *)
Definition escaped (s : string) : string :=
  json.escape_from (S (String.length s)) s 0.

(** The JSON value that [Marshal] writes for a message and for a request
    with messages, strings as their raw literals. *)
Definition message_value (m : openRouterMessage) : jsonsyntax.value :=
  jsonsyntax.Object [ ("role", jsonsyntax.Str (escaped (Role m)));
                      ("content", jsonsyntax.Str (escaped (Content m))) ].

Definition request_value (req : openRouterRequest) : jsonsyntax.value :=
  jsonsyntax.Object [ ("model", jsonsyntax.Str (escaped (Model req)));
                      ("messages", jsonsyntax.Array (map message_value (Messages req))) ].

(** What [Marshal] writes for one ASCII byte of a string: the cases of
    [json.escape_from] for a byte below [utf8.RuneSelf]. *)
Definition escape_byte (b : Z) : string :=
  if json.htmlSafe b then String (byte_to b) ""
  else if (b =? 92) || (b =? 34) then String (byte_to 92) (String (byte_to b) "")
  else if b =? 8 then String (byte_to 92) "b"
  else if b =? 12 then String (byte_to 92) "f"
  else if b =? 10 then String (byte_to 92) "n"
  else if b =? 13 then String (byte_to 92) "r"
  else if b =? 9 then String (byte_to 92) "t"
  else String (byte_to 92) "u00" +:+ json.hex_at (Z.shiftr b 4) +:+ json.hex_at (Z.land b 15).

(** An ASCII byte. *)
Definition ascii_byte (b : Z) : bool := b <? 128.

(** The first [size] bytes of [s] are the UTF-8 encoding of the rune
    [r]: one of the well-formed byte sequences, shortest form only, no
    surrogate half, nothing above U+10FFFF. *)
Definition rune_at (s : string) (r : Z) (size : nat) : Prop :=
  (size <= String.length s)%nat
  /\ let b k := at_index s k in
     match size with
     | 1%nat => b 0%nat < 128 /\ r = b 0%nat
     | 2%nat =>
         194 <= b 0%nat < 224 /\ 128 <= b 1%nat <= 191
         /\ r = (b 0%nat - 192) * 64 + (b 1%nat - 128)
     | 3%nat =>
         224 <= b 0%nat < 240
         /\ (if b 0%nat =? 224 then 160 else 128) <= b 1%nat
            <= (if b 0%nat =? 237 then 159 else 191)
         /\ 128 <= b 2%nat <= 191
         /\ r = (b 0%nat - 224) * 4096 + (b 1%nat - 128) * 64 + (b 2%nat - 128)
     | 4%nat =>
         240 <= b 0%nat <= 244
         /\ (if b 0%nat =? 240 then 144 else 128) <= b 1%nat
            <= (if b 0%nat =? 244 then 143 else 191)
         /\ 128 <= b 2%nat <= 191
         /\ 128 <= b 3%nat <= 191
         /\ r = (b 0%nat - 240) * 262144 + (b 1%nat - 128) * 4096
                + (b 2%nat - 128) * 64 + (b 3%nat - 128)
     | _ => False
     end.

(** Every rune of [s], read from the start with [DecodeRuneInString],
    satisfies [p], which is given the rune and its width. *)
Fixpoint runes_from (p : Z -> nat -> bool) (fuel : nat) (s : string) : bool :=
  match s, fuel with
  | "", _ => true
  | _, O => false
  | _, S fuel' =>
      let '(r, size) := utf8.DecodeRuneInString s in
      p r size && runes_from p fuel' (slice_from s size)
  end.

Definition all_runes (p : Z -> nat -> bool) (s : string) : bool :=
  runes_from p (String.length s) s.

(** Well-formed UTF-8: no byte of [s] decodes to the error rune of
    width 1. *)
Definition valid_utf8 (s : string) : bool :=
  all_runes (fun r size => negb ((r =? utf8.RuneError) && (size =? 1)%nat)) s.

(** White space and nothing else: every rune of [s] is a space of
    [unicode.IsSpace]. *)
Definition blank (s : string) : bool :=
  all_runes (fun r _ => unicode.IsSpace r) s.

(** [t] is [s] without the white space around it: [s] is [t] between two
    strings of white space, and no white space opens or closes [t]. *)
Definition trims_to (s t : string) : Prop :=
  exists pre post,
    s = pre +:+ t +:+ post
    /\ blank pre = true
    /\ blank post = true
    /\ (forall a b, t = a +:+ b -> blank a = true -> a = "")
    /\ (forall a b, t = a +:+ b -> blank b = true -> b = "").

(** *** Inputs of the examples *)

(** An environment with a key and nothing else. *)
Definition env_key : gmap string string := {[ openRouterAPIKeyEnv := "secret" ]}.

(** An environment with a key and a system prompt. *)
Definition env_prompt : gmap string string :=
  <[ openRouterSystemPromptEnv := "X" ]> env_key.

(** An environment whose key is one space. *)
Definition env_blank_key : gmap string string := {[ openRouterAPIKeyEnv := " " ]}.

(** A network that answers every request with the same outcome. *)
Definition always (outcome : http.Response + error)
  : http.Client -> http.Request -> http.Response + error :=
  fun _ _ => outcome.

(** An environment with another key, a prompt, and a variable that the
    summarizer has no use for. *)
Definition env_other : gmap string string :=
  <[ "HOME" := "/home/atlantis" ]>
    (<[ openRouterSystemPromptEnv := "Summarize." ]>
       {[ openRouterAPIKeyEnv := "another secret" ]}).

(** The environment [env_key] with the prompt set to the empty string and
    a variable that the summarizer has no use for. *)
Definition env_key_padded : gmap string string :=
  <[ "HOME" := "/home/atlantis" ]> (<[ openRouterSystemPromptEnv := "" ]> env_key).

(** The bodies of the specification's examples. *)
Definition body_summary : string :=
  quoted "{'choices':[{'message':{'role':'assistant','content':'  Summary text.  '}}]}".

Definition body_error_and_choices : string :=
  quoted "{'error':{'message':'bad key','type':'auth'},'choices':[{'message':{'role':'assistant','content':'Summary text.'}}]}".

Definition body_no_choices : string := quoted "{'choices':[],'error':null}".

(** A body whose content is a space, a line feed and a tab. *)
Definition body_blank : string :=
  quoted "{'choices':[{'message':{'content':' \n\t'}}]}".

(** The outcomes of the HTTP exchange that the specification counts as
    failures, by category: the transport fails (a timeout included), the
    body cannot be read, the status is not 200, the body is not the JSON
    of a response, the response carries an error object, it has no
    choice, or the content of its first choice is blank. *)
Inductive failure : http.Response + error -> Prop :=
| transport_failure (err : error) :
    failure (inr err)
| unreadable_body (resp : http.Response) (err : error) :
    io.failure (http.Body resp) = Some err ->
    failure (inl resp)
| error_status (resp : http.Response) :
    http.StatusCode resp <> http.StatusOK ->
    failure (inl resp)
| unparseable_json (resp : http.Response) (err : error) :
    json.Unmarshal (io.data (http.Body resp)) = inr err ->
    failure (inl resp)
| api_error (resp : http.Response) (r : openRouterResponse) (e : openRouterError) :
    json.Unmarshal (io.data (http.Body resp)) = inl r ->
    Error r = Some e ->
    failure (inl resp)
| empty_choices (resp : http.Response) (r : openRouterResponse) :
    json.Unmarshal (io.data (http.Body resp)) = inl r ->
    Choices r = [] ->
    failure (inl resp)
| empty_content (resp : http.Response) (r : openRouterResponse)
                (c : openRouterChoice) (cs : list openRouterChoice) :
    json.Unmarshal (io.data (http.Body resp)) = inl r ->
    Choices r = c :: cs ->
    strings.TrimSpace (Content (choice_Message c)) = "" ->
    failure (inl resp).

(** What the server reads of a run [t]: the run sent one request and no
    other, the body of the request is a JSON object with the model and
    an array of two messages, the first with role system, and the
    content of that message, read as a JSON string, is [text]. *)
Definition sent_system_content (t : list event) (text : string) : Prop :=
  exists req literal user,
    requests t = [req]
    /\ jsonsyntax.parse (http.Payload req)
       = Some (jsonsyntax.Object
                 [ ("model", jsonsyntax.Str "anthropic/claude-sonnet-4.5");
                   ("messages",
                    jsonsyntax.Array
                      [ jsonsyntax.Object
                          [ ("role", jsonsyntax.Str "system");
                            ("content", jsonsyntax.Str literal) ];
                        user ]) ])
    /\ json.unquote literal = Some text.

(** The same for the second message, with role user. *)
Definition sent_user_content (t : list event) (text : string) : Prop :=
  exists req system literal,
    requests t = [req]
    /\ jsonsyntax.parse (http.Payload req)
       = Some (jsonsyntax.Object
                 [ ("model", jsonsyntax.Str "anthropic/claude-sonnet-4.5");
                   ("messages",
                    jsonsyntax.Array
                      [ system;
                        jsonsyntax.Object
                          [ ("role", jsonsyntax.Str "user");
                            ("content", jsonsyntax.Str literal) ] ]) ])
    /\ json.unquote literal = Some text.

(** A plan with a letter outside ASCII, the bytes 195 169 of U+00E9. *)
Definition plan_accent : string :=
  "caf" +:+ String (byte_to 195) (String (byte_to 169) "").

(** A plan that is not well-formed UTF-8: the byte 255 is never part of
    an encoding, and the byte 195 announces a second byte that is not
    there. *)
Definition plan_ill_formed : string :=
  "bad" +:+ String (byte_to 255) (String (byte_to 195) "").

(** An environment whose prompt is the one byte 255. *)
Definition env_prompt_ill_formed : gmap string string :=
  <[ openRouterSystemPromptEnv := String (byte_to 255) "" ]> env_key.

(** * Properties *)

(** ** The library models on the inputs of the specification *)

Example TrimSpace_summary_text :
  strings.TrimSpace "  Summary text.  " = "Summary text.".
Proof. vm_compute. reflexivity. Qed.

Example TrimSpace_blank : strings.TrimSpace " " = "".
Proof. vm_compute. reflexivity. Qed.

Example planSeparator_bytes :
  map byte_of (list_ascii_of_string planSeparator) = [10; 10; 45; 45; 45; 10; 10].
Proof. vm_compute. reflexivity. Qed.

Lemma append_assoc (a b c : string) : (a +:+ b) +:+ c = a +:+ b +:+ c.
Proof.
  induction a as [|x a IH]; [reflexivity|].
  change (String x ((a +:+ b) +:+ c) = String x (a +:+ b +:+ c)).
  f_equal. exact IH.
Qed.

Lemma append_empty_r (a : string) : a +:+ "" = a.
Proof.
  induction a as [|x a IH]; [reflexivity|].
  change (String x (a +:+ "") = String x a). f_equal. exact IH.
Qed.

(** [Join] writes the elements in order with the separator between
    them: it is the [concat] of the standard library. *)
Lemma Join_concat (elems : list string) (sep : string) :
  strings.Join elems sep = String.concat sep elems.
Proof.
  destruct elems as [|e rest]; [reflexivity|].
  unfold strings.Join.
  assert (H : forall (pre : string) (l : list string) (x : string),
             foldl (fun b s => b +:+ sep +:+ s) (pre +:+ x) l
             = pre +:+ String.concat sep (x :: l)).
  { intros pre l. revert pre.
    induction l as [|y l IH]; intros pre x.
    - reflexivity.
    - change (foldl (fun b s => b +:+ sep +:+ s) ((pre +:+ x) +:+ sep +:+ y) l
              = pre +:+ x +:+ sep +:+ String.concat sep (y :: l)).
      replace ((pre +:+ x) +:+ sep +:+ y) with ((pre +:+ x +:+ sep) +:+ y)
        by (rewrite !append_assoc; reflexivity).
      rewrite IH, !append_assoc. reflexivity. }
  apply (H "" rest e).
Qed.

Lemma Join_two (a b sep : string) : strings.Join [a; b] sep = a +:+ sep +:+ b.
Proof. reflexivity. Qed.

(** ** The loops of [TrimSpace] *)

(** A substring that lies within the string has the length asked for. *)
Lemma length_substring (s : string) (n m : nat) :
  (n + m <= String.length s)%nat -> String.length (String.substring n m s) = m.
Proof.
  revert n m. induction s as [|c s IH]; intros n m H; simpl in H.
  - assert (n = 0%nat) by lia. assert (m = 0%nat) by lia. subst. reflexivity.
  - destruct n as [|n]; destruct m as [|m]; simpl.
    + reflexivity.
    + f_equal. apply IH. lia.
    + apply IH. lia.
    + apply IH. lia.
Qed.

Lemma length_slice (s : string) (lo hi : nat) :
  (lo <= hi)%nat -> (hi <= String.length s)%nat -> String.length (slice s lo hi) = (hi - lo)%nat.
Proof. intros H1 H2. unfold slice. apply length_substring. lia. Qed.

(** A rune of a string that is not empty takes at least one byte. *)
Lemma DecodeRuneInString_width (s : string) :
  (1 <= String.length s)%nat -> (1 <= (utf8.DecodeRuneInString s).2)%nat.
Proof.
  intros H. unfold utf8.DecodeRuneInString.
  destruct (String.length s <? 1)%nat eqn:E; [apply Nat.ltb_lt in E; lia|].
  destruct (utf8.first (at_index s 0)); simpl; try lia.
  repeat match goal with
         | |- context [if ?b then _ else _] => destruct b
         end; simpl; lia.
Qed.

(** The loops of [TrimSpace] have the fuel they need: with more than the
    number of bytes still to visit, the amount of fuel does not matter.
    [TrimSpace] gives each loop one more than the length of the string. *)
Lemma index_not_stable (f : Z -> bool) (s : string) (fuel1 fuel2 i : nat) :
  (String.length s - i < fuel1)%nat -> (String.length s - i < fuel2)%nat ->
  strings.index_not f fuel1 s i = strings.index_not f fuel2 s i.
Proof.
  revert fuel2 i. induction fuel1 as [|k IH]; intros fuel2 i H1 H2; [lia|].
  destruct fuel2 as [|k2]; [lia|].
  cbn [strings.index_not].
  destruct (String.length s <=? i)%nat eqn:E; [reflexivity|].
  apply Nat.leb_gt in E.
  pose proof (DecodeRuneInString_width (slice_from s i)) as Hw.
  destruct (utf8.DecodeRuneInString (slice_from s i)) as [r size].
  destruct (negb (f r)); [reflexivity|].
  unfold slice_from in Hw. rewrite length_slice in Hw by lia. simpl in Hw.
  apply IH; lia.
Qed.

Lemma scan_back_le (s : string) (steps : nat) (start lim : Z) :
  utf8.scan_back s steps start lim <= start.
Proof.
  revert start. induction steps as [|k IH]; intros start; cbn [utf8.scan_back]; [lia|].
  destruct (start <? lim); [lia|].
  destruct (utf8.RuneStart _); [lia|].
  specialize (IH (start - 1)). lia.
Qed.

Lemma DecodeLastRuneInString_width (s : string) :
  (1 <= String.length s)%nat -> (1 <= (utf8.DecodeLastRuneInString s).2)%nat.
Proof.
  intros H. unfold utf8.DecodeLastRuneInString.
  destruct (String.length s =? 0)%nat eqn:E; [apply Nat.eqb_eq in E; lia|].
  destruct (_ <? utf8.RuneSelf); [simpl; lia|].
  cbv zeta.
  match goal with |- context [utf8.scan_back ?a ?b ?c ?d] =>
    pose proof (scan_back_le a b c d) as Hle; set (st := utf8.scan_back a b c d) in * end.
  destruct (utf8.DecodeRuneInString _) as [r size].
  destruct (negb _) eqn:Hchk; [simpl; lia|].
  apply negb_false_iff, Z.eqb_eq in Hchk. simpl.
  destruct (st <? 0) eqn:Hneg; [apply Z.ltb_lt in Hneg | apply Z.ltb_ge in Hneg]; lia.
Qed.

Lemma last_index_not_stable (f : Z -> bool) (s : string) (fuel1 fuel2 i : nat) :
  (i <= String.length s)%nat -> (i < fuel1)%nat -> (i < fuel2)%nat ->
  strings.last_index_not f fuel1 s i = strings.last_index_not f fuel2 s i.
Proof.
  revert fuel2 i. induction fuel1 as [|k IH]; intros fuel2 i Hi H1 H2; [lia|].
  destruct fuel2 as [|k2]; [lia|].
  cbn [strings.last_index_not].
  destruct (i =? 0)%nat eqn:E; [reflexivity|].
  apply Nat.eqb_neq in E.
  pose proof (DecodeLastRuneInString_width (slice s 0 i)) as Hw.
  destruct (utf8.DecodeLastRuneInString (slice s 0 i)) as [r size].
  cbv zeta.
  destruct (negb (f r)); [reflexivity|].
  rewrite length_slice in Hw by lia. simpl in Hw.
  apply IH; lia.
Qed.

Lemma trim_start_stable (s : string) (fuel1 fuel2 start : nat) :
  (String.length s - start < fuel1)%nat -> (String.length s - start < fuel2)%nat ->
  strings.trim_start fuel1 s start = strings.trim_start fuel2 s start.
Proof.
  revert fuel2 start. induction fuel1 as [|k IH]; intros fuel2 start H1 H2; [lia|].
  destruct fuel2 as [|k2]; [lia|].
  cbn [strings.trim_start].
  destruct (String.length s <=? start)%nat eqn:E; [reflexivity|].
  apply Nat.leb_gt in E. cbv zeta.
  destruct (utf8.RuneSelf <=? _); [reflexivity|].
  destruct (negb _); [reflexivity|].
  apply IH; lia.
Qed.

Lemma trim_stop_stable (s : string) (fuel1 fuel2 start stop : nat) :
  (stop - start < fuel1)%nat -> (stop - start < fuel2)%nat ->
  strings.trim_stop fuel1 s start stop = strings.trim_stop fuel2 s start stop.
Proof.
  revert fuel2 stop. induction fuel1 as [|k IH]; intros fuel2 stop H1 H2; [lia|].
  destruct fuel2 as [|k2]; [lia|].
  cbn [strings.trim_stop].
  destruct (stop <=? start)%nat eqn:E; [reflexivity|].
  apply Nat.leb_gt in E. cbv zeta.
  destruct (utf8.RuneSelf <=? _); [reflexivity|].
  destruct (negb _); [reflexivity|].
  apply IH; lia.
Qed.

(** ** What [TrimSpace] trims *)

(** Bytes and lengths of strings put end to end. *)
Lemma length_append (a b : string) :
  String.length (a +:+ b) = (String.length a + String.length b)%nat.
Proof.
  induction a as [|x a IH]; [reflexivity|].
  change (S (String.length (a +:+ b)) = S (String.length a + String.length b)).
  f_equal. exact IH.
Qed.

Lemma at_index_app_r (a b : string) (i : nat) :
  at_index (a +:+ b) (String.length a + i) = at_index b i.
Proof.
  induction a as [|x a IH]; [reflexivity|]. exact IH.
Qed.

Lemma at_index_app_l (a b : string) (i : nat) :
  (i < String.length a)%nat -> at_index (a +:+ b) i = at_index a i.
Proof.
  revert i. induction a as [|x a IH]; intros i H; simpl in H; [lia|].
  destruct i as [|i]; [reflexivity|].
  apply (IH i). lia.
Qed.

Lemma all_bytes_at (p : Z -> bool) (s : string) (i : nat) :
  all_bytes p s = true -> (i < String.length s)%nat -> p (at_index s i) = true.
Proof.
  revert i. induction s as [|c s IH]; intros i Hall Hi; simpl in Hi; [lia|].
  simpl in Hall. apply andb_true_iff in Hall as [Hc Hs].
  destruct i as [|i]; [exact Hc|].
  apply (IH i Hs). lia.
Qed.

Lemma asciiSpace_ascii (c : Z) :
  strings.asciiSpace c = true -> (utf8.RuneSelf <=? c) = false.
Proof.
  unfold strings.asciiSpace, utf8.RuneSelf. intros H.
  apply Z.leb_gt.
  repeat (apply orb_true_iff in H as [H|H]); apply Z.eqb_eq in H; lia.
Qed.

Lemma substring_middle (pre mid post : string) :
  String.substring (String.length pre) (String.length mid) (pre +:+ mid +:+ post) = mid.
Proof.
  induction pre as [|x pre IH]; [|exact IH].
  change ("" +:+ mid +:+ post) with (mid +:+ post). simpl String.length.
  induction mid as [|y mid IHm].
  - destruct post; reflexivity.
  - change (String y (String.substring 0 (String.length mid) (mid +:+ post)) = String y mid).
    f_equal. exact IHm.
Qed.

(** The first loop of [TrimSpace] stops after a prefix of ASCII white
    space, the second before a suffix of it. *)
Lemma trim_start_blank_prefix (pre rest : string) (fuel start : nat) :
  all_bytes strings.asciiSpace pre = true ->
  rest = "" \/ opens_with_text rest ->
  (start <= String.length pre)%nat ->
  (String.length (pre +:+ rest) - start < fuel)%nat ->
  strings.trim_start fuel (pre +:+ rest) start = inl (String.length pre).
Proof.
  intros Hpre Hrest. revert start.
  induction fuel as [|k IH]; intros start Hs Hf; [lia|].
  cbn [strings.trim_start]. rewrite length_append in *.
  destruct (_ <=? start)%nat eqn:E.
  - apply Nat.leb_le in E. f_equal. lia.
  - apply Nat.leb_gt in E. cbv zeta.
    destruct (Nat.eq_dec start (String.length pre)) as [->|Hne].
    + destruct Hrest as [->|(Hlen & Hascii & Hnsp)]; [simpl in E; lia|].
      pose proof (at_index_app_r pre rest 0) as Hidx.
      rewrite Nat.add_0_r in Hidx. rewrite Hidx.
      apply Z.leb_gt in Hascii. rewrite Hascii, Hnsp. reflexivity.
    + assert (Hlt : (start < String.length pre)%nat) by lia.
      rewrite at_index_app_l by exact Hlt.
      pose proof (all_bytes_at _ _ _ Hpre Hlt) as Hsp.
      rewrite (asciiSpace_ascii _ Hsp), Hsp. simpl negb. cbv iota.
      apply IH; lia.
Qed.

Lemma trim_stop_blank_suffix (body post : string) (fuel start stop : nat) :
  all_bytes strings.asciiSpace post = true ->
  closes_with_text body ->
  (start < String.length body)%nat ->
  (String.length body <= stop)%nat ->
  (stop <= String.length body + String.length post)%nat ->
  (stop - start < fuel)%nat ->
  strings.trim_stop fuel (body +:+ post) start stop = inl (String.length body).
Proof.
  intros Hpost (Hlen & Hascii & Hnsp) Hstart. revert stop.
  induction fuel as [|k IH]; intros stop Hlo Hhi Hf; [lia|].
  cbn [strings.trim_stop].
  destruct (stop <=? start)%nat eqn:E; [apply Nat.leb_le in E; lia|].
  cbv zeta.
  destruct (Nat.eq_dec stop (String.length body)) as [->|Hne].
  - rewrite at_index_app_l by lia.
    apply Z.leb_gt in Hascii. rewrite Hascii, Hnsp. reflexivity.
  - replace (stop - 1)%nat with (String.length body + (stop - 1 - String.length body))%nat by lia.
    rewrite at_index_app_r.
    assert (Hlt : (stop - 1 - String.length body < String.length post)%nat) by lia.
    pose proof (all_bytes_at _ _ _ Hpost Hlt) as Hsp.
    rewrite (asciiSpace_ascii _ Hsp), Hsp. simpl negb. cbv iota.
    replace (String.length body + (stop - 1 - String.length body))%nat with (stop - 1)%nat by lia.
    apply IH; lia.
Qed.

(** [TrimSpace] on text between ASCII white space: it gives the text. *)
Lemma TrimSpace_between_blanks (pre mid post : string) :
  all_bytes strings.asciiSpace pre = true ->
  all_bytes strings.asciiSpace post = true ->
  opens_with_text mid ->
  closes_with_text mid ->
  strings.TrimSpace (pre +:+ mid +:+ post) = mid.
Proof.
  intros Hpre Hpost Hopen Hclose.
  assert (Hlen : (1 <= String.length mid)%nat) by (destruct Hopen; assumption).
  unfold strings.TrimSpace.
  rewrite (trim_start_blank_prefix pre (mid +:+ post)).
  - rewrite <- append_assoc.
    rewrite (trim_stop_blank_suffix (pre +:+ mid) post).
    + rewrite append_assoc. unfold slice. rewrite length_append.
      replace (String.length pre + String.length mid - String.length pre)%nat
        with (String.length mid) by lia.
      apply substring_middle.
    + exact Hpost.
    + destruct Hclose as (_ & Hascii & Hnsp). unfold closes_with_text.
      rewrite length_append.
      replace (String.length pre + String.length mid - 1)%nat
        with (String.length pre + (String.length mid - 1))%nat by lia.
      rewrite at_index_app_r. repeat split; [lia | exact Hascii | exact Hnsp].
    + rewrite length_append. lia.
    + rewrite !length_append. lia.
    + rewrite !length_append. lia.
    + rewrite !length_append. lia.
  - exact Hpre.
  - right. destruct Hopen as (_ & Hascii & Hnsp). unfold opens_with_text.
    rewrite length_append.
    rewrite at_index_app_l by lia.
    repeat split; [lia | exact Hascii | exact Hnsp].
  - lia.
  - rewrite !length_append. lia.
Qed.

(** [TrimSpace] on ASCII white space alone: nothing is left. *)
Lemma TrimSpace_all_blank (s : string) :
  all_bytes strings.asciiSpace s = true -> strings.TrimSpace s = "".
Proof.
  intros Hs. unfold strings.TrimSpace.
  pose proof (trim_start_blank_prefix s "" (S (String.length s)) 0 Hs (or_introl eq_refl)) as H.
  rewrite append_empty_r in H. rewrite H by lia.
  assert (Hstop : forall fuel, strings.trim_stop fuel s (String.length s) (String.length s)
                               = inl (String.length s)).
  { intros [|k]; [reflexivity|]. cbn [strings.trim_stop]. rewrite Nat.leb_refl. reflexivity. }
  rewrite Hstop. unfold slice. rewrite Nat.sub_diag.
  clear. generalize (String.length s). induction s as [|c s IH]; intros [|n]; simpl; auto.
Qed.

(** ** The steps of [SummarizePlans] *)

Lemma Getenv_unset (environ : gmap string string) (key : string) :
  environ !! key = None -> os.Getenv environ key = "".
Proof. intros H. unfold os.Getenv. rewrite H. reflexivity. Qed.

Lemma Getenv_set (environ : gmap string string) (key value : string) :
  environ !! key = Some value -> os.Getenv environ key = value.
Proof. intros H. unfold os.Getenv. rewrite H. reflexivity. Qed.

Lemma NewRequest_POST (body : string) :
  http.NewRequest "POST" openRouterURL body
  = inl {| http.Method := "POST"; http.URL := openRouterURL; http.Header := ∅;
           http.Payload := body |}.
Proof. reflexivity. Qed.

Section Steps.

Variable environ : gmap string string.
Variable Do : http.Client -> http.Request -> http.Response + error.

(** No plan: one debug line, nothing else. *)
Lemma SummarizePlans_no_plan :
  SummarizePlans environ Do [] = ("", [Debug "no terraform outputs to summarize" []]).
Proof. reflexivity. Qed.

(** No key: one debug line, nothing else. *)
Lemma SummarizePlans_no_key (terraformOutputs : list string) :
  terraformOutputs <> [] ->
  os.Getenv environ openRouterAPIKeyEnv = "" ->
  SummarizePlans environ Do terraformOutputs
  = ("", [Debug "OPENROUTER_API_KEY not set, skipping plan summarization" []]).
Proof.
  intros Hne Hkey. unfold SummarizePlans.
  destruct terraformOutputs as [|p ps]; [congruence|].
  simpl length. simpl Nat.eqb. cbv iota. rewrite Hkey. reflexivity.
Qed.

(** Plans and a key: the request goes out, and the rest depends on what
    comes back. *)
Lemma SummarizePlans_sent (terraformOutputs : list string) :
  terraformOutputs <> [] ->
  os.Getenv environ openRouterAPIKeyEnv <> "" ->
  let req := sentRequest environ terraformOutputs (os.Getenv environ openRouterAPIKeyEnv) in
  SummarizePlans environ Do terraformOutputs
  = emit (Debug "sending plan to OpenRouter for summarization" [])
      (emit (ClientDo summarizerClient req)
         match Do summarizerClient req with
         | inr err =>
             emit (Warn "failed to send request to OpenRouter: %s" [OpString err]) (ret "")
         | inl resp => defer BodyClose (readSummary resp)
         end).
Proof.
  intros Hne Hkey req. unfold SummarizePlans.
  destruct terraformOutputs as [|p ps]; [congruence|].
  simpl length. simpl Nat.eqb. cbv iota.
  apply String.eqb_neq in Hkey. rewrite Hkey.
  unfold json.Marshal. rewrite NewRequest_POST. reflexivity.
Qed.

(** The requests of a run: none without plans or without a key, else
    the one request [sentRequest]. *)
Lemma SummarizePlans_requests (terraformOutputs : list string) :
  requests (SummarizePlans environ Do terraformOutputs).2
  = if (length terraformOutputs =? 0)%nat
       || String.eqb (os.Getenv environ openRouterAPIKeyEnv) ""
    then []
    else [sentRequest environ terraformOutputs (os.Getenv environ openRouterAPIKeyEnv)].
Proof.
  destruct terraformOutputs as [|p ps]; [reflexivity|].
  simpl length. simpl Nat.eqb. simpl orb.
  destruct (String.eqb (os.Getenv environ openRouterAPIKeyEnv) "") eqn:Hkey.
  - apply String.eqb_eq in Hkey.
    rewrite SummarizePlans_no_key by (congruence || assumption). reflexivity.
  - apply String.eqb_neq in Hkey.
    rewrite SummarizePlans_sent by (congruence || assumption).
    cbv zeta. simpl. f_equal.
    destruct (Do _ _) as [resp|err]; [|reflexivity].
    unfold defer. simpl.
    unfold readSummary.
    destruct (io.ReadAll _) as [body [err|]]; [reflexivity|].
    destruct (negb _); [reflexivity|].
    destruct (json.Unmarshal body) as [r|err]; [|reflexivity].
    destruct (Error r); [reflexivity|].
    destruct (Choices r); [reflexivity|].
    destruct (String.eqb _ ""); reflexivity.
Qed.

End Steps.

(** ** From the response to the summary *)

Lemma emit_result (e : event) (k : run) : (emit e k).1 = k.1.
Proof. reflexivity. Qed.

Lemma defer_result (e : event) (k : run) : (defer e k).1 = k.1.
Proof. reflexivity. Qed.

(** The summary that a response gives when the body reads to its end,
    the status is 200 and the body decodes. *)
Lemma readSummary_decoded (resp : http.Response) (r : openRouterResponse) :
  io.failure (http.Body resp) = None ->
  http.StatusCode resp = http.StatusOK ->
  json.Unmarshal (io.data (http.Body resp)) = inl r ->
  readSummary resp
  = match Error r with
    | Some e =>
        ("", [Warn "OpenRouter API error: %s (type: %s)"
                   [OpString (error_Message e); OpString (error_Type e)]])
    | None =>
        match Choices r with
        | [] => ("", [Warn "OpenRouter response contained no choices" []])
        | choice0 :: _ =>
            let summary := strings.TrimSpace (Content (choice_Message choice0)) in
            if String.eqb summary "" then ("", [Warn "OpenRouter returned empty summary" []])
            else (summary, [Debug "successfully received summary from OpenRouter" []])
        end
    end.
Proof.
  intros Hread Hstatus Hjson. unfold readSummary, io.ReadAll.
  rewrite Hread, Hstatus, Hjson. simpl negb. cbv iota.
  destruct (Error r); [reflexivity|].
  destruct (Choices r); [reflexivity|].
  cbv zeta. destruct (String.eqb _ ""); reflexivity.
Qed.

(** A failure of the exchange gives the empty summary. *)
Lemma readSummary_failure (resp : http.Response) :
  failure (inl resp) -> (readSummary resp).1 = "".
Proof.
  intros Hf.
  destruct (io.failure (http.Body resp)) as [err|] eqn:Hread.
  { unfold readSummary, io.ReadAll. rewrite Hread. reflexivity. }
  destruct (http.StatusCode resp =? http.StatusOK) eqn:Hstatus.
  2:{ unfold readSummary, io.ReadAll. rewrite Hread, Hstatus. reflexivity. }
  apply Z.eqb_eq in Hstatus.
  destruct (json.Unmarshal (io.data (http.Body resp))) as [r|err] eqn:Hjson.
  2:{ unfold readSummary, io.ReadAll. rewrite Hread, Hstatus, Hjson. reflexivity. }
  rewrite (readSummary_decoded resp r Hread Hstatus Hjson).
  inversion Hf as [ | ? err Hr | ? Hs | ? err Hu | ? r' e Hu He | ? r' Hu Hc
                  | ? r' c cs Hu Hc Ht ]; subst.
  - congruence.
  - congruence.
  - congruence.
  - assert (r' = r) by congruence. subst r'. rewrite He. reflexivity.
  - assert (r' = r) by congruence. subst r'.
    destruct (Error r); [reflexivity|]. rewrite Hc. reflexivity.
  - assert (r' = r) by congruence. subst r'.
    destruct (Error r); [reflexivity|]. rewrite Hc. cbv zeta. rewrite Ht. reflexivity.
Qed.

(** The failure categories are all the ways to an empty summary: a
    response that is in none of them gives a summary that is not empty. *)
Lemma readSummary_empty (resp : http.Response) :
  (readSummary resp).1 = "" -> failure (inl resp).
Proof.
  intros Hempty.
  destruct (io.failure (http.Body resp)) as [err|] eqn:Hread.
  { eapply unreadable_body. exact Hread. }
  destruct (http.StatusCode resp =? http.StatusOK) eqn:Hstatus.
  2:{ apply error_status. apply Z.eqb_neq. exact Hstatus. }
  apply Z.eqb_eq in Hstatus.
  destruct (json.Unmarshal (io.data (http.Body resp))) as [r|err] eqn:Hjson.
  2:{ eapply unparseable_json. exact Hjson. }
  rewrite (readSummary_decoded resp r Hread Hstatus Hjson) in Hempty.
  destruct (Error r) as [e|] eqn:He.
  { eapply api_error; eassumption. }
  destruct (Choices r) as [|c cs] eqn:Hc.
  { eapply empty_choices; eassumption. }
  cbv zeta in Hempty.
  destruct (String.eqb (strings.TrimSpace (Content (choice_Message c))) "") eqn:Hblank.
  - apply String.eqb_eq in Hblank. eapply empty_content; eassumption.
  - apply String.eqb_neq in Hblank. simpl in Hempty. contradiction.
Qed.

(** X4. With plans and a key, the summary is empty exactly when the
    exchange for the request sent ends in one of the failure categories:
    every other outcome gives a summary that is not empty. *)
Lemma empty_iff_failure (environ : gmap string string)
      (Do : http.Client -> http.Request -> http.Response + error)
      (terraformOutputs : list string) :
  terraformOutputs <> [] ->
  os.Getenv environ openRouterAPIKeyEnv <> "" ->
  (SummarizePlans environ Do terraformOutputs).1 = ""
  <-> failure (Do summarizerClient
                  (sentRequest environ terraformOutputs
                               (os.Getenv environ openRouterAPIKeyEnv))).
Proof.
  intros Hout Hkey.
  rewrite SummarizePlans_sent by assumption. cbv zeta. rewrite !emit_result.
  destruct (Do _ _) as [resp|err].
  - rewrite defer_result. split; [apply readSummary_empty | apply readSummary_failure].
  - split; [intros _; apply transport_failure | reflexivity].
Qed.

(** Members that select no field leave the struct as it was. *)
Lemma decode_members_skip {A : Type} (set : string -> jsonsyntax.value -> A -> A + error)
      (names : list string) (ms : list (string * jsonsyntax.value)) (old : A) :
  forallb (selects_no_field names) ms = true ->
  json.decode_members set names ms old = inl old.
Proof.
  induction ms as [|[rawkey v] ms IH]; intros Hall; [reflexivity|].
  simpl in Hall. apply andb_true_iff in Hall as [Hm Hms].
  unfold selects_no_field in Hm. simpl in Hm.
  cbn [json.decode_members].
  destruct (json.unquote rawkey) as [key|]; [|discriminate].
  destruct (json.find_field names key); [discriminate|].
  apply IH. exact Hms.
Qed.

(** A document that omits the fields decodes to the zero response. *)
Lemma Unmarshal_omits_fields (body : string) (v : jsonsyntax.value) :
  jsonsyntax.parse body = Some v ->
  omits_fields v = true ->
  json.Unmarshal body = inl {| Choices := []; Error := None |}.
Proof.
  intros Hparse Homits. unfold json.Unmarshal. rewrite Hparse.
  destruct v as [| | | |vs|ms]; try discriminate.
  - reflexivity.
  - unfold json.decode_struct.
    rewrite decode_members_skip by exact Homits. reflexivity.
Qed.

(** ** The claims *)

Section Claims.

Variable environ : gmap string string.
Variable Do : http.Client -> http.Request -> http.Response + error.

(** C1. Whatever the plans, when the HTTP exchange ends in one of the
    failure categories (transport failure or timeout, unreadable body,
    status other than 200, body that does not parse, API error object, no
    choice, blank content), [SummarizePlans] returns the empty string.
    The function is total and its result is a string: there is no error
    that it could raise instead. *)
Theorem failure_gives_empty_string (terraformOutputs : list string) :
  (forall client req, failure (Do client req)) ->
  (SummarizePlans environ Do terraformOutputs).1 = "".
Proof.
  intros Hfail.
  destruct terraformOutputs as [|p ps] eqn:Hout; [reflexivity|].
  destruct (String.eqb (os.Getenv environ openRouterAPIKeyEnv) "") eqn:Hkey.
  - apply String.eqb_eq in Hkey.
    rewrite SummarizePlans_no_key by (congruence || assumption). reflexivity.
  - apply String.eqb_neq in Hkey.
    rewrite SummarizePlans_sent by (congruence || assumption).
    cbv zeta. rewrite !emit_result.
    match goal with |- context [Do ?c ?r] => specialize (Hfail c r); destruct (Do c r) as [resp|err] end.
    + rewrite defer_result. apply readSummary_failure. exact Hfail.
    + reflexivity.
Qed.

(** C2. Whatever the plans, when OPENROUTER_API_KEY is unset or empty,
    [SummarizePlans] returns the empty string and gives no request to
    the HTTP client. *)
Theorem no_key_no_request (terraformOutputs : list string) :
  environ !! openRouterAPIKeyEnv = None \/ environ !! openRouterAPIKeyEnv = Some "" ->
  (SummarizePlans environ Do terraformOutputs).1 = ""
  /\ requests (SummarizePlans environ Do terraformOutputs).2 = [].
Proof.
  intros Hkey.
  assert (Hget : os.Getenv environ openRouterAPIKeyEnv = "").
  { destruct Hkey as [H|H]; [apply Getenv_unset | apply Getenv_set]; exact H. }
  destruct terraformOutputs as [|p ps]; [split; reflexivity|].
  rewrite SummarizePlans_no_key by (congruence || assumption).
  split; reflexivity.
Qed.

(** C3. With no plan, whatever the environment, [SummarizePlans] returns
    the empty string at once: its only effect is one debug line, and no
    request is given to the HTTP client. *)
Theorem no_plan_no_request :
  SummarizePlans environ Do [] = ("", [Debug "no terraform outputs to summarize" []])
  /\ (SummarizePlans environ Do []).1 = ""
  /\ requests (SummarizePlans environ Do []).2 = [].
Proof. repeat split. Qed.

(** What goes out when there are plans and a key: one request, whose
    body is the JSON of [reqBody] and whose headers are those of
    [withHeaders]. *)
Lemma one_request (terraformOutputs : list string) :
  terraformOutputs <> [] ->
  os.Getenv environ openRouterAPIKeyEnv <> "" ->
  requests (SummarizePlans environ Do terraformOutputs).2
  = [sentRequest environ terraformOutputs (os.Getenv environ openRouterAPIKeyEnv)].
Proof.
  intros Hout Hkey. rewrite SummarizePlans_requests.
  destruct terraformOutputs as [|p ps]; [congruence|].
  apply String.eqb_neq in Hkey. rewrite Hkey. reflexivity.
Qed.

(** Every request of a run carries the JSON of [reqBody]. *)
Lemma request_payload (terraformOutputs : list string) (req : http.Request) :
  In req (requests (SummarizePlans environ Do terraformOutputs).2) ->
  json.Marshal (reqBody environ terraformOutputs) = inl (http.Payload req).
Proof.
  rewrite SummarizePlans_requests.
  destruct (_ || _); simpl; [tauto|].
  intros [<-|[]]. reflexivity.
Qed.

(** C7. For a response with status 200 whose body decodes: when the
    error field is there, [SummarizePlans] returns the empty string
    whatever the choices are, and the warning is the one of the API
    error; when there is no error and no choice, it returns the empty
    string with the warning of the missing choices. *)
Theorem error_field_comes_first (terraformOutputs : list string)
        (resp : http.Response) (r : openRouterResponse) :
  terraformOutputs <> [] ->
  os.Getenv environ openRouterAPIKeyEnv <> "" ->
  (forall client req, Do client req = inl resp) ->
  io.failure (http.Body resp) = None ->
  http.StatusCode resp = http.StatusOK ->
  json.Unmarshal (io.data (http.Body resp)) = inl r ->
  (forall e, Error r = Some e ->
     (SummarizePlans environ Do terraformOutputs).1 = ""
     /\ warnings (SummarizePlans environ Do terraformOutputs).2
        = ["OpenRouter API error: %s (type: %s)"])
  /\ (Error r = None -> Choices r = [] ->
      (SummarizePlans environ Do terraformOutputs).1 = ""
      /\ warnings (SummarizePlans environ Do terraformOutputs).2
         = ["OpenRouter response contained no choices"]).
Proof.
  intros Hout Hkey Hdo Hread Hstatus Hjson.
  rewrite SummarizePlans_sent by assumption. cbv zeta. rewrite Hdo.
  rewrite (readSummary_decoded resp r Hread Hstatus Hjson).
  split.
  - intros e He. rewrite He. split; reflexivity.
  - intros He Hc. rewrite He, Hc. split; reflexivity.
Qed.

(** C9. The key is compared with the empty string and nothing else: any
    other value, one made of white space included, counts as a key, and
    the request goes out with that value after Bearer in the
    Authorization header. *)
Theorem any_other_key_is_sent (terraformOutputs : list string) (apiKey : string) :
  terraformOutputs <> [] ->
  environ !! openRouterAPIKeyEnv = Some apiKey ->
  apiKey <> "" ->
  exists req,
    requests (SummarizePlans environ Do terraformOutputs).2 = [req]
    /\ http.Header req !! "Authorization" = Some ["Bearer " +:+ apiKey].
Proof.
  intros Hout Hset Hne.
  apply Getenv_set in Hset.
  eexists. split.
  - apply one_request; [assumption | rewrite Hset; assumption].
  - rewrite Hset. unfold sentRequest, withHeaders, http.Header_Set. cbn [http.Header].
    change (http.CanonicalMIMEHeaderKey "HTTP-Referer") with "Http-Referer".
    change (http.CanonicalMIMEHeaderKey "Content-Type") with "Content-Type".
    change (http.CanonicalMIMEHeaderKey "Authorization") with "Authorization".
    rewrite lookup_insert_ne by discriminate.
    rewrite lookup_insert_ne by discriminate.
    rewrite lookup_insert_eq.
    change (fmt.Sprintf "Bearer %s" [apiKey]) with ("Bearer " +:+ apiKey +:+ "").
    rewrite append_empty_r. reflexivity.
Qed.

(** C10 (amended). A body with status 200 that is the JSON text null, or
    a JSON object none of whose members is choices or error (the empty
    object is one), is not a parse failure: it decodes to a response with
    no error and no choice, and [SummarizePlans] returns the empty string
    with the warning of the missing choices. *)
Theorem document_without_fields_has_no_choices (terraformOutputs : list string)
        (body : string) (v : jsonsyntax.value) :
  terraformOutputs <> [] ->
  os.Getenv environ openRouterAPIKeyEnv <> "" ->
  jsonsyntax.parse body = Some v ->
  omits_fields v = true ->
  (forall client req, Do client req = inl (respond http.StatusOK body)) ->
  json.Unmarshal body = inl {| Choices := []; Error := None |}
  /\ (SummarizePlans environ Do terraformOutputs).1 = ""
  /\ warnings (SummarizePlans environ Do terraformOutputs).2
     = ["OpenRouter response contained no choices"].
Proof.
  intros Hout Hkey Hparse Homits Hdo.
  pose proof (Unmarshal_omits_fields body v Hparse Homits) as Hjson.
  split; [exact Hjson|].
  rewrite SummarizePlans_sent by assumption. cbv zeta. rewrite Hdo.
  rewrite (readSummary_decoded (respond http.StatusOK body) _ eq_refl eq_refl Hjson).
  split; reflexivity.
Qed.

End Claims.

(** ** The claims on concrete inputs *)

(** C1 on a response with status 500. *)
Lemma failure_gives_empty_string_witness :
  (SummarizePlans env_key (always (inl (respond 500 "Internal Server Error"))) ["planA"]).1 = "".
Proof.
  apply failure_gives_empty_string.
  intros client req. apply error_status. discriminate.
Defined.

(** C2 on two plans and an environment with no variable. *)
Lemma no_key_no_request_witness :
  (SummarizePlans ∅ (always (inl (respond 200 body_summary))) ["planA"; "planB"]).1 = ""
  /\ requests (SummarizePlans ∅ (always (inl (respond 200 body_summary))) ["planA"; "planB"]).2 = [].
Proof.
  apply no_key_no_request. left. reflexivity.
Defined.

(** C7 on a body with an error object and a choice. *)
Lemma error_field_comes_first_witness :
  (SummarizePlans env_key (always (inl (respond 200 body_error_and_choices))) ["planA"]).1 = ""
  /\ warnings (SummarizePlans env_key (always (inl (respond 200 body_error_and_choices))) ["planA"]).2
     = ["OpenRouter API error: %s (type: %s)"].
Proof.
  apply (error_field_comes_first env_key (always (inl (respond 200 body_error_and_choices)))
           ["planA"] (respond 200 body_error_and_choices)
           {| Choices := [ {| choice_Message := {| Role := "assistant";
                                                    Content := "Summary text." |} |} ];
              Error := Some {| error_Message := "bad key"; error_Type := "auth" |} |})
    with (e := {| error_Message := "bad key"; error_Type := "auth" |}).
  - discriminate.
  - vm_compute. discriminate.
  - reflexivity.
  - reflexivity.
  - reflexivity.
  - vm_compute. reflexivity.
  - reflexivity.
Defined.

(** C9 on a key of one space, which is white space and nothing else. *)
Lemma any_other_key_is_sent_witness :
  strings.TrimSpace " " = ""
  /\ exists req,
       requests (SummarizePlans env_blank_key (always (inr "timeout")) ["planA"]).2 = [req]
       /\ http.Header req !! "Authorization" = Some ["Bearer  "].
Proof.
  split; [exact TrimSpace_blank|].
  apply (any_other_key_is_sent env_blank_key (always (inr "timeout")) ["planA"] " ").
  - discriminate.
  - reflexivity.
  - discriminate.
Defined.

(** C10 (amended) on the empty object. *)
Lemma document_without_fields_witness :
  json.Unmarshal "{}" = inl {| Choices := []; Error := None |}
  /\ (SummarizePlans env_key (always (inl (respond 200 "{}"))) ["planA"]).1 = ""
  /\ warnings (SummarizePlans env_key (always (inl (respond 200 "{}"))) ["planA"]).2
     = ["OpenRouter response contained no choices"].
Proof.
  apply (document_without_fields_has_no_choices
           env_key (always (inl (respond 200 "{}"))) ["planA"] "{}" (jsonsyntax.Object [])).
  - discriminate.
  - vm_compute. discriminate.
  - vm_compute. reflexivity.
  - reflexivity.
  - reflexivity.
Defined.

(** C10 as it was stated fails on a body that is valid JSON, has neither
    choices nor error, and is not an object: the array [[]] is a type
    error for the decoder, and the run takes the branch of the parse
    failure. *)
Lemma array_document_is_a_parse_failure :
  jsonsyntax.parse "[]" = Some (jsonsyntax.Array [])
  /\ json.Unmarshal "[]" <> inl {| Choices := []; Error := None |}
  /\ SummarizePlans env_key (always (inl (respond 200 "[]"))) ["planA"]
     = ("", [ Debug "sending plan to OpenRouter for summarization" [];
              ClientDo summarizerClient (sentRequest env_key ["planA"] "secret");
              Warn "failed to parse OpenRouter response: %s"
                   [OpString "json: cannot unmarshal value into Go value of struct type"];
              BodyClose ]).
Proof.
  split; [vm_compute; reflexivity|]. split.
  - vm_compute. discriminate.
  - vm_compute. reflexivity.
Qed.

(** ** The examples of the specification *)

(** The plans planA and planB with the prompt X: the body that goes out,
    byte for byte, with the separator escaped as JSON asks. *)
Example wire_body_planA_planB :
  http.Payload (sentRequest env_prompt ["planA"; "planB"] "secret")
  = quoted "{'model':'anthropic/claude-sonnet-4.5','messages':[{'role':'system','content':'X'},{'role':'user','content':'planA\n\n---\n\nplanB'}]}".
Proof. vm_compute. reflexivity. Qed.

(** The user content of that body, read back as the server reads it. *)
Example wire_body_read_back :
  json.unquote "planA\n\n---\n\nplanB"
  = Some ("planA" +:+ planSeparator +:+ "planB").
Proof. vm_compute. reflexivity. Qed.

(** The headers of the request, under the names the header map gives them. *)
Example sent_headers :
  let h := http.Header (sentRequest env_key ["planA"] "secret") in
  http.Header_Get h "Authorization" = "Bearer secret"
  /\ http.Header_Get h "Content-Type" = "application/json"
  /\ http.Header_Get h "HTTP-Referer"
     = "https://github.com/memfault/atlantis-openrouter-summarizer"
  /\ dom h = {[ "Authorization"; "Content-Type"; "Http-Referer" ]}.
Proof.
  cbv zeta. repeat split; vm_compute; reflexivity.
Qed.

(** The request and the client of the run. *)
Example sent_request_line :
  let req := sentRequest env_key ["planA"] "secret" in
  http.Method req = "POST"
  /\ http.URL req = "https://openrouter.ai/api/v1/chat/completions"
  /\ http.Timeout summarizerClient = 30000000000.
Proof. repeat split. Qed.

(** A response with status 500. *)
Example status_500 :
  SummarizePlans env_key (always (inl (respond 500 "Internal Server Error"))) ["planA"]
  = ("", [ Debug "sending plan to OpenRouter for summarization" [];
           ClientDo summarizerClient (sentRequest env_key ["planA"] "secret");
           Warn "OpenRouter API returned status %d: %s"
                [OpInt 500; OpString "Internal Server Error"];
           BodyClose ]).
Proof. reflexivity. Qed.

(** No choice and a null error. *)
Example no_choices_null_error :
  SummarizePlans env_key (always (inl (respond 200 body_no_choices))) ["planA"]
  = ("", [ Debug "sending plan to OpenRouter for summarization" [];
           ClientDo summarizerClient (sentRequest env_key ["planA"] "secret");
           Warn "OpenRouter response contained no choices" [];
           BodyClose ]).
Proof. vm_compute. reflexivity. Qed.

(** An error object and a choice. *)
Example error_with_choices :
  SummarizePlans env_key (always (inl (respond 200 body_error_and_choices))) ["planA"]
  = ("", [ Debug "sending plan to OpenRouter for summarization" [];
           ClientDo summarizerClient (sentRequest env_key ["planA"] "secret");
           Warn "OpenRouter API error: %s (type: %s)" [OpString "bad key"; OpString "auth"];
           BodyClose ]).
Proof. vm_compute. reflexivity. Qed.

(** A summary with white space around it. *)
Example summary_text :
  SummarizePlans env_key (always (inl (respond 200 body_summary))) ["planA"]
  = ("Summary text.",
     [ Debug "sending plan to OpenRouter for summarization" [];
       ClientDo summarizerClient (sentRequest env_key ["planA"] "secret");
       Debug "successfully received summary from OpenRouter" [];
       BodyClose ]).
Proof. vm_compute. reflexivity. Qed.

(** No answer within the timeout: the client gives an error. *)
Example request_timeout :
  SummarizePlans env_key (always (inr "context deadline exceeded")) ["planA"]
  = ("", [ Debug "sending plan to OpenRouter for summarization" [];
           ClientDo summarizerClient (sentRequest env_key ["planA"] "secret");
           Warn "failed to send request to OpenRouter: %s"
                [OpString "context deadline exceeded"] ]).
Proof. reflexivity. Qed.

(** The timeout strikes while the body is read. *)
Example body_timeout :
  SummarizePlans env_key
    (always (inl {| http.StatusCode := 200;
                    http.Body := {| io.data := "{";
                                    io.failure := Some "context deadline exceeded" |} |}))
    ["planA"]
  = ("", [ Debug "sending plan to OpenRouter for summarization" [];
           ClientDo summarizerClient (sentRequest env_key ["planA"] "secret");
           Warn "failed to read OpenRouter response: %s"
                [OpString "context deadline exceeded"];
           BodyClose ]).
Proof. reflexivity. Qed.

(** A body that is not JSON. *)
Example malformed_body :
  SummarizePlans env_key (always (inl (respond 200 "<html>Bad Gateway</html>"))) ["planA"]
  = ("", [ Debug "sending plan to OpenRouter for summarization" [];
           ClientDo summarizerClient (sentRequest env_key ["planA"] "secret");
           Warn "failed to parse OpenRouter response: %s" [OpString "json: syntax error"];
           BodyClose ]).
Proof. vm_compute. reflexivity. Qed.

(** A content of white space only. *)
Example blank_content :
  (SummarizePlans env_key
     (always (inl (respond 200 (quoted "{'choices':[{'message':{'content':' \n\t '}}]}"))))
     ["planA"]).1 = ""
  /\ warnings (SummarizePlans env_key
       (always (inl (respond 200 (quoted "{'choices':[{'message':{'content':' \n\t '}}]}"))))
       ["planA"]).2 = ["OpenRouter returned empty summary"].
Proof. vm_compute. split; reflexivity. Qed.

(** The text null, and an object with other members. *)
Example null_and_other_members :
  json.Unmarshal "null" = inl {| Choices := []; Error := None |}
  /\ omits_fields (jsonsyntax.Null) = true
  /\ json.Unmarshal body_other_members = inl {| Choices := []; Error := None |}
  /\ (omits_fields <$> jsonsyntax.parse body_other_members) = Some true.
Proof. repeat split; vm_compute; reflexivity. Qed.

(** Valid JSON of the other kinds is a type error for the decoder. *)
Example scalar_documents :
  json.Unmarshal "0" = inr "json: cannot unmarshal value into Go value of struct type"
  /\ json.Unmarshal "true" = inr "json: cannot unmarshal value into Go value of struct type"
  /\ json.Unmarshal (quoted "'text'")
     = inr "json: cannot unmarshal value into Go value of struct type".
Proof. repeat split; vm_compute; reflexivity. Qed.

(** * Further properties of [SummarizePlans] *)

(** The run when there are plans and a key, event by event: the two
    events of the sending, then what the outcome adds. *)
Lemma run_after_sending (environ : gmap string string)
      (Do : http.Client -> http.Request -> http.Response + error)
      (terraformOutputs : list string) :
  terraformOutputs <> [] ->
  os.Getenv environ openRouterAPIKeyEnv <> "" ->
  let req := sentRequest environ terraformOutputs (os.Getenv environ openRouterAPIKeyEnv) in
  SummarizePlans environ Do terraformOutputs
  = match Do summarizerClient req with
    | inr err =>
        ("", [ Debug "sending plan to OpenRouter for summarization" [];
               ClientDo summarizerClient req;
               Warn "failed to send request to OpenRouter: %s" [OpString err] ])
    | inl resp =>
        ((readSummary resp).1,
         Debug "sending plan to OpenRouter for summarization" []
           :: ClientDo summarizerClient req
           :: ((readSummary resp).2 ++ [BodyClose])%list)
    end.
Proof.
  intros Hout Hkey req. rewrite SummarizePlans_sent by assumption. cbv zeta.
  fold req. destruct (Do summarizerClient req) as [resp|err]; reflexivity.
Qed.

(** What [readSummary] hands to the logger: one line and nothing else,
    a warning when the summary is empty and a debug line when it is not. *)
Lemma readSummary_one_line (resp : http.Response) :
  exists format args,
    (readSummary resp).2
    = [if String.eqb (readSummary resp).1 "" then Warn format args else Debug format args].
Proof.
  unfold readSummary, io.ReadAll.
  destruct (io.failure (http.Body resp)); [do 2 eexists; reflexivity|].
  destruct (negb _); [do 2 eexists; reflexivity|].
  destruct (json.Unmarshal _) as [r|err]; [|do 2 eexists; reflexivity].
  destruct (Error r); [do 2 eexists; reflexivity|].
  destruct (Choices r); [do 2 eexists; reflexivity|].
  cbv zeta.
  destruct (String.eqb (strings.TrimSpace _) "") eqn:Hblank.
  - do 2 eexists; reflexivity.
  - do 2 eexists. simpl. rewrite Hblank. reflexivity.
Qed.

Lemma logs_app (t1 t2 : list event) : logs (t1 ++ t2) = (logs t1 ++ logs t2)%list.
Proof.
  induction t1 as [|e t1 IH]; [reflexivity|].
  destruct e; simpl; rewrite IH; reflexivity.
Qed.

Lemma closes_app (t1 t2 : list event) : closes (t1 ++ t2) = (closes t1 + closes t2)%nat.
Proof.
  induction t1 as [|e t1 IH]; [reflexivity|].
  destruct e; simpl; rewrite IH; reflexivity.
Qed.

Lemma warnings_app (t1 t2 : list event) :
  warnings (t1 ++ t2) = (warnings t1 ++ warnings t2)%list.
Proof.
  induction t1 as [|e t1 IH]; [reflexivity|].
  destruct e; simpl; rewrite IH; reflexivity.
Qed.

(** X1. [SummarizePlans] never tries again: whatever the network
    answers, a run gives at most one request to the HTTP client, and it
    gives one exactly when there are plans and a key. *)
Theorem at_most_one_request (environ : gmap string string)
        (Do : http.Client -> http.Request -> http.Response + error)
        (terraformOutputs : list string) :
  (length (requests (SummarizePlans environ Do terraformOutputs).2) <= 1)%nat
  /\ (requests (SummarizePlans environ Do terraformOutputs).2 <> []
      <-> terraformOutputs <> [] /\ os.Getenv environ openRouterAPIKeyEnv <> "").
Proof.
  rewrite SummarizePlans_requests.
  destruct terraformOutputs as [|p ps].
  - simpl. split; [lia|]. split; [congruence | intros [H _]; congruence].
  - simpl length. simpl Nat.eqb. simpl orb.
    destruct (String.eqb _ "") eqn:Hkey.
    + apply String.eqb_eq in Hkey. simpl. split; [lia|].
      split; [congruence | intros [_ H]; congruence].
    + apply String.eqb_neq in Hkey. simpl. split; [lia|].
      split; [intros _; split; [discriminate | exact Hkey] | discriminate].
Qed.

(** Where a call of the client in a run comes from. *)
Lemma ClientDo_in_run (environ : gmap string string)
      (Do : http.Client -> http.Request -> http.Response + error)
      (terraformOutputs : list string) (client : http.Client) (req : http.Request) :
  In (ClientDo client req) (SummarizePlans environ Do terraformOutputs).2 ->
  client = summarizerClient
  /\ req = sentRequest environ terraformOutputs (os.Getenv environ openRouterAPIKeyEnv).
Proof.
  destruct terraformOutputs as [|p ps].
  { simpl. intros [H|[]]. discriminate. }
  destruct (String.eqb (os.Getenv environ openRouterAPIKeyEnv) "") eqn:Hkey.
  { apply String.eqb_eq in Hkey.
    rewrite SummarizePlans_no_key by (congruence || assumption).
    simpl. intros [H|[]]. discriminate. }
  apply String.eqb_neq in Hkey.
  rewrite run_after_sending by (congruence || assumption). cbv zeta.
  destruct (Do _ _) as [resp|err]; simpl.
  - destruct (readSummary_one_line resp) as (format & args & ->).
    destruct (String.eqb _ ""); simpl;
      intros [H|[H|[H|[H|[]]]]]; try discriminate; inversion H; split; reflexivity.
  - intros [H|[H|[H|[]]]]; try discriminate; inversion H; split; reflexivity.
Qed.

(** X2. Every call of the HTTP client in a run is a POST to the fixed
    URL of the chat completions, with exactly three headers (the key
    after Bearer in Authorization, the JSON content type, the fixed
    referer), through a client whose timeout is 30 seconds. *)
Theorem request_line_and_headers (environ : gmap string string)
        (Do : http.Client -> http.Request -> http.Response + error)
        (terraformOutputs : list string) (client : http.Client) (req : http.Request) :
  In (ClientDo client req) (SummarizePlans environ Do terraformOutputs).2 ->
  http.Method req = "POST"
  /\ http.URL req = "https://openrouter.ai/api/v1/chat/completions"
  /\ http.Header req
     = <[ "Http-Referer" := ["https://github.com/memfault/atlantis-openrouter-summarizer"] ]>
         (<[ "Content-Type" := ["application/json"] ]>
            (<[ "Authorization" := ["Bearer " +:+ os.Getenv environ openRouterAPIKeyEnv] ]> ∅))
  /\ http.Timeout client = 30 * 1000000000.
Proof.
  intros Hin. apply ClientDo_in_run in Hin as [-> ->].
  repeat split.
  unfold sentRequest, withHeaders, http.Header_Set. cbn [http.Header].
  change (http.CanonicalMIMEHeaderKey "HTTP-Referer") with "Http-Referer".
  change (http.CanonicalMIMEHeaderKey "Content-Type") with "Content-Type".
  change (http.CanonicalMIMEHeaderKey "Authorization") with "Authorization".
  change (fmt.Sprintf "Bearer %s" [os.Getenv environ openRouterAPIKeyEnv])
    with ("Bearer " +:+ os.Getenv environ openRouterAPIKeyEnv +:+ "").
  rewrite append_empty_r. reflexivity.
Qed.

(** X2 on a run that sends. *)
Lemma request_line_and_headers_witness :
  http.Method (sentRequest env_key ["planA"] "secret") = "POST"
  /\ http.URL (sentRequest env_key ["planA"] "secret")
     = "https://openrouter.ai/api/v1/chat/completions"
  /\ http.Header (sentRequest env_key ["planA"] "secret")
     = <[ "Http-Referer" := ["https://github.com/memfault/atlantis-openrouter-summarizer"] ]>
         (<[ "Content-Type" := ["application/json"] ]>
            (<[ "Authorization" := ["Bearer " +:+ os.Getenv env_key openRouterAPIKeyEnv] ]> ∅))
  /\ http.Timeout summarizerClient = 30 * 1000000000.
Proof.
  apply (request_line_and_headers env_key (always (inr "timeout")) ["planA"]).
  right. left. reflexivity.
Defined.

(** X3. The body of a response is closed exactly once, as the last
    event of the run, in every run that got a response from the client;
    a run that got none closes nothing. *)
Theorem body_closed_once_per_response (environ : gmap string string)
        (Do : http.Client -> http.Request -> http.Response + error)
        (terraformOutputs : list string) :
  let t := (SummarizePlans environ Do terraformOutputs).2 in
  let req := sentRequest environ terraformOutputs (os.Getenv environ openRouterAPIKeyEnv) in
  (forall resp,
     terraformOutputs <> [] ->
     os.Getenv environ openRouterAPIKeyEnv <> "" ->
     Do summarizerClient req = inl resp ->
     closes t = 1%nat /\ last t = Some BodyClose)
  /\ (terraformOutputs = [] \/ os.Getenv environ openRouterAPIKeyEnv = ""
      \/ (exists err, Do summarizerClient req = inr err) ->
      closes t = 0%nat).
Proof.
  cbv zeta. split.
  - intros resp Hout Hkey Hdo.
    rewrite run_after_sending by assumption. cbv zeta. rewrite Hdo.
    destruct (readSummary_one_line resp) as (format & args & ->).
    destruct (String.eqb _ ""); split; reflexivity.
  - intros Hnone.
    destruct terraformOutputs as [|p ps]; [reflexivity|].
    destruct (String.eqb (os.Getenv environ openRouterAPIKeyEnv) "") eqn:Hkey.
    + apply String.eqb_eq in Hkey.
      rewrite SummarizePlans_no_key by (congruence || assumption). reflexivity.
    + apply String.eqb_neq in Hkey.
      destruct Hnone as [H|[H|[err Herr]]]; [discriminate | contradiction |].
      rewrite run_after_sending by (congruence || assumption). cbv zeta.
      rewrite Herr. reflexivity.
Qed.

(** X5. A run hands something to the logger whatever happens.  When it
    returns a summary it has warned of nothing; when it returns the empty
    string after a request it has warned exactly once; when it made no
    request its one line is a debug line. *)
Theorem one_warning_per_failure (environ : gmap string string)
        (Do : http.Client -> http.Request -> http.Response + error)
        (terraformOutputs : list string) :
  let r := (SummarizePlans environ Do terraformOutputs).1 in
  let t := (SummarizePlans environ Do terraformOutputs).2 in
  logs t <> []
  /\ (r <> "" -> warnings t = [])
  /\ (r = "" -> requests t <> [] -> length (warnings t) = 1%nat)
  /\ (requests t = [] -> warnings t = [] /\ length (logs t) = 1%nat).
Proof.
  cbv zeta.
  destruct terraformOutputs as [|p ps].
  { simpl. repeat split; congruence. }
  destruct (String.eqb (os.Getenv environ openRouterAPIKeyEnv) "") eqn:Hkey.
  { apply String.eqb_eq in Hkey.
    rewrite SummarizePlans_no_key by (congruence || assumption).
    simpl. repeat split; congruence. }
  apply String.eqb_neq in Hkey.
  rewrite run_after_sending by (congruence || assumption). cbv zeta.
  destruct (Do _ _) as [resp|err].
  - destruct (readSummary_one_line resp) as (format & args & Hline).
    cbn [fst snd]. rewrite Hline.
    destruct (String.eqb (readSummary resp).1 "") eqn:Hr.
    + apply String.eqb_eq in Hr. simpl. repeat split; congruence.
    + apply String.eqb_neq in Hr. simpl. repeat split; congruence.
  - simpl. repeat split; congruence.
Qed.

(** X4 on the response of the specification's example, which is no
    failure. *)
Lemma empty_iff_failure_witness :
  (SummarizePlans env_key (always (inl (respond 200 body_summary))) ["planA"]).1 = ""
  <-> failure (inl (respond 200 body_summary)).
Proof.
  apply (empty_iff_failure env_key (always (inl (respond 200 body_summary))) ["planA"]).
  - discriminate.
  - vm_compute. discriminate.
Defined.

(** The payload depends on the environment through the prompt alone. *)
Lemma reqBody_prompt (env1 env2 : gmap string string) (terraformOutputs : list string) :
  os.Getenv env1 openRouterSystemPromptEnv = os.Getenv env2 openRouterSystemPromptEnv ->
  reqBody env1 terraformOutputs = reqBody env2 terraformOutputs.
Proof. intros H. unfold reqBody. rewrite H. reflexivity. Qed.

(** X6. A run reads two variables of the environment and one answer of
    the network, and nothing else: two environments that give the same
    key and the same prompt (unset and empty being the same), with
    networks that answer the request sent alike, give the same summary
    and the same events. *)
Theorem run_reads_two_variables_and_one_answer
        (env1 env2 : gmap string string)
        (Do1 Do2 : http.Client -> http.Request -> http.Response + error)
        (terraformOutputs : list string) :
  os.Getenv env1 openRouterAPIKeyEnv = os.Getenv env2 openRouterAPIKeyEnv ->
  os.Getenv env1 openRouterSystemPromptEnv = os.Getenv env2 openRouterSystemPromptEnv ->
  (let req := sentRequest env1 terraformOutputs (os.Getenv env1 openRouterAPIKeyEnv) in
   Do1 summarizerClient req = Do2 summarizerClient req) ->
  SummarizePlans env1 Do1 terraformOutputs = SummarizePlans env2 Do2 terraformOutputs.
Proof.
  cbv zeta. intros Hkey Hprompt Hdo.
  destruct terraformOutputs as [|p ps]; [reflexivity|].
  destruct (String.eqb (os.Getenv env1 openRouterAPIKeyEnv) "") eqn:Hk.
  - apply String.eqb_eq in Hk.
    rewrite !SummarizePlans_no_key by (congruence || assumption). reflexivity.
  - apply String.eqb_neq in Hk.
    rewrite !SummarizePlans_sent by (congruence || assumption). cbv zeta.
    unfold sentRequest in *.
    rewrite <- (reqBody_prompt env1 env2 _ Hprompt), <- Hkey, Hdo. reflexivity.
Qed.

(** X6 on an environment and the same with an empty prompt and one more
    variable, and on two networks that differ on other requests. *)
Lemma run_reads_two_variables_witness :
  SummarizePlans env_key (always (inl (respond 200 body_summary))) ["planA"]
  = SummarizePlans env_key_padded
      (fun client req =>
         if String.eqb (http.Method req) "POST" then inl (respond 200 body_summary)
         else inr "unreachable")
      ["planA"].
Proof.
  apply run_reads_two_variables_and_one_answer; reflexivity.
Defined.

(** X7. What reaches the logger and what is returned depend on the
    outcome of the exchange alone: runs with other plans, another key and
    another prompt log the same lines and return the same string when the
    network answers them alike. *)
Theorem logs_depend_on_outcome_only
        (env1 env2 : gmap string string)
        (Do1 Do2 : http.Client -> http.Request -> http.Response + error)
        (outputs1 outputs2 : list string) :
  outputs1 <> [] ->
  outputs2 <> [] ->
  os.Getenv env1 openRouterAPIKeyEnv <> "" ->
  os.Getenv env2 openRouterAPIKeyEnv <> "" ->
  Do1 summarizerClient (sentRequest env1 outputs1 (os.Getenv env1 openRouterAPIKeyEnv))
  = Do2 summarizerClient (sentRequest env2 outputs2 (os.Getenv env2 openRouterAPIKeyEnv)) ->
  logs (SummarizePlans env1 Do1 outputs1).2 = logs (SummarizePlans env2 Do2 outputs2).2
  /\ (SummarizePlans env1 Do1 outputs1).1 = (SummarizePlans env2 Do2 outputs2).1.
Proof.
  intros Hout1 Hout2 Hkey1 Hkey2 Hdo.
  rewrite !run_after_sending by assumption. cbv zeta. rewrite Hdo.
  destruct (Do2 _ _) as [resp|err]; [|split; reflexivity].
  cbn [fst snd logs]. rewrite !logs_app. split; reflexivity.
Qed.

(** X7 on two runs that share nothing but the answer of the network. *)
Lemma logs_depend_on_outcome_only_witness :
  logs (SummarizePlans env_key (always (inl (respond 500 "upstream error"))) ["planA"]).2
  = logs (SummarizePlans env_other (always (inl (respond 500 "upstream error")))
            ["planB"; "planC"]).2
  /\ (SummarizePlans env_key (always (inl (respond 500 "upstream error"))) ["planA"]).1
     = (SummarizePlans env_other (always (inl (respond 500 "upstream error")))
          ["planB"; "planC"]).1.
Proof.
  apply logs_depend_on_outcome_only.
  - discriminate.
  - discriminate.
  - vm_compute. discriminate.
  - vm_compute. discriminate.
  - reflexivity.
Defined.

(** X8. The guards on a response come in the order of the source.  A
    body that cannot be read is reported as such whatever the status; a
    status other than 200 is reported with the status and the raw body
    whatever the body holds, a summary included. *)
Theorem read_failure_then_status (environ : gmap string string)
        (Do : http.Client -> http.Request -> http.Response + error)
        (terraformOutputs : list string) (resp : http.Response) :
  terraformOutputs <> [] ->
  os.Getenv environ openRouterAPIKeyEnv <> "" ->
  (forall client req, Do client req = inl resp) ->
  let req := sentRequest environ terraformOutputs (os.Getenv environ openRouterAPIKeyEnv) in
  (forall err,
     io.failure (http.Body resp) = Some err ->
     SummarizePlans environ Do terraformOutputs
     = ("", [ Debug "sending plan to OpenRouter for summarization" [];
              ClientDo summarizerClient req;
              Warn "failed to read OpenRouter response: %s" [OpString err];
              BodyClose ]))
  /\ (io.failure (http.Body resp) = None ->
      http.StatusCode resp <> 200 ->
      SummarizePlans environ Do terraformOutputs
      = ("", [ Debug "sending plan to OpenRouter for summarization" [];
               ClientDo summarizerClient req;
               Warn "OpenRouter API returned status %d: %s"
                    [OpInt (http.StatusCode resp); OpString (io.data (http.Body resp))];
               BodyClose ])).
Proof.
  intros Hout Hkey Hdo req.
  rewrite run_after_sending by assumption. cbv zeta. fold req. rewrite Hdo.
  unfold readSummary, io.ReadAll. split.
  - intros err Herr. rewrite Herr. reflexivity.
  - intros Hread Hstatus. rewrite Hread.
    apply Z.eqb_neq in Hstatus. unfold http.StatusOK. rewrite Hstatus. reflexivity.
Qed.

(** X8 on a status 503 whose body would have been a summary. *)
Lemma read_failure_then_status_witness :
  SummarizePlans env_key (always (inl (respond 503 body_summary))) ["planA"]
  = ("", [ Debug "sending plan to OpenRouter for summarization" [];
           ClientDo summarizerClient (sentRequest env_key ["planA"] "secret");
           Warn "OpenRouter API returned status %d: %s" [OpInt 503; OpString body_summary];
           BodyClose ]).
Proof.
  apply (read_failure_then_status env_key (always (inl (respond 503 body_summary)))
           ["planA"] (respond 503 body_summary)).
  - discriminate.
  - vm_compute. discriminate.
  - reflexivity.
  - reflexivity.
  - discriminate.
Defined.

(** The length of strings joined by a separator. *)
Lemma length_concat (sep : string) (elems : list string) :
  String.length (String.concat sep elems)
  = (sum_list (String.length <$> elems) + (length elems - 1) * String.length sep)%nat.
Proof.
  induction elems as [|x [|y l] IH].
  - reflexivity.
  - simpl. lia.
  - change (String.concat sep (x :: y :: l)) with (x +:+ sep +:+ String.concat sep (y :: l)).
    rewrite !length_append, IH. simpl. lia.
Qed.



(** X10. When the content of the first choice is a text between runs of
    ASCII white space (tabs, line feeds, vertical tabs, form feeds,
    carriage returns, spaces), a text that starts and ends with ASCII
    bytes other than these, the summary returned is that text, with its
    inner white space kept. *)
Theorem summary_between_blanks (environ : gmap string string)
        (Do : http.Client -> http.Request -> http.Response + error)
        (terraformOutputs : list string) (resp : http.Response)
        (r : openRouterResponse) (c : openRouterChoice) (cs : list openRouterChoice)
        (pre mid post : string) :
  terraformOutputs <> [] ->
  os.Getenv environ openRouterAPIKeyEnv <> "" ->
  (forall client req, Do client req = inl resp) ->
  io.failure (http.Body resp) = None ->
  http.StatusCode resp = http.StatusOK ->
  json.Unmarshal (io.data (http.Body resp)) = inl r ->
  Error r = None ->
  Choices r = c :: cs ->
  Content (choice_Message c) = pre +:+ mid +:+ post ->
  all_bytes strings.asciiSpace pre = true ->
  all_bytes strings.asciiSpace post = true ->
  opens_with_text mid ->
  closes_with_text mid ->
  (SummarizePlans environ Do terraformOutputs).1 = mid.
Proof.
  intros Hout Hkey Hdo Hread Hstatus Hjson He Hc Hcontent Hpre Hpost Hopen Hclose.
  rewrite SummarizePlans_sent by assumption. cbv zeta. rewrite Hdo.
  rewrite (readSummary_decoded resp r Hread Hstatus Hjson), He, Hc.
  cbv zeta. rewrite Hcontent, (TrimSpace_between_blanks pre mid post) by assumption.
  destruct (String.eqb mid "") eqn:Hmid; [|reflexivity].
  apply String.eqb_eq in Hmid. rewrite Hmid. reflexivity.
Qed.

(** X10 on the body of the specification's example. *)
Lemma summary_between_blanks_witness :
  (SummarizePlans env_key (always (inl (respond 200 body_summary))) ["planA"]).1
  = "Summary text.".
Proof.
  apply (summary_between_blanks env_key (always (inl (respond 200 body_summary)))
           ["planA"] (respond 200 body_summary)
           {| Choices := [ {| choice_Message := {| Role := "assistant";
                                                    Content := "  Summary text.  " |} |} ];
              Error := None |}
           {| choice_Message := {| Role := "assistant"; Content := "  Summary text.  " |} |}
           [] "  " "Summary text." "  ").
  - discriminate.
  - vm_compute. discriminate.
  - reflexivity.
  - reflexivity.
  - reflexivity.
  - vm_compute. reflexivity.
  - reflexivity.
  - reflexivity.
  - reflexivity.
  - reflexivity.
  - reflexivity.
  - repeat split; vm_compute; (reflexivity || lia).
  - repeat split; vm_compute; (reflexivity || lia).
Defined.

(** X11. A content of ASCII white space and nothing else counts as no
    summary: the result is the empty string and the warning is the one
    of the empty summary. *)
Theorem blank_content_is_no_summary (environ : gmap string string)
        (Do : http.Client -> http.Request -> http.Response + error)
        (terraformOutputs : list string) (resp : http.Response)
        (r : openRouterResponse) (c : openRouterChoice) (cs : list openRouterChoice) :
  terraformOutputs <> [] ->
  os.Getenv environ openRouterAPIKeyEnv <> "" ->
  (forall client req, Do client req = inl resp) ->
  io.failure (http.Body resp) = None ->
  http.StatusCode resp = http.StatusOK ->
  json.Unmarshal (io.data (http.Body resp)) = inl r ->
  Error r = None ->
  Choices r = c :: cs ->
  all_bytes strings.asciiSpace (Content (choice_Message c)) = true ->
  (SummarizePlans environ Do terraformOutputs).1 = ""
  /\ warnings (SummarizePlans environ Do terraformOutputs).2
     = ["OpenRouter returned empty summary"].
Proof.
  intros Hout Hkey Hdo Hread Hstatus Hjson He Hc Hblank.
  rewrite SummarizePlans_sent by assumption. cbv zeta. rewrite Hdo.
  rewrite (readSummary_decoded resp r Hread Hstatus Hjson), He, Hc.
  cbv zeta. rewrite (TrimSpace_all_blank _ Hblank). split; reflexivity.
Qed.

(** X11 on a content of a space, a line feed and a tab. *)
Lemma blank_content_is_no_summary_witness :
  (SummarizePlans env_key (always (inl (respond 200 body_blank))) ["planA"]).1 = ""
  /\ warnings (SummarizePlans env_key (always (inl (respond 200 body_blank))) ["planA"]).2
     = ["OpenRouter returned empty summary"].
Proof.
  apply (blank_content_is_no_summary env_key (always (inl (respond 200 body_blank)))
           ["planA"] (respond 200 body_blank)
           {| Choices := [ {| choice_Message :=
                                {| Role := "";
                                   Content := String (byte_to 32)
                                                (String (byte_to 10) (String (byte_to 9) "")) |} |} ];
              Error := None |}
           {| choice_Message :=
                {| Role := "";
                   Content := String (byte_to 32)
                                (String (byte_to 10) (String (byte_to 9) "")) |} |}
           []).
  - discriminate.
  - vm_compute. discriminate.
  - reflexivity.
  - reflexivity.
  - reflexivity.
  - vm_compute. reflexivity.
  - reflexivity.
  - reflexivity.
  - reflexivity.
Defined.

(** * The ends of a trimmed string *)

Lemma at_index_slice (s : string) (lo hi i : nat) :
  (i < hi - lo)%nat -> at_index (slice s lo hi) i = at_index s (lo + i).
Proof.
  intros H. unfold at_index, slice.
  rewrite String.substring_correct1 by exact H.
  rewrite (Nat.add_comm i lo). reflexivity.
Qed.

Lemma IsSpace_ascii (c : Z) :
  c < 128 -> unicode.IsSpace c = strings.asciiSpace c.
Proof.
  intros H. unfold unicode.IsSpace, strings.asciiSpace.
  destruct (c <=? 255) eqn:E; [|apply Z.leb_gt in E; lia].
  assert (H1 : (c =? 133) = false) by (apply Z.eqb_neq; lia).
  assert (H2 : (c =? 160) = false) by (apply Z.eqb_neq; lia).
  rewrite H1, H2, !orb_false_r. reflexivity.
Qed.

Lemma asciiSpace_high (c : Z) : 128 <= c -> strings.asciiSpace c = false.
Proof.
  intros H. unfold strings.asciiSpace.
  repeat (apply orb_false_iff; split); apply Z.eqb_neq; lia.
Qed.

Lemma DecodeRune_ascii (w : string) :
  (1 <= String.length w)%nat -> at_index w 0 < 128 ->
  utf8.DecodeRuneInString w = (at_index w 0, 1%nat).
Proof.
  intros Hlen Hascii. unfold utf8.DecodeRuneInString.
  destruct (String.length w <? 1)%nat eqn:E; [apply Nat.ltb_lt in E; lia|].
  unfold utf8.first. apply Z.ltb_lt in Hascii. rewrite Hascii. reflexivity.
Qed.

(** A rune of more than one byte: its bytes are in the string and none
    of them is an ASCII byte. *)
Lemma DecodeRune_wide (w : string) :
  (1 < (utf8.DecodeRuneInString w).2)%nat ->
  128 <= at_index w 0
  /\ 128 <= at_index w ((utf8.DecodeRuneInString w).2 - 1)
  /\ ((utf8.DecodeRuneInString w).2 <= String.length w)%nat.
Proof.
  unfold utf8.DecodeRuneInString.
  destruct (String.length w <? 1)%nat eqn:E; [simpl; lia|].
  destruct (utf8.first (at_index w 0)) as [| |sz lo hi] eqn:Hfirst; [simpl; lia | simpl; lia |].
  assert (Hlead : 128 <= at_index w 0 /\ 128 <= lo /\ (2 <= sz)%nat).
  { unfold utf8.first in Hfirst.
    repeat match type of Hfirst with
           | (if ?b then _ else _) = _ => destruct b eqn:?
           end; try discriminate; inversion Hfirst; subst;
      repeat match goal with
             | H : (_ <? _) = false |- _ => apply Z.ltb_ge in H
             | H : (_ <? _) = true |- _ => apply Z.ltb_lt in H
             | H : (_ =? _) = true |- _ => apply Z.eqb_eq in H
             | H : (_ =? _) = false |- _ => apply Z.eqb_neq in H
             end; lia. }
  destruct Hlead as (Hb0 & Hlo & Hsz).
  destruct (String.length w <? sz)%nat eqn:Hn; [simpl; lia|].
  apply Nat.ltb_ge in Hn.
  destruct ((at_index w 1 <? lo) || (hi <? at_index w 1)) eqn:H1; [simpl; lia|].
  apply orb_false_iff in H1 as [H1 _]. apply Z.ltb_ge in H1.
  destruct (sz <=? 2)%nat eqn:Hsz2.
  { simpl. intros _. repeat split; [lia | lia | apply Nat.leb_le in Hsz2; lia]. }
  apply Nat.leb_gt in Hsz2.
  destruct (negb (utf8.continuation (at_index w 2))) eqn:H2; [simpl; lia|].
  apply negb_false_iff in H2. unfold utf8.continuation in H2.
  apply andb_true_iff in H2 as [H2 _]. apply Z.leb_le in H2.
  destruct (sz <=? 3)%nat eqn:Hsz3.
  { simpl. intros _. repeat split; [lia | lia | lia]. }
  destruct (negb (utf8.continuation (at_index w 3))) eqn:H3; [simpl; lia|].
  apply negb_false_iff in H3. unfold utf8.continuation in H3.
  apply andb_true_iff in H3 as [H3 _]. apply Z.leb_le in H3.
  apply Nat.leb_gt in Hsz3.
  simpl. intros _. repeat split; lia.
Qed.

(** The first rune that is no white space starts with a byte that is no
    ASCII white space. *)
Lemma head_not_space (w : string) :
  (1 <= String.length w)%nat ->
  unicode.IsSpace (utf8.DecodeRuneInString w).1 = false ->
  strings.asciiSpace (at_index w 0) = false.
Proof.
  intros Hlen Hns.
  destruct (Z.lt_ge_cases (at_index w 0) 128) as [Hlt|Hge].
  - rewrite DecodeRune_ascii in Hns by assumption. simpl in Hns.
    rewrite IsSpace_ascii in Hns by exact Hlt. exact Hns.
  - apply asciiSpace_high. exact Hge.
Qed.

(** What [index_not] returns: -1, or the index of a rune that does not
    satisfy [f]. *)
Lemma index_not_spec (f : Z -> bool) (fuel : nat) (s : string) (i : nat) :
  strings.index_not f fuel s i = -1
  \/ exists j : nat,
       strings.index_not f fuel s i = Z.of_nat j
       /\ (i <= j < String.length s)%nat
       /\ f (utf8.DecodeRuneInString (slice_from s j)).1 = false.
Proof.
  revert i. induction fuel as [|k IH]; intros i; [left; reflexivity|].
  cbn [strings.index_not].
  destruct (String.length s <=? i)%nat eqn:E; [left; reflexivity|].
  apply Nat.leb_gt in E.
  destruct (utf8.DecodeRuneInString (slice_from s i)) as [r size] eqn:D.
  destruct (f r) eqn:Hf; simpl negb; cbv iota.
  - destruct (IH (i + size)%nat) as [H|(j & Hj & Hrange & Hfj)]; [left; exact H|].
    right. exists j. repeat split; [exact Hj | lia | lia | exact Hfj].
  - right. exists i. rewrite D. repeat split; [lia | lia | exact Hf].
Qed.

(** [TrimLeftFunc] leaves nothing, or a string whose first rune does not
    satisfy [f]. *)
Lemma TrimLeftFunc_head (t : string) (f : Z -> bool) :
  strings.TrimLeftFunc t f = ""
  \/ ((1 <= String.length (strings.TrimLeftFunc t f))%nat
      /\ f (utf8.DecodeRuneInString (strings.TrimLeftFunc t f)).1 = false).
Proof.
  unfold strings.TrimLeftFunc.
  destruct (index_not_spec f (S (String.length t)) t 0) as [H|(j & Hj & Hrange & Hfj)].
  - rewrite H. left. reflexivity.
  - rewrite Hj.
    destruct (Z.of_nat j =? -1) eqn:E; [apply Z.eqb_eq in E; lia|].
    rewrite Nat2Z.id. right. split; [|exact Hfj].
    unfold slice_from. rewrite length_slice by lia. lia.
Qed.

(** The last rune of a string that ends with an ASCII byte is that byte. *)
Lemma DecodeLast_ascii (w : string) :
  (1 <= String.length w)%nat ->
  at_index w (String.length w - 1) < 128 ->
  utf8.DecodeLastRuneInString w = (at_index w (String.length w - 1), 1%nat).
Proof.
  intros Hlen Hascii. unfold utf8.DecodeLastRuneInString.
  destruct (String.length w =? 0)%nat eqn:E; [apply Nat.eqb_eq in E; lia|].
  replace (Z.to_nat (Z.of_nat (String.length w) - 1)) with (String.length w - 1)%nat by lia.
  unfold utf8.RuneSelf. apply Z.ltb_lt in Hascii. rewrite Hascii. reflexivity.
Qed.

(** The last rune of a string that ends with another byte starts with a
    byte that is not ASCII either. *)
Lemma DecodeLast_high (w : string) :
  (1 <= String.length w)%nat ->
  128 <= at_index w (String.length w - 1) ->
  (1 <= (utf8.DecodeLastRuneInString w).2 <= String.length w)%nat
  /\ 128 <= at_index w (String.length w - (utf8.DecodeLastRuneInString w).2).
Proof.
  intros Hlen Hhigh.
  destruct (utf8.DecodeLastRuneInString w) as [r0 size0] eqn:DL. cbn [snd].
  unfold utf8.DecodeLastRuneInString in DL.
  destruct (String.length w =? 0)%nat eqn:E; [apply Nat.eqb_eq in E; lia|].
  replace (Z.to_nat (Z.of_nat (String.length w) - 1)) with (String.length w - 1)%nat in DL by lia.
  unfold utf8.RuneSelf in DL.
  destruct (at_index w (String.length w - 1) <? 128) eqn:Hlt; [apply Z.ltb_lt in Hlt; lia|].
  cbv zeta in DL.
  match type of DL with context [utf8.scan_back ?a ?b ?c ?d] =>
    pose proof (scan_back_le a b c d) as Hle; set (st := utf8.scan_back a b c d) in * end.
  set (start := if st <? 0 then 0 else st) in *.
  assert (Hstart : 0 <= start <= Z.of_nat (String.length w) - 1).
  { unfold start. destruct (st <? 0) eqn:Hneg;
      [apply Z.ltb_lt in Hneg | apply Z.ltb_ge in Hneg]; lia. }
  pose proof (DecodeRuneInString_width (slice w (Z.to_nat start) (String.length w))) as Hw.
  pose proof (DecodeRune_wide (slice w (Z.to_nat start) (String.length w))) as Hwide.
  rewrite length_slice in Hw, Hwide by lia.
  destruct (utf8.DecodeRuneInString (slice w (Z.to_nat start) (String.length w)))
    as [r size] eqn:D.
  simpl in Hw, Hwide.
  destruct (negb (start + Z.of_nat size =? Z.of_nat (String.length w))) eqn:Hchk.
  - inversion DL; subst. split; [lia|]. exact Hhigh.
  - apply negb_false_iff, Z.eqb_eq in Hchk. inversion DL; subst r0 size0.
    split; [lia|].
    replace (String.length w - size)%nat with (Z.to_nat start) by lia.
    destruct (Nat.eq_dec size 1%nat) as [->|Hne].
    + replace (Z.to_nat start) with (String.length w - 1)%nat by lia. exact Hhigh.
    + destruct Hwide as (Hb0 & _ & _); [lia|].
      rewrite at_index_slice in Hb0 by lia.
      rewrite Nat.add_0_r in Hb0. exact Hb0.
Qed.

(** What [last_index_not] returns: -1, or the start of a last rune that
    does not satisfy [f]. *)
Lemma last_index_not_spec (f : Z -> bool) (fuel : nat) (s : string) (i : nat) :
  strings.last_index_not f fuel s i = -1
  \/ exists (i' : nat) (r : Z) (size : nat),
       (0 < i' <= i)%nat
       /\ utf8.DecodeLastRuneInString (slice s 0 i') = (r, size)
       /\ strings.last_index_not f fuel s i = Z.of_nat (i' - size)
       /\ f r = false.
Proof.
  revert i. induction fuel as [|k IH]; intros i; [left; reflexivity|].
  cbn [strings.last_index_not].
  destruct (i =? 0)%nat eqn:E; [left; reflexivity|].
  apply Nat.eqb_neq in E.
  destruct (utf8.DecodeLastRuneInString (slice s 0 i)) as [r size] eqn:D.
  cbv zeta.
  destruct (f r) eqn:Hf; simpl negb; cbv iota.
  - destruct (IH (i - size)%nat) as [H|(i' & r' & size' & Hrange & D' & Hres & Hf')];
      [left; exact H|].
    right. exists i', r', size'. repeat split; [lia | lia | exact D' | exact Hres | exact Hf'].
  - right. exists i, r, size. repeat split; [lia | lia | exact D | exact Hf].
Qed.

Lemma substring_none (s : string) (n : nat) : String.substring n 0 s = "".
Proof.
  revert n. induction s as [|c s IH]; intros [|n]; simpl; auto.
Qed.

Lemma slice_empty (s : string) (lo hi : nat) : (hi <= lo)%nat -> slice s lo hi = "".
Proof.
  intros H. unfold slice. replace (hi - lo)%nat with 0%nat by lia. apply substring_none.
Qed.

(** [TrimRightFunc] leaves nothing, or a prefix of the string that keeps
    its first byte and whose last byte is either outside ASCII or an
    ASCII byte that does not satisfy [f]. *)
Lemma TrimRightFunc_last (u : string) (f : Z -> bool) :
  strings.TrimRightFunc u f = ""
  \/ exists k : nat,
       (1 <= k <= String.length u)%nat
       /\ strings.TrimRightFunc u f = slice u 0 k
       /\ (128 <= at_index u (k - 1) \/ f (at_index u (k - 1)) = false).
Proof.
  unfold strings.TrimRightFunc.
  destruct (last_index_not_spec f (S (String.length u)) u (String.length u))
    as [H|(i' & r & size & Hrange & D & Hres & Hf)].
  - rewrite H. left. change (0 <=? -1) with false. cbn [andb].
    apply slice_empty. simpl. lia.
  - rewrite Hres. right.
    assert (Hlen : String.length (slice u 0 i') = i') by (rewrite length_slice; lia).
    assert (Hlast : at_index (slice u 0 i') (i' - 1) = at_index u (i' - 1)).
    { rewrite at_index_slice by lia. reflexivity. }
    destruct (Z.lt_ge_cases (at_index u (i' - 1)) 128) as [Hlt|Hge].
    + (* the last byte is an ASCII byte *)
      rewrite DecodeLast_ascii in D by (rewrite ?Hlen, ?Hlast; (lia || exact Hlt)).
      rewrite Hlen, Hlast in D. inversion D; subst r size.
      replace (Z.to_nat (Z.of_nat (i' - 1))) with (i' - 1)%nat by lia.
      assert (Hcond : (0 <=? Z.of_nat (i' - 1)) && (utf8.RuneSelf <=? at_index u (i' - 1)) = false).
      { apply andb_false_iff. right. apply Z.leb_gt. exact Hlt. }
      rewrite Hcond.
      exists i'. replace (Z.to_nat (Z.of_nat (i' - 1) + 1)) with i' by lia.
      repeat split; [lia | lia | right; exact Hf].
    + (* the last byte is not *)
      pose proof (DecodeLast_high (slice u 0 i')) as Hhigh.
      rewrite Hlen, Hlast, D in Hhigh. cbn [snd] in Hhigh.
      destruct Hhigh as (Hsize & Hlead); [lia | exact Hge |].
      rewrite at_index_slice in Hlead by lia. simpl in Hlead.
      set (j := (i' - size)%nat) in *.
      replace (Z.to_nat (Z.of_nat j)) with j by lia.
      assert (Hcond : (0 <=? Z.of_nat j) && (utf8.RuneSelf <=? at_index u j) = true).
      { apply andb_true_iff. split; [apply Z.leb_le; lia | apply Z.leb_le; exact Hlead]. }
      rewrite Hcond.
      pose proof (DecodeRuneInString_width (slice_from u j)) as Hw.
      pose proof (DecodeRune_wide (slice_from u j)) as Hwide.
      unfold slice_from in Hw, Hwide. rewrite length_slice in Hw, Hwide by lia.
      fold (slice_from u j) in Hw, Hwide.
      destruct (utf8.DecodeRuneInString (slice_from u j)) as [r' wid] eqn:D'.
      cbn [snd] in Hw, Hwide.
      assert (Hj : (j < String.length u)%nat) by (unfold j; lia).
      destruct (Nat.eq_dec wid 1%nat) as [->|Hne].
      * exists (j + 1)%nat. replace (Z.to_nat (Z.of_nat j + Z.of_nat 1)) with (j + 1)%nat by lia.
        replace (j + 1 - 1)%nat with j by lia.
        repeat split; [lia | lia | left; exact Hlead].
      * destruct Hwide as (_ & Hcont & Hfit); [lia|].
        unfold slice_from in Hcont. rewrite at_index_slice in Hcont by lia.
        exists (j + wid)%nat.
        replace (Z.to_nat (Z.of_nat j + Z.of_nat wid)) with (j + wid)%nat by lia.
        replace (j + wid - 1)%nat with (j + (wid - 1))%nat by lia.
        repeat split; [lia | lia | left; exact Hcont].
Qed.

Lemma IsSpace_false_ascii (b : Z) :
  128 <= b \/ unicode.IsSpace b = false -> strings.asciiSpace b = false.
Proof.
  intros [H|H]; [apply asciiSpace_high; exact H|].
  destruct (Z.lt_ge_cases b 128) as [Hlt|Hge].
  - rewrite <- IsSpace_ascii by exact Hlt. exact H.
  - apply asciiSpace_high. exact Hge.
Qed.

(** [TrimRightFunc] on a string that does not start with ASCII white
    space: neither end of what is left is ASCII white space. *)
Lemma TrimRightFunc_ends (u : string) :
  strings.asciiSpace (at_index u 0) = false ->
  no_space_at_ends (strings.TrimRightFunc u unicode.IsSpace).
Proof.
  intros Hhead.
  destruct (TrimRightFunc_last u unicode.IsSpace) as [H|(k & Hk & Hv & Hlast)].
  - left. exact H.
  - right. rewrite Hv, length_slice by lia.
    rewrite !at_index_slice by lia. simpl.
    rewrite Nat.sub_0_r. split; [exact Hhead|].
    apply IsSpace_false_ascii. exact Hlast.
Qed.

Lemma TrimFunc_ends (w : string) :
  no_space_at_ends (strings.TrimFunc w unicode.IsSpace).
Proof.
  unfold strings.TrimFunc.
  destruct (TrimLeftFunc_head w unicode.IsSpace) as [H|[Hlen Hns]].
  - rewrite H. left. reflexivity.
  - apply TrimRightFunc_ends. apply head_not_space; assumption.
Qed.

(** What the first loop of [TrimSpace] settles on. *)
Lemma trim_start_spec (fuel : nat) (s : string) (start : nat) :
  (String.length s - start < fuel)%nat ->
  match strings.trim_start fuel s start with
  | inl st =>
      (String.length s <= st)%nat
      \/ ((st < String.length s)%nat /\ strings.asciiSpace (at_index s st) = false)
  | inr w => no_space_at_ends w
  end.
Proof.
  revert start. induction fuel as [|k IH]; intros start Hf; [lia|].
  cbn [strings.trim_start].
  destruct (String.length s <=? start)%nat eqn:E.
  - apply Nat.leb_le in E. left. exact E.
  - apply Nat.leb_gt in E. cbv zeta.
    destruct (utf8.RuneSelf <=? at_index s start); [apply TrimFunc_ends|].
    destruct (strings.asciiSpace (at_index s start)) eqn:Hsp; simpl negb; cbv iota.
    + apply IH. lia.
    + right. split; assumption.
Qed.

(** What the second loop of [TrimSpace] settles on, when the string does
    not have ASCII white space at [start]. *)
Lemma trim_stop_spec (fuel : nat) (s : string) (start stop : nat) :
  (stop - start < fuel)%nat ->
  (stop <= String.length s)%nat ->
  (start < String.length s)%nat ->
  strings.asciiSpace (at_index s start) = false ->
  match strings.trim_stop fuel s start stop with
  | inl sp =>
      (sp <= start)%nat
      \/ ((start < sp <= String.length s)%nat
          /\ strings.asciiSpace (at_index s (sp - 1)) = false)
  | inr w => no_space_at_ends w
  end.
Proof.
  intros Hf Hstop Hstart Hhead. revert stop Hf Hstop.
  induction fuel as [|k IH]; intros stop Hf Hstop; [lia|].
  cbn [strings.trim_stop].
  destruct (stop <=? start)%nat eqn:E.
  - apply Nat.leb_le in E. left. exact E.
  - apply Nat.leb_gt in E. cbv zeta.
    destruct (utf8.RuneSelf <=? at_index s (stop - 1)).
    + apply TrimRightFunc_ends. rewrite at_index_slice by lia.
      rewrite Nat.add_0_r. exact Hhead.
    + destruct (strings.asciiSpace (at_index s (stop - 1))) eqn:Hsp; simpl negb; cbv iota.
      * apply IH; lia.
      * right. split; [lia | exact Hsp].
Qed.

(** What [TrimSpace] returns has no ASCII white space at either end. *)
Lemma TrimSpace_ends (s : string) : no_space_at_ends (strings.TrimSpace s).
Proof.
  unfold strings.TrimSpace.
  pose proof (trim_start_spec (S (String.length s)) s 0 ltac:(lia)) as Hstart.
  destruct (strings.trim_start (S (String.length s)) s 0) as [start|w]; [|exact Hstart].
  destruct Hstart as [Hend|[Hlt Hhead]].
  - (* white space to the end *)
    assert (Hstop : forall fuel stop, (stop <= String.length s)%nat ->
              exists sp, strings.trim_stop fuel s start stop = inl sp /\ (sp <= start)%nat).
    { intros [|k] stop Hle; cbn [strings.trim_stop]; [exists stop; split; [reflexivity | lia]|].
      destruct (stop <=? start)%nat eqn:E; [|apply Nat.leb_gt in E; lia].
      exists stop. split; [reflexivity | lia]. }
    destruct (Hstop (S (String.length s)) (String.length s)) as (sp & -> & Hsp); [lia|].
    left. apply slice_empty. exact Hsp.
  - pose proof (trim_stop_spec (S (String.length s)) s start (String.length s)
                  ltac:(lia) ltac:(lia) Hlt Hhead) as Hstop.
    destruct (strings.trim_stop (S (String.length s)) s start (String.length s)) as [stop|w];
      [|exact Hstop].
    destruct Hstop as [Hle|[Hrange Hlast]].
    + left. apply slice_empty. exact Hle.
    + right. rewrite length_slice by lia.
      rewrite !at_index_slice by lia.
      rewrite Nat.add_0_r.
      replace (start + (stop - start - 1))%nat with (stop - 1)%nat by lia.
      split; assumption.
Qed.

(** X12. The string that [SummarizePlans] returns never starts and never
    ends with a byte of ASCII white space (tab, line feed, vertical tab,
    form feed, carriage return, space), whatever the plans, the
    environment and the answer of the network. *)
Theorem result_has_no_space_at_ends (environ : gmap string string)
        (Do : http.Client -> http.Request -> http.Response + error)
        (terraformOutputs : list string) :
  no_space_at_ends (SummarizePlans environ Do terraformOutputs).1.
Proof.
  destruct terraformOutputs as [|p ps]; [left; reflexivity|].
  destruct (String.eqb (os.Getenv environ openRouterAPIKeyEnv) "") eqn:Hkey.
  { apply String.eqb_eq in Hkey.
    rewrite SummarizePlans_no_key by (congruence || assumption). left. reflexivity. }
  apply String.eqb_neq in Hkey.
  rewrite run_after_sending by (congruence || assumption). cbv zeta.
  destruct (Do _ _) as [resp|err]; [|left; reflexivity].
  cbn [fst]. unfold readSummary, io.ReadAll.
  destruct (io.failure (http.Body resp)); [left; reflexivity|].
  destruct (negb _); [left; reflexivity|].
  destruct (json.Unmarshal _) as [r|err]; [|left; reflexivity].
  destruct (Error r); [left; reflexivity|].
  destruct (Choices r) as [|c cs]; [left; reflexivity|].
  cbv zeta. destruct (String.eqb _ ""); [left; reflexivity|].
  apply TrimSpace_ends.
Qed.

(** * The JSON of the request *)

Lemma byte_of_range (c : ascii) : 0 <= byte_of c < 256.
Proof.
  unfold byte_of. pose proof (N_ascii_bounded c) as H. lia.
Qed.

Lemma byte_to_of (c : ascii) : byte_to (byte_of c) = c.
Proof.
  unfold byte_to, byte_of. pose proof (N_ascii_bounded c) as H.
  rewrite Z.mod_small by lia. rewrite N2Z.id. apply ascii_N_embedding.
Qed.

Lemma byte_of_to (b : Z) : 0 <= b < 256 -> byte_of (byte_to b) = b.
Proof.
  intros H. unfold byte_to, byte_of. rewrite Z.mod_small by lia.
  rewrite N_ascii_embedding by lia. lia.
Qed.

Lemma at_index_range (s : string) (i : nat) : 0 <= at_index s i < 256.
Proof.
  unfold at_index. destruct (String.get i s); [apply byte_of_range | lia].
Qed.

(** The character of [s] at an index within it. *)
Lemma byte_to_at_index (s : string) (i : nat) :
  (i < String.length s)%nat -> String.get i s = Some (byte_to (at_index s i)).
Proof.
  revert i. induction s as [|c s IH]; intros i H; simpl in H; [lia|].
  destruct i as [|i].
  - unfold at_index. simpl. rewrite byte_to_of. reflexivity.
  - simpl. unfold at_index. simpl. apply IH. lia.
Qed.

Lemma append_cons (c : ascii) (a b : string) : String c a +:+ b = String c (a +:+ b).
Proof. reflexivity. Qed.


(** The scanner in a string literal, over bytes that need no escape. *)
Lemma scan_plain (chunk X acc : string) :
  all_bytes plain chunk = true ->
  jsonsyntax.scan_string (chunk +:+ X) 0 acc = jsonsyntax.scan_string X 0 (acc +:+ chunk).
Proof.
  revert acc. induction chunk as [|c chunk IH]; intros acc Hall.
  - rewrite append_empty_r. reflexivity.
  - simpl in Hall. apply andb_true_iff in Hall as [Hc Hrest].
    unfold plain in Hc. apply andb_true_iff in Hc as [Hc H92].
    apply andb_true_iff in Hc as [H32 H34].
    apply negb_true_iff in H34, H92. apply Z.leb_le in H32.
    rewrite append_cons. cbn [jsonsyntax.scan_string].
    rewrite H34, H92.
    destruct (byte_of c <? 32) eqn:Hlt; [apply Z.ltb_lt in Hlt; lia|].
    rewrite IH by exact Hrest.
    rewrite append_assoc. reflexivity.
Qed.

(** The scanner over a backslash and the letter of a short escape. *)
Lemma scan_short_escape (e : Z) (X acc : string) :
  (e =? 98) || (e =? 102) || (e =? 110) || (e =? 114) || (e =? 116)
    || (e =? 92) || (e =? 47) || (e =? 34) = true ->
  0 <= e < 256 ->
  jsonsyntax.scan_string (String (byte_to 92) (String (byte_to e) X)) 0 acc
  = jsonsyntax.scan_string X 0 (acc +:+ String (byte_to 92) (String (byte_to e) "")).
Proof.
  intros He Hrange. cbn [jsonsyntax.scan_string].
  change (byte_of (byte_to 92) =? 34) with false.
  change (byte_of (byte_to 92) =? 92) with true. cbv iota.
  rewrite byte_of_to by exact Hrange. rewrite He.
  rewrite append_assoc. reflexivity.
Qed.

(** The scanner over a [\u] escape of four hexadecimal digits. *)
Lemma scan_u_escape (h1 h2 h3 h4 : ascii) (X acc : string) :
  jsonsyntax.isHex (byte_of h1) = true ->
  jsonsyntax.isHex (byte_of h2) = true ->
  jsonsyntax.isHex (byte_of h3) = true ->
  jsonsyntax.isHex (byte_of h4) = true ->
  jsonsyntax.scan_string
    (String (byte_to 92) (String "u" (String h1 (String h2 (String h3 (String h4 X)))))) 0 acc
  = jsonsyntax.scan_string X 0
      (acc +:+ String (byte_to 92) (String "u" (String h1 (String h2 (String h3 (String h4 "")))))).
Proof.
  intros H1 H2 H3 H4. cbn [jsonsyntax.scan_string].
  change (byte_of (byte_to 92) =? 34) with false.
  change (byte_of (byte_to 92) =? 92) with true. cbv iota.
  change (byte_of "u") with 117. simpl.
  rewrite H1, H2, H3, H4.
  rewrite !append_assoc. reflexivity.
Qed.

(** The digits of [hex] are hexadecimal digits, and each reads back as
    its index. *)
Lemma hex_at_digit (i : Z) :
  0 <= i < 16 ->
  exists h : ascii,
    json.hex_at i = String h ""
    /\ jsonsyntax.isHex (byte_of h) = true
    /\ json.hex_digit (byte_of h) = i.
Proof.
  intros H.
  assert (Hcases : i = 0 \/ i = 1 \/ i = 2 \/ i = 3 \/ i = 4 \/ i = 5 \/ i = 6 \/ i = 7
                   \/ i = 8 \/ i = 9 \/ i = 10 \/ i = 11 \/ i = 12 \/ i = 13 \/ i = 14
                   \/ i = 15) by lia.
  repeat (destruct Hcases as [->|Hcases]; [eexists; repeat split; reflexivity|]).
  subst. eexists; repeat split; reflexivity.
Qed.

(** The bytes of a rune of several bytes are all outside ASCII, and
    there are at most four of them. *)
Lemma DecodeRune_bytes (w : string) :
  let size := (utf8.DecodeRuneInString w).2 in
  (size <= 4)%nat
  /\ ((1 < size)%nat -> 128 <= at_index w 1)
  /\ ((2 < size)%nat -> 128 <= at_index w 2)
  /\ ((3 < size)%nat -> 128 <= at_index w 3).
Proof.
  cbv zeta. unfold utf8.DecodeRuneInString.
  destruct (String.length w <? 1)%nat; [simpl; repeat split; lia|].
  destruct (utf8.first (at_index w 0)) as [| |sz lo hi] eqn:Hfirst;
    [simpl; repeat split; lia | simpl; repeat split; lia |].
  assert (Hlo : 128 <= lo).
  { unfold utf8.first in Hfirst.
    repeat match type of Hfirst with
           | (if ?b then _ else _) = _ => destruct b
           end; try discriminate; inversion Hfirst; subst; lia. }
  destruct (String.length w <? sz)%nat; [simpl; repeat split; lia|].
  destruct ((at_index w 1 <? lo) || (hi <? at_index w 1)) eqn:H1; [simpl; repeat split; lia|].
  apply orb_false_iff in H1 as [H1 _]. apply Z.ltb_ge in H1.
  destruct (sz <=? 2)%nat; [simpl; repeat split; lia|].
  destruct (negb (utf8.continuation (at_index w 2))) eqn:H2; [simpl; repeat split; lia|].
  apply negb_false_iff in H2. unfold utf8.continuation in H2.
  apply andb_true_iff in H2 as [H2 _]. apply Z.leb_le in H2.
  destruct (sz <=? 3)%nat; [simpl; repeat split; lia|].
  destruct (negb (utf8.continuation (at_index w 3))) eqn:H3; [simpl; repeat split; lia|].
  apply negb_false_iff in H3. unfold utf8.continuation in H3.
  apply andb_true_iff in H3 as [H3 _]. apply Z.leb_le in H3.
  simpl. repeat split; lia.
Qed.

Lemma all_bytes_of_at (p : Z -> bool) (t : string) :
  (forall k, (k < String.length t)%nat -> p (at_index t k) = true) ->
  all_bytes p t = true.
Proof.
  induction t as [|c t IH]; intros H; [reflexivity|].
  simpl. apply andb_true_iff. split.
  - apply (H 0%nat). simpl. lia.
  - apply IH. intros k Hk. apply (H (S k)). simpl. lia.
Qed.

(** The bytes of a rune that starts outside ASCII need no escape. *)
Lemma rune_bytes_plain (src : string) (i n : nat) :
  (i < String.length src)%nat ->
  (i + n <= String.length src)%nat ->
  128 <= at_index src i ->
  let size := (utf8.DecodeRuneInString (slice src i (i + n))).2 in
  all_bytes plain (slice src i (i + size)) = true.
Proof.
  intros Hi Hn Hhigh. cbv zeta.
  pose proof (DecodeRune_bytes (slice src i (i + n))) as Hb.
  pose proof (DecodeRune_wide (slice src i (i + n))) as Hw.
  cbv zeta in Hb. rewrite length_slice in Hw by lia.
  set (size := (utf8.DecodeRuneInString (slice src i (i + n))).2) in *.
  destruct Hb as (H4 & H1 & H2 & H3).
  assert (Hfit : (size <= 1 \/ size <= i + n - i)%nat).
  { destruct (Nat.le_gt_cases size 1) as [H|H]; [left; exact H|].
    right. apply Hw. exact H. }
  apply all_bytes_of_at. intros k Hk.
  assert (Hlen : (String.length (slice src i (i + size)) <= size)%nat).
  { destruct (Nat.le_gt_cases (i + size) (String.length src)) as [H|H].
    - rewrite length_slice by lia. lia.
    - lia. }
  assert (Hks : (k < size)%nat) by lia.
  rewrite at_index_slice by lia.
  assert (Hge : 128 <= at_index src (i + k)).
  { destruct k as [|[|[|[|k]]]].
    - rewrite Nat.add_0_r. exact Hhigh.
    - specialize (H1 ltac:(lia)). rewrite at_index_slice in H1 by lia. exact H1.
    - specialize (H2 ltac:(lia)). rewrite at_index_slice in H2 by lia. exact H2.
    - specialize (H3 ltac:(lia)). rewrite at_index_slice in H3 by lia. exact H3.
    - lia. }
  unfold plain. apply andb_true_iff. split; [apply andb_true_iff; split|].
  - apply Z.leb_le. lia.
  - apply negb_true_iff, Z.eqb_neq. lia.
  - apply negb_true_iff, Z.eqb_neq. lia.
Qed.

Lemma htmlSafe_plain (b : Z) : json.htmlSafe b = true -> plain b = true.
Proof.
  unfold json.htmlSafe, plain. intros H.
  apply andb_true_iff in H as [H Hnot]. apply andb_true_iff in H as [H32 _].
  apply negb_true_iff in Hnot.
  repeat (apply orb_false_iff in Hnot as [Hnot ?]).
  rewrite H32, Hnot. simpl. apply negb_true_iff. assumption.
Qed.

(** What [Marshal] writes for a string is, to the scanner, the inside of
    a string literal: the scanner runs over it without meeting its end
    or an error. *)
Lemma scan_escaped (fuel : nat) (src : string) (i : nat) (X acc : string) :
  jsonsyntax.scan_string (json.escape_from fuel src i +:+ X) 0 acc
  = jsonsyntax.scan_string X 0 (acc +:+ json.escape_from fuel src i).
Proof.
  revert i acc. induction fuel as [|k IH]; intros i acc.
  { simpl. rewrite append_empty_r. reflexivity. }
  cbn [json.escape_from].
  destruct (String.length src <=? i)%nat eqn:E.
  { simpl. rewrite append_empty_r. reflexivity. }
  apply Nat.leb_gt in E. cbv zeta.
  pose proof (at_index_range src i) as Hrange.
  set (b := at_index src i) in *.
  destruct (b <? utf8.RuneSelf) eqn:Hascii.
  - (* an ASCII byte *)
    apply Z.ltb_lt in Hascii. unfold utf8.RuneSelf in Hascii.
    rewrite append_assoc.
    match goal with
    | |- jsonsyntax.scan_string (?out +:+ ?rest) 0 acc = _ =>
        assert (Hout : forall Y a, jsonsyntax.scan_string (out +:+ Y) 0 a
                                   = jsonsyntax.scan_string Y 0 (a +:+ out))
    end.
    { intros Y a.
      destruct (json.htmlSafe b) eqn:Hsafe.
      { apply scan_plain. simpl. rewrite byte_of_to by exact Hrange.
        rewrite (htmlSafe_plain b Hsafe). reflexivity. }
      destruct ((b =? 92) || (b =? 34)) eqn:Hq.
      { apply scan_short_escape; [|exact Hrange].
        apply orb_true_iff in Hq as [Hq|Hq]; rewrite Hq; rewrite ?orb_true_r; reflexivity. }
      destruct (b =? 8); [apply (scan_short_escape 98); [reflexivity | lia]|].
      destruct (b =? 12); [apply (scan_short_escape 102); [reflexivity | lia]|].
      destruct (b =? 10); [apply (scan_short_escape 110); [reflexivity | lia]|].
      destruct (b =? 13); [apply (scan_short_escape 114); [reflexivity | lia]|].
      destruct (b =? 9); [apply (scan_short_escape 116); [reflexivity | lia]|].
      destruct (hex_at_digit (Z.shiftr b 4)) as (h1 & -> & Hh1 & _).
      { rewrite Z.shiftr_div_pow2 by lia. change (2 ^ 4) with 16.
        split; [apply Z.div_pos; lia | apply Z.div_lt_upper_bound; lia]. }
      destruct (hex_at_digit (Z.land b 15)) as (h2 & -> & Hh2 & _).
      { change 15 with (Z.ones 4). rewrite Z.land_ones by lia.
        change (2 ^ 4) with 16. apply Z.mod_pos_bound. lia. }
      apply (scan_u_escape "0" "0" h1 h2); [reflexivity | reflexivity | exact Hh1 | exact Hh2]. }
    rewrite Hout, IH, append_assoc. reflexivity.
  - (* a byte outside ASCII *)
    apply Z.ltb_ge in Hascii. unfold utf8.RuneSelf in Hascii.
    pose proof (rune_bytes_plain src i (Nat.min (String.length src - i) utf8.UTFMax)
                  E ltac:(lia) Hascii) as Hplain.
    cbv zeta in Hplain.
    destruct (utf8.DecodeRuneInString _) as [c size] eqn:D.
    cbn [snd] in Hplain.
    destruct ((c =? utf8.RuneError) && (size =? 1)%nat).
    + rewrite append_assoc, scan_plain by reflexivity.
      rewrite IH, append_assoc. reflexivity.
    + destruct ((c =? 8232) || (c =? 8233)) eqn:Hsep.
      * assert (Hesc : forall Y a,
                  jsonsyntax.scan_string
                    ((String (byte_to 92) "u202" +:+ json.hex_at (Z.land c 15)) +:+ Y) 0 a
                  = jsonsyntax.scan_string Y 0
                      (a +:+ String (byte_to 92) "u202" +:+ json.hex_at (Z.land c 15))).
        { intros Y a.
          apply orb_true_iff in Hsep as [H|H]; apply Z.eqb_eq in H; subst c.
          - apply (scan_u_escape "2" "0" "2" "8"); reflexivity.
          - apply (scan_u_escape "2" "0" "2" "9"); reflexivity. }
        rewrite <- (append_assoc (String (byte_to 92) "u202")).
        rewrite append_assoc, Hesc, IH, !append_assoc. reflexivity.
      * rewrite append_assoc, scan_plain by exact Hplain.
        rewrite IH, append_assoc. reflexivity.
Qed.

Lemma append_nil_l (a : string) : "" +:+ a = a.
Proof. reflexivity. Qed.

(** The parser on the literal that [Marshal] writes for a string. *)
Lemma parse_encoded_string (fuel : nat) (depth : Z) (src rest : string) :
  jsonsyntax.parse_value (S fuel) depth (json.encode_string src +:+ rest)
  = Some (jsonsyntax.Str (json.escape_from (S (String.length src)) src 0), rest).
Proof.
  unfold json.encode_string, json.dquote.
  rewrite !append_assoc, append_cons, append_nil_l.
  cbn [jsonsyntax.parse_value jsonsyntax.skip_space].
  change (byte_of (byte_to 34)) with 34.
  change (jsonsyntax.isSpace 34) with false. cbv iota.
  cbn [jsonsyntax.head_byte jsonsyntax.tail].
  change (byte_of (byte_to 34)) with 34.
  change (34 =? 123) with false. change (34 =? 91) with false.
  change (34 =? 34) with true. cbv iota.
  rewrite scan_escaped. rewrite append_cons, append_nil_l.
  cbn [jsonsyntax.scan_string].
  change (byte_of (byte_to 34)) with 34. change (34 =? 34) with true. cbv iota.
  reflexivity.
Qed.

(** The parser on a member that [Marshal] writes, when another member
    follows the value and when the value is the last of the object. *)
Lemma parse_member_more (fuel : nat) (depth : Z) (key Vtext R : string)
      (v : jsonsyntax.value) :
  all_bytes plain key = true ->
  jsonsyntax.parse_value fuel depth Vtext = Some (v, String "," R) ->
  jsonsyntax.parse_members (S fuel) depth (json.encode_key key +:+ Vtext)
  = match jsonsyntax.parse_members fuel depth R with
    | Some (ms, rest) => Some ((key, v) :: ms, rest)
    | None => None
    end.
Proof.
  intros Hkey Hv. unfold json.encode_key, json.dquote.
  rewrite !append_assoc, !append_cons, !append_nil_l.
  cbn [jsonsyntax.parse_members jsonsyntax.skip_space].
  change (byte_of (byte_to 34)) with 34.
  change (jsonsyntax.isSpace 34) with false. cbv iota.
  cbn [jsonsyntax.head_byte jsonsyntax.tail].
  change (byte_of (byte_to 34)) with 34. change (34 =? 34) with true.
  cbn [negb]. cbv iota.
  rewrite scan_plain by exact Hkey. rewrite append_nil_l.
  cbn [jsonsyntax.scan_string].
  change (byte_of (byte_to 34)) with 34. change (34 =? 34) with true. cbv iota.
  cbn [jsonsyntax.skip_space].
  change (jsonsyntax.isSpace (byte_of ":")) with false. cbv iota.
  cbn [jsonsyntax.head_byte jsonsyntax.tail].
  change (byte_of ":" =? 58) with true. cbn [negb]. cbv iota.
  rewrite Hv.
  cbn [jsonsyntax.skip_space].
  change (jsonsyntax.isSpace (byte_of ",")) with false. cbv iota.
  cbn [jsonsyntax.head_byte jsonsyntax.tail].
  change (byte_of "," =? 44) with true. cbv iota.
  reflexivity.
Qed.

Lemma parse_member_last (fuel : nat) (depth : Z) (key Vtext R : string)
      (v : jsonsyntax.value) :
  all_bytes plain key = true ->
  jsonsyntax.parse_value fuel depth Vtext = Some (v, String "}" R) ->
  jsonsyntax.parse_members (S fuel) depth (json.encode_key key +:+ Vtext)
  = Some ([(key, v)], R).
Proof.
  intros Hkey Hv. unfold json.encode_key, json.dquote.
  rewrite !append_assoc, !append_cons, !append_nil_l.
  cbn [jsonsyntax.parse_members jsonsyntax.skip_space].
  change (byte_of (byte_to 34)) with 34.
  change (jsonsyntax.isSpace 34) with false. cbv iota.
  cbn [jsonsyntax.head_byte jsonsyntax.tail].
  change (byte_of (byte_to 34)) with 34. change (34 =? 34) with true.
  cbn [negb]. cbv iota.
  rewrite scan_plain by exact Hkey. rewrite append_nil_l.
  cbn [jsonsyntax.scan_string].
  change (byte_of (byte_to 34)) with 34. change (34 =? 34) with true. cbv iota.
  cbn [jsonsyntax.skip_space].
  change (jsonsyntax.isSpace (byte_of ":")) with false. cbv iota.
  cbn [jsonsyntax.head_byte jsonsyntax.tail].
  change (byte_of ":" =? 58) with true. cbn [negb]. cbv iota.
  rewrite Hv.
  cbn [jsonsyntax.skip_space].
  change (jsonsyntax.isSpace (byte_of "}")) with false. cbv iota.
  cbn [jsonsyntax.head_byte jsonsyntax.tail].
  change (byte_of "}" =? 44) with false. change (byte_of "}" =? 125) with true. cbv iota.
  reflexivity.
Qed.

(** The parser on an object that [Marshal] writes: a brace, then members
    that start with the quote of a key. *)
Lemma parse_object (fuel : nat) (depth : Z) (key rest : string) :
  depth + 1 <= jsonsyntax.maxNestingDepth ->
  jsonsyntax.parse_value (S fuel) depth ("{" +:+ json.encode_key key +:+ rest)
  = match jsonsyntax.parse_members fuel (depth + 1) (json.encode_key key +:+ rest) with
    | Some (ms, rest') => Some (jsonsyntax.Object ms, rest')
    | None => None
    end.
Proof.
  intros Hdepth. unfold json.encode_key, json.dquote.
  rewrite !append_assoc, !append_cons, !append_nil_l.
  cbn [jsonsyntax.parse_value jsonsyntax.skip_space].
  change (jsonsyntax.isSpace (byte_of "{")) with false. cbv iota.
  cbn [jsonsyntax.head_byte jsonsyntax.tail].
  change (byte_of "{" =? 123) with true. cbv iota.
  apply Z.ltb_ge in Hdepth. rewrite Hdepth.
  cbn [jsonsyntax.skip_space].
  change (byte_of (byte_to 34)) with 34.
  change (jsonsyntax.isSpace 34) with false. cbv iota.
  cbn [jsonsyntax.head_byte].
  change (byte_of (byte_to 34) =? 125) with false. cbv iota.
  reflexivity.
Qed.

(** The parser on a message that [Marshal] writes. *)
Lemma parse_encoded_message (fuel : nat) (depth : Z) (m : openRouterMessage) (rest : string) :
  depth + 1 <= jsonsyntax.maxNestingDepth ->
  jsonsyntax.parse_value (4 + fuel) depth (json.encode_message m +:+ rest)
  = Some (message_value m, rest).
Proof.
  intros Hdepth. unfold json.encode_message.
  rewrite !append_assoc.
  change (4 + fuel)%nat with (S (S (S (S fuel)))).
  rewrite parse_object by exact Hdepth.
  erewrite parse_member_more; [| reflexivity | apply parse_encoded_string ].
  erewrite parse_member_last; [| reflexivity | apply parse_encoded_string ].
  reflexivity.
Qed.

Lemma parse_encoded_message_enough (fuel : nat) (depth : Z) (m : openRouterMessage)
      (rest : string) :
  (4 <= fuel)%nat ->
  depth + 1 <= jsonsyntax.maxNestingDepth ->
  jsonsyntax.parse_value fuel depth (json.encode_message m +:+ rest)
  = Some (message_value m, rest).
Proof.
  intros Hfuel Hdepth.
  replace fuel with (4 + (fuel - 4))%nat by lia.
  apply parse_encoded_message. exact Hdepth.
Qed.

(** The parser on the messages that [Marshal] writes between the
    brackets of an array. *)
Lemma parse_encoded_messages (ms : list openRouterMessage) :
  ms <> [] ->
  forall (fuel : nat) (depth : Z) (rest : string),
    depth + 1 <= jsonsyntax.maxNestingDepth ->
    jsonsyntax.parse_elems (length ms + 4 + fuel) depth
      (String.concat "," (map json.encode_message ms) +:+ "]" +:+ rest)
    = Some (map message_value ms, rest).
Proof.
  induction ms as [|m [|m' l] IH]; intros Hne fuel depth rest Hdepth; [congruence| |].
  - simpl length. simpl map. cbn [String.concat].
    change (1 + 4 + fuel)%nat with (S (4 + fuel)).
    cbn [jsonsyntax.parse_elems].
    rewrite parse_encoded_message by exact Hdepth.
    rewrite append_cons, append_nil_l.
    cbn [jsonsyntax.skip_space].
    change (jsonsyntax.isSpace (byte_of "]")) with false. cbv iota.
    cbn [jsonsyntax.head_byte jsonsyntax.tail].
    change (byte_of "]" =? 44) with false. change (byte_of "]" =? 93) with true. cbv iota.
    reflexivity.
  - change (length (m :: m' :: l) + 4 + fuel)%nat with (S (length (m' :: l) + 4 + fuel)).
    change (String.concat "," (map json.encode_message (m :: m' :: l)))
      with (json.encode_message m +:+ "," +:+ String.concat "," (map json.encode_message (m' :: l))).
    rewrite !append_assoc.
    cbn [jsonsyntax.parse_elems].
    rewrite parse_encoded_message_enough by (simpl; lia || exact Hdepth).
    rewrite append_cons, append_nil_l.
    cbn [jsonsyntax.skip_space].
    change (jsonsyntax.isSpace (byte_of ",")) with false. cbv iota.
    cbn [jsonsyntax.head_byte jsonsyntax.tail].
    change (byte_of "," =? 44) with true. cbv iota.
    rewrite IH by (congruence || exact Hdepth).
    reflexivity.
Qed.

(** The parser on the array of messages that [Marshal] writes. *)
Lemma parse_messages_array (ms : list openRouterMessage) (fuel : nat) (depth : Z)
      (rest : string) :
  ms <> [] ->
  depth + 2 <= jsonsyntax.maxNestingDepth ->
  jsonsyntax.parse_value (S (length ms + 4 + fuel)) depth (json.encode_messages ms +:+ rest)
  = Some (jsonsyntax.Array (map message_value ms), rest).
Proof.
  intros Hne Hdepth.
  pose proof (parse_encoded_messages ms Hne fuel (depth + 1) rest ltac:(lia)) as Helems.
  destruct ms as [|m l]; [congruence|].
  unfold json.encode_messages. rewrite Join_concat in *.
  rewrite !append_assoc, append_cons, append_nil_l.
  cbn [jsonsyntax.parse_value jsonsyntax.skip_space].
  change (jsonsyntax.isSpace (byte_of "[")) with false. cbv iota.
  cbn [jsonsyntax.head_byte jsonsyntax.tail].
  change (byte_of "[" =? 123) with false. change (byte_of "[" =? 91) with true. cbv iota.
  assert (Hd : (jsonsyntax.maxNestingDepth <? depth + 1) = false) by (apply Z.ltb_ge; lia).
  rewrite Hd.
  assert (Hhead : exists Y,
             String.concat "," (map json.encode_message (m :: l)) +:+ "]" +:+ rest
             = String "{" Y).
  { destruct l as [|m' l]; eexists; simpl map; cbn [String.concat];
      unfold json.encode_message; rewrite !append_assoc, append_cons; reflexivity. }
  destruct Hhead as [Y HY]. rewrite HY in *.
  cbn [jsonsyntax.skip_space].
  change (jsonsyntax.isSpace (byte_of "{")) with false. cbv iota.
  cbn [jsonsyntax.head_byte].
  change (byte_of "{" =? 93) with false. cbv iota.
  rewrite Helems. reflexivity.
Qed.

(** The parser on the request that [Marshal] writes, given fuel for its
    levels and its messages. *)
Lemma parse_encoded_request (req : openRouterRequest) (fuel : nat) :
  Messages req <> [] ->
  (length (Messages req) + 8 <= fuel)%nat ->
  jsonsyntax.parse_value fuel 0 (json.encode_request req) = Some (request_value req, "").
Proof.
  intros Hne Hfuel.
  replace fuel with (S (S (S (S (length (Messages req) + 4 + (fuel - length (Messages req) - 8))))))
    by lia.
  unfold json.encode_request.
  rewrite parse_object by (unfold jsonsyntax.maxNestingDepth; lia).
  erewrite parse_member_more; [| reflexivity | apply parse_encoded_string ].
  erewrite parse_member_last;
    [| reflexivity
     | apply parse_messages_array;
         [exact Hne | unfold jsonsyntax.maxNestingDepth; lia] ].
  reflexivity.
Qed.

Lemma encode_message_length (m : openRouterMessage) :
  (1 <= String.length (json.encode_message m))%nat.
Proof.
  unfold json.encode_message. rewrite length_append. simpl String.length. lia.
Qed.

Lemma encode_messages_length (ms : list openRouterMessage) :
  (length ms <= String.length (json.encode_messages ms))%nat.
Proof.
  destruct ms as [|m l]; [simpl; lia|].
  unfold json.encode_messages. rewrite Join_concat, !length_append, length_concat.
  assert (H : forall l' : list openRouterMessage,
             (length l' <= sum_list (String.length <$> map json.encode_message l'))%nat).
  { induction l' as [|x l' IH]; [simpl; lia|].
    pose proof (encode_message_length x).
    change (sum_list (String.length <$> map json.encode_message (x :: l')))
      with (String.length (json.encode_message x)
            + sum_list (String.length <$> map json.encode_message l'))%nat.
    simpl length. lia. }
  specialize (H (m :: l)). cbn [String.length]. lia.
Qed.

(** The parser on the whole of what [Marshal] writes for a request. *)
Lemma parse_marshalled (req : openRouterRequest) :
  Messages req <> [] ->
  jsonsyntax.parse (json.encode_request req) = Some (request_value req).
Proof.
  intros Hne. unfold jsonsyntax.parse.
  rewrite parse_encoded_request; [reflexivity | exact Hne |].
  pose proof (encode_messages_length (Messages req)) as Hlen.
  unfold json.encode_request. rewrite !length_append. cbn [String.length]. lia.
Qed.

(** What [Marshal] writes for a request with messages is one JSON
    value for the parser of the same library: an object with the model
    and the messages, each message an object with its role and content,
    in the order of the payload. *)
Theorem marshal_parses_back (req : openRouterRequest) :
  Messages req <> [] ->
  exists data,
    json.Marshal req = inl data
    /\ jsonsyntax.parse data = Some (request_value req).
Proof.
  intros Hne. exists (json.encode_request req).
  split; [reflexivity|]. apply parse_marshalled. exact Hne.
Qed.

(** The same on the payload for two plans. *)
Lemma marshal_parses_back_witness :
  exists data,
    json.Marshal (reqBody env_prompt ["planA"; "planB"]) = inl data
    /\ jsonsyntax.parse data = Some (request_value (reqBody env_prompt ["planA"; "planB"])).
Proof.
  apply marshal_parses_back. discriminate.
Defined.

(** X13. The body of every request of a run is a JSON object with the
    model anthropic/claude-sonnet-4.5 and an array of two objects: role
    system with the literal of the prompt, role user with the literal of
    the joined plans. *)
Theorem request_body_is_json (environ : gmap string string)
        (Do : http.Client -> http.Request -> http.Response + error)
        (terraformOutputs : list string) (req : http.Request) :
  In req (requests (SummarizePlans environ Do terraformOutputs).2) ->
  let prompt := os.Getenv environ openRouterSystemPromptEnv in
  jsonsyntax.parse (http.Payload req)
  = Some (jsonsyntax.Object
            [ ("model", jsonsyntax.Str "anthropic/claude-sonnet-4.5");
              ("messages",
               jsonsyntax.Array
                 [ jsonsyntax.Object
                     [ ("role", jsonsyntax.Str "system");
                       ("content",
                        jsonsyntax.Str
                          (escaped (if String.eqb prompt "" then defaultSystemPrompt
                                    else prompt))) ];
                   jsonsyntax.Object
                     [ ("role", jsonsyntax.Str "user");
                       ("content",
                        jsonsyntax.Str
                          (escaped (strings.Join terraformOutputs planSeparator))) ] ]) ]).
Proof.
  intros Hin prompt.
  apply request_payload in Hin. unfold json.Marshal in Hin. injection Hin as <-.
  rewrite parse_marshalled by discriminate.
  reflexivity.
Qed.

(** X13 on a run that sends. *)
Lemma request_body_is_json_witness :
  jsonsyntax.parse (http.Payload (sentRequest env_prompt ["planA"; "planB"] "secret"))
  = Some (jsonsyntax.Object
            [ ("model", jsonsyntax.Str "anthropic/claude-sonnet-4.5");
              ("messages",
               jsonsyntax.Array
                 [ jsonsyntax.Object
                     [ ("role", jsonsyntax.Str "system");
                       ("content",
                        jsonsyntax.Str
                          (escaped (if String.eqb (os.Getenv env_prompt openRouterSystemPromptEnv) ""
                                    then defaultSystemPrompt
                                    else os.Getenv env_prompt openRouterSystemPromptEnv))) ];
                   jsonsyntax.Object
                     [ ("role", jsonsyntax.Str "user");
                       ("content",
                        jsonsyntax.Str
                          (escaped (strings.Join ["planA"; "planB"] planSeparator))) ] ]) ]).
Proof.
  apply (request_body_is_json env_prompt (always (inr "timeout")) ["planA"; "planB"]).
  left. reflexivity.
Defined.

(** * Strings through [Marshal] and back *)

(** [escape_from] and [unquote_from] look at the string from their index
    on: a character in front shifts the index and nothing else. *)
Lemma escape_from_shift (fuel : nat) (c : ascii) (s : string) (i : nat) :
  json.escape_from fuel (String c s) (S i) = json.escape_from fuel s i.
Proof.
  revert i. induction fuel as [|k IH]; intros i; [reflexivity|].
  cbn [json.escape_from]. simpl String.length.
  change (S (String.length s) <=? S i)%nat with (String.length s <=? i)%nat.
  destruct (String.length s <=? i)%nat; [reflexivity|].
  change (at_index (String c s) (S i)) with (at_index s i).
  cbv zeta.
  destruct (at_index s i <? utf8.RuneSelf).
  - rewrite IH. reflexivity.
  - change (S (String.length s) - S i)%nat with (String.length s - i)%nat.
    change (slice (String c s) (S i) (S i + Nat.min (String.length s - i) utf8.UTFMax))
      with (slice s i (i + Nat.min (String.length s - i) utf8.UTFMax)).
    destruct (utf8.DecodeRuneInString _) as [r size].
    change (S i + size)%nat with (S (i + size)).
    change (slice (String c s) (S i) (S (i + size))) with (slice s i (i + size)).
    rewrite !IH. reflexivity.
Qed.

(** One step of [escape_from]. *)
Lemma escape_from_step (fuel : nat) (src : string) (i : nat) :
  json.escape_from (S fuel) src i
  = if (String.length src <=? i)%nat then ""
    else
      let b := at_index src i in
      if b <? utf8.RuneSelf then escape_byte b +:+ json.escape_from fuel src (S i)
      else
        let n := Nat.min (String.length src - i) utf8.UTFMax in
        let '(c, size) := utf8.DecodeRuneInString (slice src i (i + n)) in
        if (c =? utf8.RuneError) && (size =? 1)%nat then
          json.replacement +:+ json.escape_from fuel src (i + size)%nat
        else if (c =? 8232) || (c =? 8233) then
          String (byte_to 92) "u202" +:+ json.hex_at (Z.land c 15)
          +:+ json.escape_from fuel src (i + size)%nat
        else slice src i (i + size) +:+ json.escape_from fuel src (i + size)%nat.
Proof. reflexivity. Qed.

(** The first step of [escape_from] on a string that starts with an
    ASCII byte. *)
Lemma escaped_cons (c : ascii) (s : string) :
  ascii_byte (byte_of c) = true ->
  escaped (String c s) = escape_byte (byte_of c) +:+ escaped s.
Proof.
  intros Hascii. unfold escaped, ascii_byte in *.
  change (String.length (String c s)) with (S (String.length s)).
  rewrite (escape_from_step (S (String.length s)) (String c s) 0).
  change (S (String.length s) <=? 0)%nat with false. cbv iota zeta.
  change (at_index (String c s) 0) with (byte_of c).
  unfold utf8.RuneSelf. rewrite Hascii.
  rewrite escape_from_shift. reflexivity.
Qed.

Lemma slice_from_shift (c : ascii) (s : string) (r : nat) :
  slice_from (String c s) (S r) = slice_from s r.
Proof. reflexivity. Qed.

Lemma unquote_from_shift (fuel : nat) (c : ascii) (s : string) (r : nat) :
  json.unquote_from fuel (String c s) (S r) = json.unquote_from fuel s r.
Proof.
  revert r. induction fuel as [|k IH]; intros r; [reflexivity|].
  cbn [json.unquote_from]. simpl String.length.
  change (S (String.length s) <=? S r)%nat with (String.length s <=? r)%nat.
  destruct (String.length s <=? r)%nat; [reflexivity|].
  change (at_index (String c s) (S r)) with (at_index s r).
  cbv zeta.
  change (S (String.length s) <=? S (S r))%nat with (String.length s <=? S r)%nat.
  change (at_index (String c s) (S (S r))) with (at_index s (S r)).
  change (S (S r) - 1)%nat with (S r - 0)%nat.
  change (S r - 1)%nat with (r - 0)%nat.
  rewrite !Nat.sub_0_r.
  rewrite !slice_from_shift.
  change (S r + 6)%nat with (S (r + 6)).
  rewrite !slice_from_shift.
  change (S (r + 6) + 6)%nat with (S (r + 6 + 6)).
  rewrite !IH.
  destruct (utf8.DecodeRuneInString (slice_from s r)) as [rr size].
  change (S r + size)%nat with (S (r + size)).
  rewrite !IH. reflexivity.
Qed.

Lemma unquote_from_skip (fuel : nat) (chunk s : string) (r : nat) :
  json.unquote_from fuel (chunk +:+ s) (String.length chunk + r) = json.unquote_from fuel s r.
Proof.
  induction chunk as [|c chunk IH]; [reflexivity|].
  rewrite append_cons. simpl String.length.
  change (S (String.length chunk) + r)%nat with (S (String.length chunk + r)).
  rewrite unquote_from_shift. exact IH.
Qed.

(** [unquote_from] has the fuel it needs: with more than the number of
    bytes still to read, the amount of fuel does not matter. *)
Lemma unquote_from_stable (s : string) (fuel1 fuel2 r : nat) :
  (String.length s - r < fuel1)%nat -> (String.length s - r < fuel2)%nat ->
  json.unquote_from fuel1 s r = json.unquote_from fuel2 s r.
Proof.
  revert fuel2 r. induction fuel1 as [|k IH]; intros fuel2 r H1 H2; [lia|].
  destruct fuel2 as [|k2]; [lia|].
  cbn [json.unquote_from].
  destruct (String.length s <=? r)%nat eqn:E; [reflexivity|].
  apply Nat.leb_gt in E. cbv zeta.
  pose proof (DecodeRuneInString_width (slice_from s r)) as Hw.
  unfold slice_from in Hw at 1. rewrite length_slice in Hw by lia.
  destruct (utf8.DecodeRuneInString (slice_from s r)) as [rr size].
  cbn [snd] in Hw.
  replace (S r - 1)%nat with r by lia.
  rewrite (IH k2 (S (S r))) by lia.
  rewrite (IH k2 (r + 6 + 6)%nat) by lia.
  rewrite (IH k2 (r + 6)%nat) by lia.
  rewrite (IH k2 (S r)) by lia.
  rewrite (IH k2 (r + size)%nat) by lia.
  reflexivity.
Qed.

Lemma substring_all (s : string) : String.substring 0 (String.length s) s = s.
Proof. induction s as [|c s IH]; [reflexivity|]. simpl. rewrite IH. reflexivity. Qed.

Lemma slice_from_0 (s : string) : slice_from s 0 = s.
Proof. unfold slice_from, slice. rewrite Nat.sub_0_r. apply substring_all. Qed.

(** The byte that the two digits of a [\u00XY] escape stand for. *)
Lemma hex_digits_value (b : Z) :
  0 <= b < 256 -> Z.shiftr b 4 * 16 + Z.land b 15 = b.
Proof.
  intros H. rewrite Z.shiftr_div_pow2 by lia.
  change 15 with (Z.ones 4). rewrite Z.land_ones by lia.
  change (2 ^ 4) with 16. pose proof (Z.div_mod b 16 ltac:(lia)). lia.
Qed.

(** Reading back what [Marshal] wrote for one ASCII byte: the byte, then
    the rest. *)
Lemma unquote_escape_byte (b : Z) (X : string) (fuel : nat) :
  0 <= b < 128 ->
  json.unquote_from (S fuel) (escape_byte b +:+ X) 0
  = match json.unquote_from fuel X 0 with
    | Some t => Some (String (byte_to b) t)
    | None => None
    end.
Proof.
  intros Hb.
  unfold escape_byte.
  destruct (json.htmlSafe b) eqn:Hsafe.
  { (* a byte written as it is *)
    pose proof (htmlSafe_plain b Hsafe) as Hplain. unfold plain in Hplain.
    apply andb_true_iff in Hplain as [Hplain H92].
    apply andb_true_iff in Hplain as [H32 H34].
    apply negb_true_iff in H34, H92. apply Z.leb_le in H32.
    rewrite append_cons, append_nil_l.
    cbn [json.unquote_from]. simpl String.length.
    change (S (String.length X) <=? 0)%nat with false. cbv iota.
    change (at_index (String (byte_to b) X) 0) with (byte_of (byte_to b)).
    rewrite byte_of_to by lia. rewrite H92, H34.
    assert (Hlt : (b <? 32) = false) by (apply Z.ltb_ge; lia).
    assert (Hself : (b <? utf8.RuneSelf) = true) by (apply Z.ltb_lt; unfold utf8.RuneSelf; lia).
    rewrite Hlt, Hself. cbn [orb]. cbv iota.
    rewrite unquote_from_shift. reflexivity. }
  assert (Hself : (92 <? utf8.RuneSelf) = true) by reflexivity.
  destruct ((b =? 92) || (b =? 34)) eqn:Hq.
  { (* a backslash or a quote, after a backslash *)
    rewrite !append_cons, append_nil_l.
    cbn [json.unquote_from]. simpl String.length.
    change (S (S (String.length X)) <=? 0)%nat with false.
    change (S (S (String.length X)) <=? 1)%nat with false. cbv iota.
    change (at_index (String (byte_to 92) (String (byte_to b) X)) 0) with 92.
    change (at_index (String (byte_to 92) (String (byte_to b) X)) 1)
      with (byte_of (byte_to b)).
    rewrite byte_of_to by lia.
    change (92 =? 92) with true. cbv iota.
    assert (He : (b =? 34) || (b =? 92) || (b =? 47) || (b =? 39) = true).
    { apply orb_true_iff in Hq as [Hq|Hq]; rewrite Hq; rewrite ?orb_true_r; reflexivity. }
    rewrite He. rewrite !unquote_from_shift. reflexivity. }
  assert (Hshort : forall (e : Z) (d : Z),
             0 <= e < 256 ->
             (e =? 34) || (e =? 92) || (e =? 47) || (e =? 39) = false ->
             (if e =? 98 then Some 8 else if e =? 102 then Some 12
              else if e =? 110 then Some 10 else if e =? 114 then Some 13
              else if e =? 116 then Some 9 else None) = Some d ->
             json.unquote_from (S fuel) (String (byte_to 92) (String (byte_to e) "") +:+ X) 0
             = match json.unquote_from fuel X 0 with
               | Some t => Some (String (byte_to d) t)
               | None => None
               end).
  { intros e d Hrange Hnot Hd.
    rewrite !append_cons, append_nil_l.
    cbn [json.unquote_from]. simpl String.length.
    change (S (S (String.length X)) <=? 0)%nat with false.
    change (S (S (String.length X)) <=? 1)%nat with false. cbv iota.
    change (at_index (String (byte_to 92) (String (byte_to e) X)) 0) with 92.
    change (at_index (String (byte_to 92) (String (byte_to e) X)) 1)
      with (byte_of (byte_to e)).
    rewrite byte_of_to by lia.
    change (92 =? 92) with true. cbv iota. rewrite Hnot.
    rewrite !unquote_from_shift.
    destruct (e =? 98); [inversion Hd; reflexivity|].
    destruct (e =? 102); [inversion Hd; reflexivity|].
    destruct (e =? 110); [inversion Hd; reflexivity|].
    destruct (e =? 114); [inversion Hd; reflexivity|].
    destruct (e =? 116); [inversion Hd; reflexivity|].
    discriminate. }
  destruct (b =? 8) eqn:H8;
    [apply Z.eqb_eq in H8; subst b; apply (Hshort 98 8); [lia | reflexivity | reflexivity]|].
  destruct (b =? 12) eqn:H12;
    [apply Z.eqb_eq in H12; subst b; apply (Hshort 102 12); [lia | reflexivity | reflexivity]|].
  destruct (b =? 10) eqn:H10;
    [apply Z.eqb_eq in H10; subst b; apply (Hshort 110 10); [lia | reflexivity | reflexivity]|].
  destruct (b =? 13) eqn:H13;
    [apply Z.eqb_eq in H13; subst b; apply (Hshort 114 13); [lia | reflexivity | reflexivity]|].
  destruct (b =? 9) eqn:H9;
    [apply Z.eqb_eq in H9; subst b; apply (Hshort 116 9); [lia | reflexivity | reflexivity]|].
  (* a [\u00XY] escape *)
  destruct (hex_at_digit (Z.shiftr b 4)) as (h1 & -> & _ & Hh1).
  { rewrite Z.shiftr_div_pow2 by lia. change (2 ^ 4) with 16.
    split; [apply Z.div_pos; lia | apply Z.div_lt_upper_bound; lia]. }
  destruct (hex_at_digit (Z.land b 15)) as (h2 & -> & _ & Hh2).
  { change 15 with (Z.ones 4). rewrite Z.land_ones by lia.
    change (2 ^ 4) with 16. apply Z.mod_pos_bound. lia. }
  rewrite !append_assoc, !append_cons, !append_nil_l.
  set (s := String (byte_to 92) (String "u" (String "0" (String "0" (String h1 (String h2 X)))))).
  assert (Hu4 : json.getu4 (slice_from s 0) = b).
  { rewrite slice_from_0. unfold json.getu4, s. simpl String.length.
    change (S (S (S (S (S (S (String.length X)))))) <? 6)%nat with false.
    change (at_index _ 0) with 92. change (at_index _ 1) with 117.
    change (92 =? 92) with true. change (117 =? 117) with true. cbn [negb orb].
    change (at_index _ 2) with 48. change (at_index _ 3) with 48.
    change (at_index _ 4) with (byte_of h1). change (at_index _ 5) with (byte_of h2).
    rewrite Hh1, Hh2.
    change (json.hex_digit 48) with 0.
    pose proof (hex_digits_value b ltac:(lia)) as Hval.
    assert (H1 : 0 <= Z.shiftr b 4) by (apply Z.shiftr_nonneg; lia).
    assert (H2 : 0 <= Z.land b 15) by (apply Z.land_nonneg; lia).
    destruct (Z.shiftr b 4 <? 0) eqn:E1; [apply Z.ltb_lt in E1; lia|].
    destruct (Z.land b 15 <? 0) eqn:E2; [apply Z.ltb_lt in E2; lia|].
    simpl. lia. }
  cbn [json.unquote_from]. unfold s at 1 2 3 4. simpl String.length.
  change (S (S (S (S (S (S (String.length X)))))) <=? 0)%nat with false.
  change (S (S (S (S (S (S (String.length X)))))) <=? 1)%nat with false. cbv iota.
  fold s.
  change (at_index s 0) with 92. change (at_index s 1) with 117.
  change (92 =? 92) with true. cbv iota.
  change ((117 =? 34) || (117 =? 92) || (117 =? 47) || (117 =? 39)) with false.
  change (117 =? 98) with false. change (117 =? 102) with false.
  change (117 =? 110) with false. change (117 =? 114) with false.
  change (117 =? 116) with false. change (117 =? 117) with true. cbv iota.
  change (1 - 1)%nat with 0%nat. rewrite Hu4.
  destruct (b <? 0) eqn:Hneg; [apply Z.ltb_lt in Hneg; lia|].
  assert (Hsur : utf16.IsSurrogate b = false).
  { unfold utf16.IsSurrogate. apply andb_false_iff. left. apply Z.leb_gt. lia. }
  rewrite Hsur.
  assert (Henc : utf8.EncodeRune b = String (byte_to b) "").
  { unfold utf8.EncodeRune.
    assert (H0 : (0 <=? b) && (b <=? 127) = true)
      by (apply andb_true_iff; split; apply Z.leb_le; lia).
    rewrite H0. reflexivity. }
  rewrite Henc. change (0 + 6)%nat with 6%nat.
  unfold s. rewrite !unquote_from_shift. reflexivity.
Qed.

Lemma escape_byte_length (b : Z) : (1 <= String.length (escape_byte b))%nat.
Proof.
  unfold escape_byte.
  repeat match goal with
         | |- context [if ?c then _ else _] => destruct c
         end; simpl; lia.
Qed.

(** Reading back what [Marshal] wrote for a string of ASCII bytes gives
    the string. *)
Lemma unquote_escaped_ascii (s : string) :
  all_bytes ascii_byte s = true -> json.unquote (escaped s) = Some s.
Proof.
  induction s as [|c s IH]; intros Hall; [reflexivity|].
  simpl in Hall. apply andb_true_iff in Hall as [Hc Hs].
  rewrite escaped_cons by exact Hc.
  unfold json.unquote.
  rewrite unquote_escape_byte
    by (pose proof (byte_of_range c); unfold ascii_byte in Hc; apply Z.ltb_lt in Hc; lia).
  rewrite (unquote_from_stable (escaped s) _ (S (String.length (escaped s))) 0).
  - fold (json.unquote (escaped s)). rewrite IH by exact Hs.
    rewrite byte_to_of. reflexivity.
  - rewrite length_append. pose proof (escape_byte_length (byte_of c)). lia.
  - lia.
Qed.

Lemma all_bytes_append (p : Z -> bool) (a b : string) :
  all_bytes p (a +:+ b) = all_bytes p a && all_bytes p b.
Proof.
  induction a as [|c a IH]; [reflexivity|].
  rewrite append_cons. simpl. rewrite IH, andb_assoc. reflexivity.
Qed.

Lemma all_bytes_concat (p : Z -> bool) (sep : string) (elems : list string) :
  all_bytes p sep = true ->
  Forall (fun e => all_bytes p e = true) elems ->
  all_bytes p (String.concat sep elems) = true.
Proof.
  intros Hsep Hall. induction Hall as [|x l Hx Hl IH]; [reflexivity|].
  destruct l as [|y l]; [exact Hx|].
  change (String.concat sep (x :: y :: l)) with (x +:+ sep +:+ String.concat sep (y :: l)).
  rewrite !all_bytes_append, Hx, Hsep, IH. reflexivity.
Qed.

(** X14. Plans and a prompt of ASCII bytes arrive as they were given:
    the body of every request of a run is a JSON object whose two
    content literals read back, by the rules of the same library, as the
    resolved prompt and as the plans joined by the separator. *)
Theorem ascii_texts_arrive_unchanged (environ : gmap string string)
        (Do : http.Client -> http.Request -> http.Response + error)
        (terraformOutputs : list string) (req : http.Request) :
  In req (requests (SummarizePlans environ Do terraformOutputs).2) ->
  Forall (fun plan => all_bytes ascii_byte plan = true) terraformOutputs ->
  all_bytes ascii_byte (os.Getenv environ openRouterSystemPromptEnv) = true ->
  let prompt := os.Getenv environ openRouterSystemPromptEnv in
  exists literal_prompt literal_plans,
    jsonsyntax.parse (http.Payload req)
    = Some (jsonsyntax.Object
              [ ("model", jsonsyntax.Str "anthropic/claude-sonnet-4.5");
                ("messages",
                 jsonsyntax.Array
                   [ jsonsyntax.Object
                       [ ("role", jsonsyntax.Str "system");
                         ("content", jsonsyntax.Str literal_prompt) ];
                     jsonsyntax.Object
                       [ ("role", jsonsyntax.Str "user");
                         ("content", jsonsyntax.Str literal_plans) ] ]) ])
    /\ json.unquote literal_prompt
       = Some (if String.eqb prompt "" then defaultSystemPrompt else prompt)
    /\ json.unquote literal_plans = Some (String.concat planSeparator terraformOutputs).
Proof.
  intros Hin Hplans Hprompt prompt.
  apply request_payload in Hin. unfold json.Marshal in Hin. injection Hin as <-.
  do 2 eexists. split; [|split].
  - rewrite parse_marshalled by discriminate. reflexivity.
  - apply unquote_escaped_ascii. fold prompt.
    destruct (String.eqb prompt ""); [vm_compute; reflexivity | exact Hprompt].
  - cbn [Content]. rewrite Join_concat. apply unquote_escaped_ascii.
    apply all_bytes_concat; [vm_compute; reflexivity | exact Hplans].
Qed.

(** X14 on two plans and the prompt X. *)
Lemma ascii_texts_arrive_unchanged_witness :
  exists literal_prompt literal_plans,
    jsonsyntax.parse (http.Payload (sentRequest env_prompt ["planA"; "planB"] "secret"))
    = Some (jsonsyntax.Object
              [ ("model", jsonsyntax.Str "anthropic/claude-sonnet-4.5");
                ("messages",
                 jsonsyntax.Array
                   [ jsonsyntax.Object
                       [ ("role", jsonsyntax.Str "system");
                         ("content", jsonsyntax.Str literal_prompt) ];
                     jsonsyntax.Object
                       [ ("role", jsonsyntax.Str "user");
                         ("content", jsonsyntax.Str literal_plans) ] ]) ])
    /\ json.unquote literal_prompt
       = Some (if String.eqb (os.Getenv env_prompt openRouterSystemPromptEnv) ""
               then defaultSystemPrompt
               else os.Getenv env_prompt openRouterSystemPromptEnv)
    /\ json.unquote literal_plans = Some (String.concat planSeparator ["planA"; "planB"]).
Proof.
  apply (ascii_texts_arrive_unchanged env_prompt (always (inr "timeout")) ["planA"; "planB"]).
  - left. reflexivity.
  - repeat constructor.
  - reflexivity.
Defined.

(** * Well-formed UTF-8 *)

Ltac zlia := Z.to_euclidean_division_equations; lia.

Ltac bools :=
  repeat match goal with
         | H : _ && _ = true |- _ => apply andb_true_iff in H; destruct H
         | H : _ || _ = false |- _ => apply orb_false_iff in H; destruct H
         | H : negb _ = true |- _ => apply negb_true_iff in H
         | H : negb _ = false |- _ => apply negb_false_iff in H
         | H : (_ <? _) = true |- _ => apply Z.ltb_lt in H
         | H : (_ <? _) = false |- _ => apply Z.ltb_ge in H
         | H : (_ <=? _) = true |- _ => apply Z.leb_le in H
         | H : (_ <=? _) = false |- _ => apply Z.leb_gt in H
         | H : (_ =? _) = true |- _ => apply Z.eqb_eq in H
         | H : (_ =? _) = false |- _ => apply Z.eqb_neq in H
         | H : (_ <? _)%nat = true |- _ => apply Nat.ltb_lt in H
         | H : (_ <? _)%nat = false |- _ => apply Nat.ltb_ge in H
         | H : (_ <=? _)%nat = true |- _ => apply Nat.leb_le in H
         | H : (_ <=? _)%nat = false |- _ => apply Nat.leb_gt in H
         | H : (_ =? _)%nat = true |- _ => apply Nat.eqb_eq in H
         | H : (_ =? _)%nat = false |- _ => apply Nat.eqb_neq in H
         end.

(** Bits as arithmetic. *)
Lemma lor_add (x y k : Z) :
  0 <= k -> 0 <= y < 2 ^ k -> x mod 2 ^ k = 0 -> Z.lor x y = x + y.
Proof.
  intros Hk Hy Hx.
  assert (Hland : Z.land x y = 0).
  { apply Z.bits_inj'. intros n Hn. rewrite Z.land_spec, Z.bits_0.
    destruct (Z.lt_ge_cases n k) as [Hlt|Hge].
    - assert (Hbit : Z.testbit x n = false).
      { rewrite <- (Z.mod_pow2_bits_low x k n) by lia. rewrite Hx. apply Z.bits_0. }
      rewrite Hbit. reflexivity.
    - assert (Hbit : Z.testbit y n = false).
      { rewrite <- (Z.mod_small y (2 ^ k)) by lia. apply Z.mod_pow2_bits_high. lia. }
      rewrite Hbit. apply andb_false_r. }
  rewrite <- Z.lxor_lor by exact Hland.
  symmetry. apply Z.add_nocarry_lxor. exact Hland.
Qed.

Lemma land_low (b k : Z) : 0 <= k -> Z.land b (2 ^ k - 1) = b mod 2 ^ k.
Proof.
  intros Hk. replace (2 ^ k - 1) with (Z.ones k) by (rewrite Z.ones_equiv; lia).
  apply Z.land_ones. exact Hk.
Qed.

Lemma rune2_value (b0 b1 : Z) :
  192 <= b0 < 224 -> 128 <= b1 <= 191 ->
  Z.lor (Z.shiftl (Z.land b0 31) 6) (Z.land b1 63) = (b0 - 192) * 64 + (b1 - 128).
Proof.
  intros H0 H1.
  change 31 with (2 ^ 5 - 1). change 63 with (2 ^ 6 - 1).
  rewrite !land_low by lia. rewrite !Z.shiftl_mul_pow2 by lia.
  rewrite (lor_add _ _ 6) by (change (2 ^ 6) with 64; change (2 ^ 5) with 32; zlia).
  change (2 ^ 6) with 64; change (2 ^ 5) with 32. zlia.
Qed.

Lemma rune3_value (b0 b1 b2 : Z) :
  224 <= b0 < 240 -> 128 <= b1 <= 191 -> 128 <= b2 <= 191 ->
  Z.lor (Z.lor (Z.shiftl (Z.land b0 15) 12) (Z.shiftl (Z.land b1 63) 6)) (Z.land b2 63)
  = (b0 - 224) * 4096 + (b1 - 128) * 64 + (b2 - 128).
Proof.
  intros H0 H1 H2.
  change 15 with (2 ^ 4 - 1). change 63 with (2 ^ 6 - 1).
  rewrite !land_low by lia. rewrite !Z.shiftl_mul_pow2 by lia.
  change (2 ^ 4) with 16. change (2 ^ 6) with 64. change (2 ^ 12) with 4096.
  rewrite (lor_add (_ * 4096) (_ * 64) 12) by (change (2 ^ 12) with 4096; zlia).
  rewrite (lor_add _ _ 6) by (change (2 ^ 6) with 64; zlia).
  zlia.
Qed.

Lemma rune4_value (b0 b1 b2 b3 : Z) :
  240 <= b0 < 248 -> 128 <= b1 <= 191 -> 128 <= b2 <= 191 -> 128 <= b3 <= 191 ->
  Z.lor (Z.lor (Z.lor (Z.shiftl (Z.land b0 7) 18) (Z.shiftl (Z.land b1 63) 12))
               (Z.shiftl (Z.land b2 63) 6))
        (Z.land b3 63)
  = (b0 - 240) * 262144 + (b1 - 128) * 4096 + (b2 - 128) * 64 + (b3 - 128).
Proof.
  intros H0 H1 H2 H3.
  change 7 with (2 ^ 3 - 1). change 63 with (2 ^ 6 - 1).
  rewrite !land_low by lia. rewrite !Z.shiftl_mul_pow2 by lia.
  change (2 ^ 3) with 8. change (2 ^ 6) with 64. change (2 ^ 12) with 4096.
  change (2 ^ 18) with 262144.
  rewrite (lor_add (_ * 262144) (_ * 4096) 18) by (change (2 ^ 18) with 262144; zlia).
  rewrite (lor_add (_ + _ * 4096) (_ * 64) 12) by (change (2 ^ 12) with 4096; zlia).
  rewrite (lor_add _ _ 6) by (change (2 ^ 6) with 64; zlia).
  zlia.
Qed.

(** The table [first]. *)
Lemma first_inv (b : Z) (sz : nat) (lo hi : Z) :
  utf8.first b = utf8.Seq sz lo hi ->
  (sz = 2%nat /\ 194 <= b < 224 /\ lo = 128 /\ hi = 191)
  \/ (sz = 3%nat /\ 224 <= b < 240
      /\ lo = (if b =? 224 then 160 else 128) /\ hi = (if b =? 237 then 159 else 191))
  \/ (sz = 4%nat /\ 240 <= b <= 244
      /\ lo = (if b =? 240 then 144 else 128) /\ hi = (if b =? 244 then 143 else 191)).
Proof.
  unfold utf8.first. intros H.
  repeat match type of H with
         | (if ?c then _ else _) = _ => destruct c eqn:?
         end; try discriminate; inversion H; subst sz lo hi; bools;
    assert (Hfin : forall x y : Z, x <> y -> (x =? y) = false)
      by (intros x y Hxy; apply Z.eqb_neq; exact Hxy);
    first [ left; repeat split; (lia || reflexivity)
          | right; left; repeat split; try lia; try (subst b; reflexivity);
            rewrite ?Hfin by lia; reflexivity
          | right; right; repeat split; try lia; try (subst b; reflexivity);
            rewrite ?Hfin by lia; reflexivity ].
Qed.

Lemma first_ascii (b : Z) : b < 128 -> utf8.first b = utf8.ASCII.
Proof. intros H. unfold utf8.first. apply Z.ltb_lt in H. rewrite H. reflexivity. Qed.

Lemma first_high (b : Z) : 128 <= b -> utf8.first b <> utf8.ASCII.
Proof.
  intros H. unfold utf8.first.
  repeat match goal with
         | |- context [if ?c then _ else _] => destruct c eqn:?
         end; bools; try discriminate; lia.
Qed.

Lemma first_2 (b : Z) : 194 <= b < 224 -> utf8.first b = utf8.Seq 2 128 191.
Proof.
  intros H. unfold utf8.first.
  repeat match goal with
         | |- context [if ?c then _ else _] => destruct c eqn:?
         end; bools; try reflexivity; lia.
Qed.

Lemma first_3 (b : Z) :
  224 <= b < 240 ->
  utf8.first b = utf8.Seq 3 (if b =? 224 then 160 else 128) (if b =? 237 then 159 else 191).
Proof.
  intros H. unfold utf8.first.
  destruct (b =? 224) eqn:E1; [bools; subst; reflexivity|].
  destruct (b =? 237) eqn:E2; [bools; subst; reflexivity|].
  repeat match goal with
         | |- context [if ?c then _ else _] => destruct c eqn:?
         end; bools; try reflexivity; lia.
Qed.

Lemma first_4 (b : Z) :
  240 <= b <= 244 ->
  utf8.first b = utf8.Seq 4 (if b =? 240 then 144 else 128) (if b =? 244 then 143 else 191).
Proof.
  intros H. unfold utf8.first.
  destruct (b =? 240) eqn:E1; [bools; subst; reflexivity|].
  destruct (b =? 244) eqn:E2; [bools; subst; reflexivity|].
  repeat match goal with
         | |- context [if ?c then _ else _] => destruct c eqn:?
         end; bools; try reflexivity; lia.
Qed.

(** What [DecodeRuneInString] returns on a string that is not empty: a
    rune and the width of its encoding, or the error rune with width 1
    at a byte outside ASCII. *)
Lemma DecodeRune_inv (s : string) (r : Z) (size : nat) :
  (1 <= String.length s)%nat ->
  utf8.DecodeRuneInString s = (r, size) ->
  rune_at s r size
  \/ (size = 1%nat /\ r = utf8.RuneError /\ 128 <= at_index s 0).
Proof.
  intros Hlen. unfold utf8.DecodeRuneInString.
  destruct (String.length s <? 1)%nat eqn:E; [bools; lia|]. clear E.
  pose proof (at_index_range s 0) as R0.
  destruct (utf8.first (at_index s 0)) as [| |sz lo hi] eqn:Hfirst.
  - intros Hd. inversion Hd; subst. left. split; [exact Hlen|]. cbv zeta. split; [|reflexivity].
    destruct (Z.lt_ge_cases (at_index s 0) 128) as [Hlt|Hge]; [exact Hlt|].
    exfalso. exact (first_high _ Hge Hfirst).
  - intros Hd. inversion Hd; subst. right. repeat split.
    destruct (Z.lt_ge_cases (at_index s 0) 128) as [Hlt|Hge]; [|exact Hge].
    rewrite first_ascii in Hfirst by exact Hlt. discriminate.
  - assert (Hhigh : 128 <= at_index s 0).
    { apply first_inv in Hfirst. destruct Hfirst as [H|[H|H]]; lia. }
    assert (Herr : (utf8.RuneError, 1%nat) = (r, size) ->
                   rune_at s r size
                   \/ (size = 1%nat /\ r = utf8.RuneError /\ 128 <= at_index s 0)).
    { intros Hd. inversion Hd; subst. right. repeat split. exact Hhigh. }
    destruct (String.length s <? sz)%nat eqn:Hn; [apply Herr|]. 
    destruct ((at_index s 1 <? lo) || (hi <? at_index s 1)) eqn:H1; [apply Herr|].
    bools.
    apply first_inv in Hfirst.
    destruct Hfirst as [(-> & Hb & -> & ->)|[(-> & Hb & Hlo & Hhi)|(-> & Hb & Hlo & Hhi)]].
    + cbn [Nat.leb]. intros Hd. inversion Hd; subst. left.
      split; [lia|]. cbv beta iota zeta.
      repeat split; try lia. apply rune2_value; lia.
    + cbn [Nat.leb].
      destruct (negb (utf8.continuation (at_index s 2))) eqn:H2; [apply Herr|].
      unfold utf8.continuation in H2. bools.
      intros Hd. inversion Hd; subst r size. left.
      split; [lia|]. cbv beta iota zeta. rewrite <- Hlo, <- Hhi.
      assert (128 <= lo <= 191 /\ 128 <= hi <= 191) by (subst; destruct (_ =? 224), (_ =? 237); lia).
      repeat split; try lia. apply rune3_value; lia.
    + cbn [Nat.leb].
      destruct (negb (utf8.continuation (at_index s 2))) eqn:H2; [apply Herr|].
      destruct (negb (utf8.continuation (at_index s 3))) eqn:H3; [apply Herr|].
      unfold utf8.continuation in H2, H3. bools.
      intros Hd. inversion Hd; subst r size. left.
      split; [lia|]. cbv beta iota zeta. rewrite <- Hlo, <- Hhi.
      assert (128 <= lo <= 191 /\ 128 <= hi <= 191) by (subst; destruct (_ =? 240), (_ =? 244); lia).
      repeat split; try lia. apply rune4_value; lia.
Qed.

(** A string that starts with the encoding of a rune decodes to it. *)
Lemma rune_at_DecodeRune (s : string) (r : Z) (size : nat) :
  rune_at s r size -> utf8.DecodeRuneInString s = (r, size).
Proof.
  intros [Hlen H]. cbv zeta in H. unfold utf8.DecodeRuneInString.
  destruct size as [|[|[|[|[|size]]]]]; try contradiction.
  - destruct H as [Hb ->].
    destruct (String.length s <? 1)%nat eqn:E; [bools; lia|].
    rewrite first_ascii by exact Hb. reflexivity.
  - destruct H as (H0 & H1 & ->).
    destruct (String.length s <? 1)%nat eqn:E; [bools; lia|].
    rewrite first_2 by exact H0.
    destruct (String.length s <? 2)%nat eqn:E2; [bools; lia|].
    destruct ((at_index s 1 <? 128) || (191 <? at_index s 1)) eqn:E1.
    { apply orb_true_iff in E1 as [E1|E1]; bools; lia. }
    cbn [Nat.leb]. rewrite rune2_value by lia. reflexivity.
  - destruct H as (H0 & H1 & H2 & ->).
    destruct (String.length s <? 1)%nat eqn:E; [bools; lia|].
    rewrite first_3 by exact H0.
    destruct (String.length s <? 3)%nat eqn:E3; [bools; lia|].
    destruct ((at_index s 1 <? _) || (_ <? at_index s 1)) eqn:E1.
    { apply orb_true_iff in E1 as [E1|E1]; bools; lia. }
    cbn [Nat.leb].
    assert (Hc2 : utf8.continuation (at_index s 2) = true).
    { unfold utf8.continuation. apply andb_true_iff. split; apply Z.leb_le; lia. }
    rewrite Hc2. cbn [negb].
    assert (128 <= at_index s 1 <= 191) by (destruct (_ =? 224), (_ =? 237); lia).
    rewrite rune3_value by lia. reflexivity.
  - destruct H as (H0 & H1 & H2 & H3 & ->).
    destruct (String.length s <? 1)%nat eqn:E; [bools; lia|].
    rewrite first_4 by exact H0.
    destruct (String.length s <? 4)%nat eqn:E4; [bools; lia|].
    destruct ((at_index s 1 <? _) || (_ <? at_index s 1)) eqn:E1.
    { apply orb_true_iff in E1 as [E1|E1]; bools; lia. }
    cbn [Nat.leb].
    assert (Hc2 : utf8.continuation (at_index s 2) = true).
    { unfold utf8.continuation. apply andb_true_iff. split; apply Z.leb_le; lia. }
    assert (Hc3 : utf8.continuation (at_index s 3) = true).
    { unfold utf8.continuation. apply andb_true_iff. split; apply Z.leb_le; lia. }
    rewrite Hc2, Hc3. cbn [negb].
    assert (128 <= at_index s 1 <= 191) by (destruct (_ =? 240), (_ =? 244); lia).
    rewrite rune4_value by lia. reflexivity.
Qed.

(** The encoding of a rune is a matter of its bytes alone. *)
Lemma rune_at_agree (s t : string) (r : Z) (size : nat) :
  rune_at s r size ->
  (size <= String.length t)%nat ->
  (forall k, (k < size)%nat -> at_index t k = at_index s k) ->
  rune_at t r size.
Proof.
  intros [Hlen H] Ht Hsame. split; [exact Ht|]. cbv zeta in *.
  destruct size as [|[|[|[|[|size]]]]]; try contradiction;
    rewrite ?(Hsame 0%nat), ?(Hsame 1%nat), ?(Hsame 2%nat), ?(Hsame 3%nat) by lia; exact H.
Qed.

Lemma rune_at_width (s : string) (r : Z) (size : nat) :
  rune_at s r size -> (1 <= size <= 4)%nat /\ (size <= String.length s)%nat.
Proof.
  intros [Hlen H]. cbv zeta in H.
  destruct size as [|[|[|[|[|size]]]]]; try contradiction; lia.
Qed.

(** ** Slices *)

Lemma length_slice_from (s : string) (n : nat) :
  (n <= String.length s)%nat -> String.length (slice_from s n) = (String.length s - n)%nat.
Proof. intros H. unfold slice_from. apply length_slice; lia. Qed.

Lemma slice_from_append (w X : string) : slice_from (w +:+ X) (String.length w) = X.
Proof.
  induction w as [|c w IH].
  - apply slice_from_0.
  - rewrite append_cons. simpl String.length. rewrite slice_from_shift. exact IH.
Qed.

Lemma slice_append (w X : string) : slice (w +:+ X) 0 (String.length w) = w.
Proof.
  unfold slice. rewrite Nat.sub_0_r.
  pose proof (substring_middle "" w X) as H. exact H.
Qed.

Lemma slice_cons (c : ascii) (s : string) (k : nat) :
  slice (String c s) 0 (S k) = String c (slice s 0 k).
Proof. unfold slice. rewrite !Nat.sub_0_r. reflexivity. Qed.

(** A string is its first [n] bytes followed by the rest. *)
Lemma split_at (s : string) (n : nat) :
  (n <= String.length s)%nat -> s = slice s 0 n +:+ slice_from s n.
Proof.
  revert n. induction s as [|c s IH]; intros n H; simpl in H.
  - assert (n = 0%nat) by lia. subst. reflexivity.
  - destruct n as [|n].
    + rewrite slice_from_0. unfold slice. simpl. reflexivity.
    + rewrite slice_cons, slice_from_shift, append_cons. f_equal. apply IH. lia.
Qed.

(** ** A rune and its encoding *)

Lemma DecodeRune_size_le (s : string) :
  (1 <= String.length s)%nat ->
  (1 <= (utf8.DecodeRuneInString s).2 <= String.length s)%nat.
Proof.
  intros H. destruct (utf8.DecodeRuneInString s) as [r size] eqn:D. cbn [snd].
  destruct (DecodeRune_inv s r size H D) as [Hr|(-> & _ & _)]; [|lia].
  apply rune_at_width in Hr. lia.
Qed.

(** A string that starts with the encoding of a rune decodes to the
    rune, whatever follows the encoding. *)
Lemma DecodeRune_append (w X : string) (r : Z) (size : nat) :
  rune_at w r size ->
  utf8.DecodeRuneInString (w +:+ X) = (r, size).
Proof.
  intros H. apply rune_at_DecodeRune.
  pose proof (rune_at_width _ _ _ H) as [Hsz Hle].
  apply (rune_at_agree w); [exact H | rewrite length_append; lia |].
  intros k Hk. apply at_index_app_l. lia.
Qed.

Lemma rune_at_slice (s : string) (r : Z) (size n : nat) :
  rune_at s r size -> (size <= n)%nat -> (n <= String.length s)%nat ->
  rune_at (slice s 0 n) r size.
Proof.
  intros H Hn Hlen.
  apply (rune_at_agree s); [exact H | rewrite length_slice by lia; lia |].
  intros k Hk. rewrite at_index_slice by lia. reflexivity.
Qed.

(** [EncodeRune] writes back the bytes that a rune was decoded from. *)
Lemma rune_at_encode (s : string) (r : Z) (size : nat) :
  rune_at s r size -> utf8.EncodeRune r = slice s 0 size.
Proof.
  intros [Hlen H]. cbv zeta in H.
  assert (Hlor : forall hi x k : Z, 0 <= k -> 0 <= x < 2 ^ k -> hi mod 2 ^ k = 0 ->
                                    Z.lor hi x = hi + x)
    by (intros; apply (lor_add _ _ k); assumption).
  destruct size as [|[|[|[|[|size]]]]]; try contradiction.
  - (* one byte *)
    destruct H as [Hb ->].
    destruct s as [|c0 s]; [simpl in Hlen; lia|].
    change (at_index (String c0 s) 0) with (byte_of c0) in *.
    pose proof (byte_of_range c0) as R0.
    unfold utf8.EncodeRune.
    assert (E : (0 <=? byte_of c0) && (byte_of c0 <=? 127) = true)
      by (apply andb_true_iff; split; apply Z.leb_le; lia).
    rewrite E. rewrite slice_cons. rewrite slice_empty by lia.
    simpl. rewrite byte_to_of. reflexivity.
  - (* two bytes *)
    destruct H as (H0 & H1 & ->).
    destruct s as [|c0 [|c1 s]]; simpl in Hlen; try lia.
    change (at_index (String c0 (String c1 s)) 0) with (byte_of c0) in *.
    change (at_index (String c0 (String c1 s)) 1) with (byte_of c1) in *.
    set (b0 := byte_of c0) in *. set (b1 := byte_of c1) in *.
    unfold utf8.EncodeRune.
    assert (E1 : (0 <=? (b0 - 192) * 64 + (b1 - 128)) && ((b0 - 192) * 64 + (b1 - 128) <=? 127)
                 = false) by (apply andb_false_iff; right; apply Z.leb_gt; lia).
    assert (E2 : (0 <=? (b0 - 192) * 64 + (b1 - 128)) && ((b0 - 192) * 64 + (b1 - 128) <=? 2047)
                 = true) by (apply andb_true_iff; split; apply Z.leb_le; lia).
    rewrite E1, E2.
    rewrite !slice_cons, slice_empty by lia. cbn [map string_of_list_ascii].
    rewrite Z.shiftr_div_pow2 by lia.
    change 63 with (2 ^ 6 - 1). rewrite land_low by lia. change (2 ^ 6) with 64.
    rewrite (Hlor 192 _ 6) by (change (2 ^ 6) with 64; zlia).
    rewrite (Hlor 128 _ 6) by (change (2 ^ 6) with 64; zlia).
    replace (192 + ((b0 - 192) * 64 + (b1 - 128)) / 64) with b0 by zlia.
    replace (128 + ((b0 - 192) * 64 + (b1 - 128)) mod 64) with b1 by zlia.
    unfold b0, b1. rewrite !byte_to_of. reflexivity.
  - (* three bytes *)
    destruct H as (H0 & H1 & H2 & ->).
    destruct s as [|c0 [|c1 [|c2 s]]]; simpl in Hlen; try lia.
    change (at_index (String c0 (String c1 (String c2 s))) 0) with (byte_of c0) in *.
    change (at_index (String c0 (String c1 (String c2 s))) 1) with (byte_of c1) in *.
    change (at_index (String c0 (String c1 (String c2 s))) 2) with (byte_of c2) in *.
    set (b0 := byte_of c0) in *. set (b1 := byte_of c1) in *. set (b2 := byte_of c2) in *.
    set (r := (b0 - 224) * 4096 + (b1 - 128) * 64 + (b2 - 128)).
    assert (Hr : 2048 <= r <= 65535 /\ (r < 55296 \/ 57343 < r)).
    { unfold r. destruct (b0 =? 224) eqn:Ea; destruct (b0 =? 237) eqn:Eb; bools; lia. }
    assert (Hb1 : 128 <= b1 <= 191)
      by (destruct (b0 =? 224) eqn:Ea; destruct (b0 =? 237) eqn:Eb; bools; lia).
    unfold utf8.EncodeRune.
    assert (E1 : (0 <=? r) && (r <=? 127) = false)
      by (apply andb_false_iff; right; apply Z.leb_gt; lia).
    assert (E2 : (0 <=? r) && (r <=? 2047) = false)
      by (apply andb_false_iff; right; apply Z.leb_gt; lia).
    assert (E3 : (r <? 0) || (1114111 <? r) || ((55296 <=? r) && (r <=? 57343)) = false).
    { apply orb_false_iff. split; [apply orb_false_iff; split; apply Z.ltb_ge; lia|].
      apply andb_false_iff. destruct Hr as [_ [Hr|Hr]];
        [left; apply Z.leb_gt; lia | right; apply Z.leb_gt; lia]. }
    assert (E4 : (r <=? 65535) = true) by (apply Z.leb_le; lia).
    rewrite E1, E2, E3, E4.
    rewrite !slice_cons, slice_empty by lia. cbn [map string_of_list_ascii].
    rewrite !Z.shiftr_div_pow2 by lia.
    change 63 with (2 ^ 6 - 1). rewrite !land_low by lia.
    change (2 ^ 6) with 64. change (2 ^ 12) with 4096.
    rewrite (Hlor 224 _ 4) by (change (2 ^ 4) with 16; unfold r; zlia).
    rewrite !(Hlor 128 _ 6) by (change (2 ^ 6) with 64; unfold r; zlia).
    replace (224 + r / 4096) with b0 by (unfold r; zlia).
    replace (128 + (r / 64) mod 64) with b1 by (unfold r; zlia).
    replace (128 + r mod 64) with b2 by (unfold r; zlia).
    unfold b0, b1, b2. rewrite !byte_to_of. reflexivity.
  - (* four bytes *)
    destruct H as (H0 & H1 & H2 & H3 & ->).
    destruct s as [|c0 [|c1 [|c2 [|c3 s]]]]; simpl in Hlen; try lia.
    change (at_index (String c0 (String c1 (String c2 (String c3 s)))) 0) with (byte_of c0) in *.
    change (at_index (String c0 (String c1 (String c2 (String c3 s)))) 1) with (byte_of c1) in *.
    change (at_index (String c0 (String c1 (String c2 (String c3 s)))) 2) with (byte_of c2) in *.
    change (at_index (String c0 (String c1 (String c2 (String c3 s)))) 3) with (byte_of c3) in *.
    set (b0 := byte_of c0) in *. set (b1 := byte_of c1) in *.
    set (b2 := byte_of c2) in *. set (b3 := byte_of c3) in *.
    set (r := (b0 - 240) * 262144 + (b1 - 128) * 4096 + (b2 - 128) * 64 + (b3 - 128)).
    assert (Hr : 65536 <= r <= 1114111).
    { unfold r. destruct (b0 =? 240) eqn:Ea; destruct (b0 =? 244) eqn:Eb; bools; lia. }
    assert (Hb1 : 128 <= b1 <= 191)
      by (destruct (b0 =? 240) eqn:Ea; destruct (b0 =? 244) eqn:Eb; bools; lia).
    unfold utf8.EncodeRune.
    assert (E1 : (0 <=? r) && (r <=? 127) = false)
      by (apply andb_false_iff; right; apply Z.leb_gt; lia).
    assert (E2 : (0 <=? r) && (r <=? 2047) = false)
      by (apply andb_false_iff; right; apply Z.leb_gt; lia).
    assert (E3 : (r <? 0) || (1114111 <? r) || ((55296 <=? r) && (r <=? 57343)) = false).
    { apply orb_false_iff. split; [apply orb_false_iff; split; apply Z.ltb_ge; lia|].
      apply andb_false_iff. right; apply Z.leb_gt; lia. }
    assert (E4 : (r <=? 65535) = false) by (apply Z.leb_gt; lia).
    rewrite E1, E2, E3, E4.
    rewrite !slice_cons, slice_empty by lia. cbn [map string_of_list_ascii].
    rewrite !Z.shiftr_div_pow2 by lia.
    change 63 with (2 ^ 6 - 1). rewrite !land_low by lia.
    change (2 ^ 6) with 64. change (2 ^ 12) with 4096. change (2 ^ 18) with 262144.
    rewrite (Hlor 240 _ 3) by (change (2 ^ 3) with 8; unfold r; zlia).
    rewrite !(Hlor 128 _ 6) by (change (2 ^ 6) with 64; unfold r; zlia).
    replace (240 + r / 262144) with b0 by (unfold r; zlia).
    replace (128 + (r / 4096) mod 64) with b1 by (unfold r; zlia).
    replace (128 + (r / 64) mod 64) with b2 by (unfold r; zlia).
    replace (128 + r mod 64) with b3 by (unfold r; zlia).
    unfold b0, b1, b2, b3. rewrite !byte_to_of. reflexivity.
Qed.

(** ** Strings read rune by rune *)

Lemma slice_all (w : string) : slice w 0 (String.length w) = w.
Proof. unfold slice. rewrite Nat.sub_0_r. apply substring_all. Qed.

Lemma slice_from_append_l (a b : string) (n : nat) :
  (n <= String.length a)%nat -> slice_from (a +:+ b) n = slice_from a n +:+ b.
Proof.
  revert n. induction a as [|c a IH]; intros n H; simpl in H.
  - assert (n = 0%nat) by lia. subst. rewrite !slice_from_0. reflexivity.
  - destruct n as [|n]; [rewrite !slice_from_0; reflexivity|].
    rewrite append_cons, !slice_from_shift. apply IH. lia.
Qed.

Lemma runes_from_stable (p : Z -> nat -> bool) (s : string) (fuel1 fuel2 : nat) :
  (String.length s <= fuel1)%nat -> (String.length s <= fuel2)%nat ->
  runes_from p fuel1 s = runes_from p fuel2 s.
Proof.
  revert s fuel2. induction fuel1 as [|k IH]; intros s fuel2 H1 H2.
  - destruct s; [destruct fuel2; reflexivity | simpl in H1; lia].
  - destruct s as [|c s]; [destruct fuel2; reflexivity|].
    destruct fuel2 as [|k2]; [simpl in H2; lia|].
    cbn [runes_from].
    pose proof (DecodeRune_size_le (String c s) ltac:(simpl; lia)) as Hw.
    destruct (utf8.DecodeRuneInString (String c s)) as [r size]. cbn [snd] in Hw.
    f_equal. simpl String.length in *.
    apply IH; rewrite length_slice_from by (simpl; lia); simpl; lia.
Qed.

Lemma all_runes_step (p : Z -> nat -> bool) (s : string) :
  (1 <= String.length s)%nat ->
  all_runes p s
  = p (utf8.DecodeRuneInString s).1 (utf8.DecodeRuneInString s).2
    && all_runes p (slice_from s (utf8.DecodeRuneInString s).2).
Proof.
  intros H. unfold all_runes.
  destruct s as [|c s]; [simpl in H; lia|].
  pose proof (DecodeRune_size_le (String c s) H) as Hw.
  simpl String.length at 1. cbn [runes_from].
  destruct (utf8.DecodeRuneInString (String c s)) as [r size]. cbn [fst snd] in *.
  f_equal. simpl String.length in Hw.
  apply runes_from_stable; [|lia].
  rewrite length_slice_from by (simpl; lia). simpl. lia.
Qed.

(** A string of runes that satisfy [p], none of them an error, followed
    by another one. *)
Lemma all_runes_append (p : Z -> nat -> bool) (a b : string) :
  p utf8.RuneError 1%nat = false ->
  all_runes p a = true -> all_runes p b = true -> all_runes p (a +:+ b) = true.
Proof.
  intros Hp. remember (String.length a) as n eqn:Hn.
  revert a Hn. induction n as [n IH] using lt_wf_ind. intros a Hn Ha Hb.
  destruct a as [|c a']; [exact Hb|].
  set (a := String c a') in *.
  assert (Hlen : (1 <= String.length a)%nat) by (simpl; lia).
  rewrite all_runes_step in Ha by exact Hlen.
  destruct (utf8.DecodeRuneInString a) as [r size] eqn:D. cbn [fst snd] in Ha.
  apply andb_true_iff in Ha as [Hpr Hrest].
  destruct (DecodeRune_inv a r size Hlen D) as [Hr|(-> & -> & _)]; [|congruence].
  pose proof (rune_at_width _ _ _ Hr) as [Hsz Hle].
  rewrite all_runes_step by (rewrite length_append; lia).
  rewrite (DecodeRune_append a b r size Hr). cbn [fst snd].
  rewrite Hpr. cbn [andb].
  assert (Hsplit : slice_from (a +:+ b) size = slice_from a size +:+ b)
    by (apply slice_from_append_l; exact Hle).
  rewrite Hsplit.
  apply (IH (String.length (slice_from a size))); try assumption; try reflexivity.
  rewrite length_slice_from by lia. lia.
Qed.

(** ASCII bytes are runes of one byte. *)
Lemma all_runes_ascii (p : Z -> nat -> bool) (s : string) :
  all_bytes (fun b => (b <? 128) && p b 1%nat) s = true -> all_runes p s = true.
Proof.
  induction s as [|c s IH]; intros H; [reflexivity|].
  simpl in H. apply andb_true_iff in H as [Hc Hs].
  apply andb_true_iff in Hc as [Hlt Hp]. apply Z.ltb_lt in Hlt.
  rewrite all_runes_step by (simpl; lia).
  rewrite DecodeRune_ascii by (simpl; (lia || exact Hlt)).
  cbn [fst snd]. change (at_index (String c s) 0) with (byte_of c).
  rewrite Hp. cbn [andb]. rewrite slice_from_shift, slice_from_0. apply IH. exact Hs.
Qed.

Lemma valid_utf8_append (a b : string) :
  valid_utf8 a = true -> valid_utf8 b = true -> valid_utf8 (a +:+ b) = true.
Proof. apply all_runes_append. reflexivity. Qed.

Lemma blank_append (a b : string) :
  blank a = true -> blank b = true -> blank (a +:+ b) = true.
Proof. apply all_runes_append. reflexivity. Qed.

Lemma valid_utf8_ascii (s : string) :
  all_bytes ascii_byte s = true -> valid_utf8 s = true.
Proof.
  intros H. apply all_runes_ascii.
  induction s as [|c s IH]; [reflexivity|].
  simpl in H. apply andb_true_iff in H as [Hc Hs].
  cbn [all_bytes]. apply andb_true_iff. split; [|apply IH; exact Hs].
  unfold ascii_byte in Hc. rewrite Hc. cbn [andb].
  apply Z.ltb_lt in Hc.
  assert (E : (byte_of c =? utf8.RuneError) = false)
    by (apply Z.eqb_neq; unfold utf8.RuneError; lia).
  rewrite E. reflexivity.
Qed.

Lemma valid_utf8_concat (sep : string) (elems : list string) :
  valid_utf8 sep = true ->
  Forall (fun e => valid_utf8 e = true) elems ->
  valid_utf8 (String.concat sep elems) = true.
Proof.
  intros Hsep Hall. induction Hall as [|x l Hx Hl IH]; [reflexivity|].
  destruct l as [|y l]; [exact Hx|].
  change (String.concat sep (x :: y :: l)) with (x +:+ sep +:+ String.concat sep (y :: l)).
  apply valid_utf8_append; [exact Hx|].
  apply valid_utf8_append; [exact Hsep | exact IH].
Qed.

(** ** [Marshal] on a string of well-formed UTF-8 *)

Lemma escape_from_stable (s : string) (fuel1 fuel2 i : nat) :
  (String.length s - i < fuel1)%nat -> (String.length s - i < fuel2)%nat ->
  json.escape_from fuel1 s i = json.escape_from fuel2 s i.
Proof.
  revert fuel2 i. induction fuel1 as [|k IH]; intros fuel2 i H1 H2; [lia|].
  destruct fuel2 as [|k2]; [lia|].
  rewrite !escape_from_step.
  destruct (String.length s <=? i)%nat eqn:E; [reflexivity|].
  apply Nat.leb_gt in E. cbv zeta.
  destruct (at_index s i <? utf8.RuneSelf).
  - rewrite (IH k2 (S i)) by lia. reflexivity.
  - pose proof (DecodeRuneInString_width
                  (slice s i (i + Nat.min (String.length s - i) utf8.UTFMax))) as Hw.
    rewrite length_slice in Hw by (unfold utf8.UTFMax; lia).
    specialize (Hw ltac:(unfold utf8.UTFMax; lia)).
    destruct (utf8.DecodeRuneInString _) as [c size]. cbn [snd] in Hw.
    rewrite (IH k2 (i + size)%nat) by lia. reflexivity.
Qed.

Lemma escape_from_skip (fuel : nat) (w s : string) (i : nat) :
  json.escape_from fuel (w +:+ s) (String.length w + i) = json.escape_from fuel s i.
Proof.
  induction w as [|c w IH]; [reflexivity|].
  rewrite append_cons. simpl String.length.
  change (S (String.length w) + i)%nat with (S (String.length w + i)).
  rewrite escape_from_shift. exact IH.
Qed.

(** From an index on, [escape_from] writes what it writes for the rest
    of the string. *)
Lemma escape_from_suffix (s : string) (n fuel : nat) :
  (n <= String.length s)%nat -> (String.length s - n < fuel)%nat ->
  json.escape_from fuel s n = escaped (slice_from s n).
Proof.
  intros Hn Hf.
  assert (Hw : String.length (slice s 0 n) = n) by (rewrite length_slice by lia; lia).
  assert (Hr : String.length (slice_from s n) = (String.length s - n)%nat)
    by (apply length_slice_from; exact Hn).
  pose proof (split_at s n Hn) as Hs.
  set (w := slice s 0 n) in *. set (rest := slice_from s n) in *.
  clearbody w rest. subst s. subst n.
  pose proof (escape_from_skip fuel w rest 0) as Hk. rewrite Nat.add_0_r in Hk.
  rewrite Hk. unfold escaped. apply escape_from_stable; lia.
Qed.

(** What [Marshal] writes for a string that starts with a rune of
    several bytes: the bytes of the rune, or the escape of a line or
    paragraph separator, then what it writes for the rest. *)
Lemma escaped_wide (s : string) (r : Z) (size : nat) :
  128 <= at_index s 0 ->
  rune_at s r size ->
  escaped s
  = (if (r =? 8232) || (r =? 8233)
     then String (byte_to 92) "u202" +:+ json.hex_at (Z.land r 15)
     else slice s 0 size)
    +:+ escaped (slice_from s size).
Proof.
  intros Hhigh Hr.
  pose proof (rune_at_width _ _ _ Hr) as [Hsz Hle].
  assert (Hsize : (2 <= size)%nat).
  { destruct size as [|[|size]]; try lia.
    destruct Hr as [_ Hr]. cbv beta iota zeta in Hr. lia. }
  unfold escaped at 1. rewrite escape_from_step.
  destruct (String.length s <=? 0)%nat eqn:E; [apply Nat.leb_le in E; lia|]. clear E.
  cbv zeta.
  destruct (at_index s 0 <? utf8.RuneSelf) eqn:E;
    [apply Z.ltb_lt in E; unfold utf8.RuneSelf in E; lia|]. clear E.
  rewrite Nat.sub_0_r, !Nat.add_0_l.
  rewrite (rune_at_DecodeRune _ r size)
    by (apply rune_at_slice; [exact Hr | unfold utf8.UTFMax; lia | lia]).
  assert (E1 : (size =? 1)%nat = false) by (apply Nat.eqb_neq; lia).
  rewrite E1, andb_false_r.
  rewrite (escape_from_suffix s size) by lia.
  destruct ((r =? 8232) || (r =? 8233)).
  - rewrite !append_assoc. reflexivity.
  - reflexivity.
Qed.

(** ** Reading back *)

(** One step of [unquote_from] at a byte outside ASCII. *)
Lemma unquote_from_high (fuel : nat) (s : string) (r : nat) :
  (r < String.length s)%nat -> 128 <= at_index s r ->
  json.unquote_from (S fuel) s r
  = match json.unquote_from fuel s (r + (utf8.DecodeRuneInString (slice_from s r)).2) with
    | Some t => Some (utf8.EncodeRune (utf8.DecodeRuneInString (slice_from s r)).1 +:+ t)
    | None => None
    end.
Proof.
  intros Hr Hhigh. cbn [json.unquote_from].
  destruct (String.length s <=? r)%nat eqn:E; [apply Nat.leb_le in E; lia|]. clear E.
  cbv zeta.
  destruct (at_index s r =? 92) eqn:E; [apply Z.eqb_eq in E; lia|]. clear E.
  destruct ((at_index s r =? 34) || (at_index s r <? 32)) eqn:E.
  { apply orb_true_iff in E as [E|E]; bools; lia. }
  clear E.
  destruct (at_index s r <? utf8.RuneSelf) eqn:E;
    [apply Z.ltb_lt in E; unfold utf8.RuneSelf in E; lia|]. clear E.
  destruct (utf8.DecodeRuneInString (slice_from s r)) as [rr size]. reflexivity.
Qed.

(** Reading back the bytes of a rune of several bytes: the bytes, then
    the rest. *)
Lemma unquote_wide (w X : string) (r : Z) (fuel : nat) :
  rune_at w r (String.length w) ->
  128 <= at_index w 0 ->
  json.unquote_from (S fuel) (w +:+ X) 0
  = match json.unquote_from fuel X 0 with
    | Some t => Some (w +:+ t)
    | None => None
    end.
Proof.
  intros Hr Hhigh.
  pose proof (rune_at_width _ _ _ Hr) as [Hsz _].
  rewrite unquote_from_high
    by (rewrite ?length_append, ?at_index_app_l by lia; (lia || exact Hhigh)).
  rewrite slice_from_0, (DecodeRune_append w X r _ Hr). cbn [fst snd].
  rewrite (rune_at_encode w r _ Hr).
  unfold slice. rewrite Nat.sub_0_r, substring_all.
  pose proof (unquote_from_skip fuel w X 0) as Hk. rewrite Nat.add_0_r in Hk.
  rewrite Nat.add_0_l, Hk. reflexivity.
Qed.

(** Reading back the escape of a line or paragraph separator. *)
Lemma unquote_separator (r : Z) (X : string) (fuel : nat) :
  r = 8232 \/ r = 8233 ->
  json.unquote_from (S fuel)
    ((String (byte_to 92) "u202" +:+ json.hex_at (Z.land r 15)) +:+ X) 0
  = match json.unquote_from fuel X 0 with
    | Some t => Some (utf8.EncodeRune r +:+ t)
    | None => None
    end.
Proof.
  intros Hr.
  assert (Hd : exists d : ascii,
             json.hex_at (Z.land r 15) = String d ""
             /\ json.hex_digit (byte_of d) = r - 8224
             /\ 0 <= r - 8224 < 16).
  { destruct Hr as [-> | ->]; eexists; repeat split; (reflexivity || lia). }
  destruct Hd as (d & -> & Hd & Hrange).
  change ((String (byte_to 92) "u202" +:+ String d "") +:+ X)
    with (String (byte_to 92) (String "u" (String "2" (String "0" (String "2" (String d X)))))).
  set (s := String (byte_to 92) (String "u" (String "2" (String "0" (String "2" (String d X)))))).
  assert (Hu4 : json.getu4 (slice_from s 0) = r).
  { rewrite slice_from_0. unfold json.getu4, s. simpl String.length.
    change (S (S (S (S (S (S (String.length X)))))) <? 6)%nat with false.
    change (at_index _ 0) with 92. change (at_index _ 1) with 117.
    change (92 =? 92) with true. change (117 =? 117) with true. cbn [negb orb].
    change (at_index _ 2) with 50. change (at_index _ 3) with 48.
    change (at_index _ 4) with 50. change (at_index _ 5) with (byte_of d).
    rewrite Hd.
    change (json.hex_digit 50) with 2. change (json.hex_digit 48) with 0.
    destruct (r - 8224 <? 0) eqn:E; [apply Z.ltb_lt in E; lia|].
    simpl. lia. }
  cbn [json.unquote_from]. unfold s at 1 2 3 4. simpl String.length.
  change (S (S (S (S (S (S (String.length X)))))) <=? 0)%nat with false.
  change (S (S (S (S (S (S (String.length X)))))) <=? 1)%nat with false. cbv iota.
  fold s.
  change (at_index s 0) with 92. change (at_index s 1) with 117.
  change (92 =? 92) with true. cbv iota.
  change ((117 =? 34) || (117 =? 92) || (117 =? 47) || (117 =? 39)) with false.
  change (117 =? 98) with false. change (117 =? 102) with false.
  change (117 =? 110) with false. change (117 =? 114) with false.
  change (117 =? 116) with false. change (117 =? 117) with true. cbv iota.
  change (1 - 1)%nat with 0%nat. rewrite Hu4.
  destruct (r <? 0) eqn:Hneg; [apply Z.ltb_lt in Hneg; lia|].
  assert (Hsur : utf16.IsSurrogate r = false).
  { unfold utf16.IsSurrogate. apply andb_false_iff. left. apply Z.leb_gt. lia. }
  rewrite Hsur. change (0 + 6)%nat with 6%nat.
  unfold s. rewrite !unquote_from_shift. reflexivity.
Qed.

Lemma length_escaped_wide (r : Z) (w : string) :
  (1 <= String.length w)%nat ->
  (1 <= String.length (if ((r =? 8232) || (r =? 8233))%Z
                       then String (byte_to 92) "u202" +:+ json.hex_at (Z.land r 15%Z)
                       else w))%nat.
Proof.
  intros H. destruct (_ || _); [|exact H].
  rewrite length_append. simpl. lia.
Qed.

(** What [Marshal] writes for a string of well-formed UTF-8 reads back
    as the string. *)
Lemma unquote_escaped (s : string) :
  valid_utf8 s = true -> json.unquote (escaped s) = Some s.
Proof.
  remember (String.length s) as n eqn:Hn.
  revert s Hn. induction n as [n IH] using lt_wf_ind. intros s Hn Hvalid.
  destruct s as [|c s']; [reflexivity|].
  set (s := String c s') in *.
  assert (Hlen : (1 <= String.length s)%nat) by (simpl; lia).
  unfold valid_utf8 in Hvalid. rewrite all_runes_step in Hvalid by exact Hlen.
  destruct (utf8.DecodeRuneInString s) as [r size] eqn:D. cbn [fst snd] in Hvalid.
  apply andb_true_iff in Hvalid as [Hok Hrest]. fold (valid_utf8 (slice_from s size)) in Hrest.
  destruct (DecodeRune_inv s r size Hlen D) as [Hr|(-> & -> & _)]; [|discriminate].
  pose proof (rune_at_width _ _ _ Hr) as [Hsz Hle].
  assert (IHrest : json.unquote (escaped (slice_from s size)) = Some (slice_from s size)).
  { apply (IH (String.length (slice_from s size))); try assumption; try reflexivity.
    rewrite length_slice_from by lia. lia. }
  destruct (Z.lt_ge_cases (at_index s 0) 128) as [Hascii|Hhigh].
  - (* an ASCII byte *)
    rewrite DecodeRune_ascii in D by assumption. inversion D; subst r size.
    unfold s in IHrest. rewrite slice_from_shift, slice_from_0 in IHrest.
    unfold s. rewrite escaped_cons by (unfold ascii_byte; apply Z.ltb_lt; exact Hascii).
    unfold json.unquote.
    rewrite unquote_escape_byte by (pose proof (byte_of_range c); split; [lia | exact Hascii]).
    rewrite (unquote_from_stable (escaped s') _ (S (String.length (escaped s'))) 0).
    + fold (json.unquote (escaped s')). rewrite IHrest, byte_to_of. reflexivity.
    + rewrite length_append. pose proof (escape_byte_length (byte_of c)). lia.
    + lia.
  - (* a rune of several bytes *)
    rewrite (escaped_wide s r size Hhigh Hr).
    assert (Hw : String.length (slice s 0 size) = size) by (rewrite length_slice by lia; lia).
    assert (Hrw : rune_at (slice s 0 size) r (String.length (slice s 0 size))).
    { rewrite Hw. apply rune_at_slice; [exact Hr | lia | lia]. }
    assert (Hhw : 128 <= at_index (slice s 0 size) 0).
    { rewrite at_index_slice by lia. exact Hhigh. }
    pose proof (length_escaped_wide r (slice s 0 size) ltac:(lia)) as Hlw.
    unfold json.unquote. rewrite length_append.
    set (E := if (r =? 8232) || (r =? 8233)
              then String (byte_to 92) "u202" +:+ json.hex_at (Z.land r 15)
              else slice s 0 size) in *.
    assert (Hstep : forall fuel,
               json.unquote_from (S fuel) (E +:+ escaped (slice_from s size)) 0
               = match json.unquote_from fuel (escaped (slice_from s size)) 0 with
                 | Some t => Some (slice s 0 size +:+ t)
                 | None => None
                 end).
    { intros fuel. unfold E.
      destruct ((r =? 8232) || (r =? 8233)) eqn:Hsep.
      - rewrite unquote_separator by (apply orb_true_iff in Hsep as [H|H]; bools; lia).
        rewrite (rune_at_encode _ _ _ Hrw), slice_all. reflexivity.
      - apply (unquote_wide _ _ r); assumption. }
    rewrite Hstep.
    rewrite (unquote_from_stable _ _ (S (String.length (escaped (slice_from s size)))) 0) by lia.
    fold (json.unquote (escaped (slice_from s size))). rewrite IHrest.
    rewrite <- split_at by lia. reflexivity.
Qed.

(** * What [TrimSpace] removes *)

(** ** Slices of slices *)

Lemma get_slice (s : string) (lo hi n : nat) :
  String.get n (slice s lo hi)
  = if (n <? hi - lo)%nat then String.get (lo + n) s else None.
Proof.
  unfold slice. destruct (n <? hi - lo)%nat eqn:E.
  - apply Nat.ltb_lt in E. rewrite String.substring_correct1 by exact E.
    rewrite (Nat.add_comm n lo). reflexivity.
  - apply Nat.ltb_ge in E. apply String.substring_correct2. exact E.
Qed.

Lemma get_beyond (s : string) (n : nat) :
  (String.length s <= n)%nat -> String.get n s = None.
Proof.
  revert n. induction s as [|c s IH]; intros n H; [destruct n; reflexivity|].
  simpl in H. destruct n as [|n]; [lia|]. simpl. apply IH. lia.
Qed.

Lemma slice_slice (s : string) (a b c d : nat) :
  (a + d <= b)%nat ->
  slice (slice s a b) c d = slice s (a + c) (a + d).
Proof.
  intros H. apply String.get_correct. intros n.
  rewrite !get_slice.
  replace (a + d - (a + c))%nat with (d - c)%nat by lia.
  destruct (n <? d - c)%nat eqn:E; [|reflexivity].
  apply Nat.ltb_lt in E.
  assert (E2 : (c + n <? b - a)%nat = true) by (apply Nat.ltb_lt; lia).
  rewrite E2. f_equal. lia.
Qed.

Lemma slice_from_slice (s : string) (a b n : nat) :
  (a <= b)%nat -> (b <= String.length s)%nat ->
  slice_from (slice s a b) n = slice s (a + n) b.
Proof.
  intros H1 H2. unfold slice_from. rewrite length_slice by lia.
  destruct (Nat.le_gt_cases n (b - a)) as [Hn|Hn].
  - rewrite slice_slice by lia. f_equal. lia.
  - rewrite !slice_empty by lia. reflexivity.
Qed.

Lemma slice_from_slice_from (s : string) (i n : nat) :
  (i <= String.length s)%nat ->
  slice_from (slice_from s i) n = slice_from s (i + n).
Proof.
  intros H. unfold slice_from at 2. rewrite slice_from_slice by lia. reflexivity.
Qed.

Lemma slice_split (s : string) (a b c : nat) :
  (a <= b)%nat -> (b <= c)%nat -> (c <= String.length s)%nat ->
  slice s a c = slice s a b +:+ slice s b c.
Proof.
  intros H1 H2 H3.
  rewrite (split_at (slice s a c) (b - a)) by (rewrite length_slice by lia; lia).
  rewrite slice_slice by lia. rewrite slice_from_slice by lia.
  rewrite Nat.add_0_r. replace (a + (b - a))%nat with b by lia. reflexivity.
Qed.

Lemma slice_from_all (s : string) : slice_from s (String.length s) = "".
Proof. unfold slice_from. apply slice_empty. lia. Qed.

Lemma at_index_slice_from (s : string) (i k : nat) :
  (i + k < String.length s)%nat -> at_index (slice_from s i) k = at_index s (i + k).
Proof. intros H. unfold slice_from. apply at_index_slice. lia. Qed.

Lemma slice_append_r (x w : string) :
  slice (x +:+ w) (String.length x) (String.length x + String.length w) = w.
Proof.
  unfold slice. replace (String.length x + String.length w - String.length x)%nat
    with (String.length w) by lia.
  pose proof (substring_middle x w "") as H. rewrite append_empty_r in H. exact H.
Qed.

(** ** White space, rune by rune *)

Lemma blank_step (s : string) :
  (1 <= String.length s)%nat ->
  blank s = unicode.IsSpace (utf8.DecodeRuneInString s).1
            && blank (slice_from s (utf8.DecodeRuneInString s).2).
Proof. intros H. unfold blank. apply all_runes_step. exact H. Qed.

(** The first rune of white space that is not empty. *)
Lemma blank_head (s : string) :
  (1 <= String.length s)%nat -> blank s = true ->
  exists r size,
    rune_at s r size /\ unicode.IsSpace r = true /\ blank (slice_from s size) = true.
Proof.
  intros Hlen Hb. rewrite blank_step in Hb by exact Hlen.
  destruct (utf8.DecodeRuneInString s) as [r size] eqn:D. cbn [fst snd] in Hb.
  apply andb_true_iff in Hb as [Hsp Hrest].
  destruct (DecodeRune_inv s r size Hlen D) as [Hr|(-> & -> & _)]; [|discriminate].
  exists r, size. split; [exact Hr | split; [exact Hsp | exact Hrest]].
Qed.

(** White space in front of white space. *)
Lemma blank_cons (s : string) (r : Z) (size : nat) :
  rune_at s r size -> unicode.IsSpace r = true ->
  blank (slice_from s size) = true -> blank s = true.
Proof.
  intros Hr Hsp Hrest.
  pose proof (rune_at_width _ _ _ Hr) as [Hsz Hle].
  rewrite blank_step by lia.
  rewrite (rune_at_DecodeRune _ _ _ Hr). cbn [fst snd].
  rewrite Hsp, Hrest. reflexivity.
Qed.

Lemma blank_rune (w : string) (r : Z) :
  rune_at w r (String.length w) -> unicode.IsSpace r = true -> blank w = true.
Proof.
  intros Hr Hsp. apply (blank_cons w r (String.length w)); [exact Hr | exact Hsp |].
  rewrite slice_from_all. reflexivity.
Qed.

Lemma blank_ascii (s : string) :
  all_bytes strings.asciiSpace s = true -> blank s = true.
Proof.
  intros H. apply all_runes_ascii.
  induction s as [|c s IH]; [reflexivity|].
  simpl in H. apply andb_true_iff in H as [Hc Hs].
  cbn [all_bytes]. apply andb_true_iff. split; [|apply IH; exact Hs].
  pose proof (asciiSpace_ascii _ Hc) as Hlt. unfold utf8.RuneSelf in Hlt.
  apply Z.leb_gt in Hlt.
  apply andb_true_iff. split; [apply Z.ltb_lt; exact Hlt|].
  rewrite IsSpace_ascii by exact Hlt. exact Hc.
Qed.

(** The bytes that start the encoding of a rune, and those that follow. *)
Lemma rune_at_first (s : string) (r : Z) (size : nat) :
  rune_at s r size ->
  (size = 1%nat /\ at_index s 0 < 128) \/ ((2 <= size)%nat /\ 194 <= at_index s 0).
Proof.
  intros [Hlen H]. cbv zeta in H.
  destruct size as [|[|[|[|[|size]]]]]; try contradiction; [left | right ..]; lia.
Qed.

Lemma rune_at_second (s : string) (r : Z) (size : nat) :
  rune_at s r size -> (2 <= size)%nat -> 128 <= at_index s 1 <= 191.
Proof.
  intros [Hlen H] Hsz. cbv zeta in H.
  destruct size as [|[|[|[|[|size]]]]]; try contradiction; try lia.
  - destruct H as (_ & H & _).
    destruct (at_index s 0 =? 224), (at_index s 0 =? 237); lia.
  - destruct H as (_ & H & _).
    destruct (at_index s 0 =? 240), (at_index s 0 =? 244); lia.
Qed.

(** ** The loop of [TrimLeftFunc] *)

Lemma index_not_blank (fuel : nat) (s : string) (i : nat) :
  (i <= String.length s)%nat -> (String.length s - i < fuel)%nat ->
  (strings.index_not unicode.IsSpace fuel s i = -1
   /\ blank (slice_from s i) = true)
  \/ exists j : nat,
       strings.index_not unicode.IsSpace fuel s i = Z.of_nat j
       /\ (i <= j < String.length s)%nat
       /\ blank (slice s i j) = true
       /\ unicode.IsSpace (utf8.DecodeRuneInString (slice_from s j)).1 = false.
Proof.
  revert i. induction fuel as [|k IH]; intros i Hi Hf; [lia|].
  cbn [strings.index_not].
  destruct (String.length s <=? i)%nat eqn:E.
  { apply Nat.leb_le in E. left. split; [reflexivity|].
    replace i with (String.length s) by lia. rewrite slice_from_all. reflexivity. }
  apply Nat.leb_gt in E.
  assert (Hlen : (1 <= String.length (slice_from s i))%nat)
    by (rewrite length_slice_from by lia; lia).
  destruct (utf8.DecodeRuneInString (slice_from s i)) as [r size] eqn:D.
  destruct (unicode.IsSpace r) eqn:Hsp; simpl negb; cbv iota.
  - destruct (DecodeRune_inv _ r size Hlen D) as [Hr|(-> & -> & _)]; [|discriminate].
    pose proof (rune_at_width _ _ _ Hr) as [Hsz Hle].
    rewrite length_slice_from in Hle by lia.
    destruct (IH (i + size)%nat ltac:(lia) ltac:(lia)) as [[Hres Hb]|(j & Hres & Hj & Hb & Hns)].
    + left. split; [exact Hres|].
      apply (blank_cons _ r size); [exact Hr | exact Hsp |].
      rewrite slice_from_slice_from by lia. exact Hb.
    + right. exists j. repeat split; [exact Hres | lia | lia | | exact Hns].
      apply (blank_cons _ r size); [| exact Hsp |].
      * apply (rune_at_agree (slice_from s i)); [exact Hr | rewrite length_slice by lia; lia |].
        intros n Hn. rewrite at_index_slice by lia.
        rewrite at_index_slice_from by lia. reflexivity.
      * rewrite slice_from_slice by lia. exact Hb.
  - right. exists i. rewrite D. cbn [fst].
    repeat split; [lia | lia | rewrite slice_empty by lia; reflexivity | exact Hsp].
Qed.

(** [TrimLeftFunc] takes white space off the front, and all of it. *)
Lemma TrimLeftFunc_spec (s : string) :
  exists pre,
    s = pre +:+ strings.TrimLeftFunc s unicode.IsSpace
    /\ blank pre = true
    /\ unicode.IsSpace
         (utf8.DecodeRuneInString (strings.TrimLeftFunc s unicode.IsSpace)).1 = false.
Proof.
  unfold strings.TrimLeftFunc.
  destruct (index_not_blank (S (String.length s)) s 0 ltac:(lia) ltac:(lia))
    as [[Hres Hb]|(j & Hres & Hj & Hb & Hns)].
  - rewrite Hres. cbn [Z.eqb]. rewrite slice_from_0 in Hb.
    exists s. rewrite append_empty_r. split; [reflexivity | split; [exact Hb | reflexivity]].
  - rewrite Hres.
    destruct (Z.of_nat j =? -1) eqn:E; [apply Z.eqb_eq in E; lia|].
    rewrite Nat2Z.id. exists (slice s 0 j).
    split; [apply split_at; lia | split; [exact Hb | exact Hns]].
Qed.

(** ** The last rune of a string *)

Lemma RuneStart_at (s : string) (i : nat) :
  utf8.RuneStart (at_index s i) = negb (utf8.continuation (at_index s i)).
Proof.
  unfold at_index. destruct (String.get i s) as [c|]; [|reflexivity].
  destruct c as [[] [] [] [] [] [] [] []]; reflexivity.
Qed.

Lemma rune_at_cont (s : string) (r : Z) (size k : nat) :
  rune_at s r size -> (1 <= k < size)%nat -> 128 <= at_index s k <= 191.
Proof.
  intros Hr Hk.
  destruct k as [|[|[|[|k]]]]; try lia.
  - apply (rune_at_second s r size); [exact Hr | lia].
  - destruct Hr as [Hlen H]. cbv zeta in H.
    destruct size as [|[|[|[|[|size]]]]]; try contradiction; try lia.
  - destruct Hr as [Hlen H]. cbv zeta in H.
    destruct size as [|[|[|[|[|size]]]]]; try contradiction; try lia.
  - apply rune_at_width in Hr. lia.
Qed.

(** What [DecodeLastRuneInString] returns on a string that is not
    empty: a rune whose encoding ends the string, or the error rune with
    width 1 at a byte outside ASCII. *)
Lemma DecodeLast_inv (u : string) (r : Z) (size : nat) :
  (1 <= String.length u)%nat ->
  utf8.DecodeLastRuneInString u = (r, size) ->
  ((size <= String.length u)%nat
   /\ rune_at (slice_from u (String.length u - size)) r size)
  \/ (size = 1%nat /\ r = utf8.RuneError /\ 128 <= at_index u (String.length u - 1)).
Proof.
  intros Hlen DL. unfold utf8.DecodeLastRuneInString in DL.
  destruct (String.length u =? 0)%nat eqn:E; [apply Nat.eqb_eq in E; lia|]. clear E.
  replace (Z.to_nat (Z.of_nat (String.length u) - 1)) with (String.length u - 1)%nat in DL by lia.
  unfold utf8.RuneSelf in DL.
  destruct (at_index u (String.length u - 1) <? 128) eqn:Hlt.
  - apply Z.ltb_lt in Hlt. inversion DL; subst r size. left.
    split; [lia|]. split; [rewrite length_slice_from by lia; lia|].
    cbv beta iota zeta. rewrite at_index_slice_from by lia. rewrite Nat.add_0_r.
    split; [exact Hlt | reflexivity].
  - apply Z.ltb_ge in Hlt. cbv zeta in DL.
    match type of DL with context [utf8.scan_back ?a ?b ?c ?d] =>
      pose proof (scan_back_le a b c d) as Hle; set (st := utf8.scan_back a b c d) in * end.
    set (start := if st <? 0 then 0 else st) in *.
    assert (Hstart : 0 <= start <= Z.of_nat (String.length u) - 1).
    { unfold start. destruct (st <? 0) eqn:Hneg;
        [apply Z.ltb_lt in Hneg | apply Z.ltb_ge in Hneg]; lia. }
    assert (Hsl : (1 <= String.length (slice u (Z.to_nat start) (String.length u)))%nat)
      by (rewrite length_slice by lia; lia).
    destruct (utf8.DecodeRuneInString (slice u (Z.to_nat start) (String.length u)))
      as [r' size'] eqn:D.
    destruct (negb (start + Z.of_nat size' =? Z.of_nat (String.length u))) eqn:Hchk.
    + inversion DL; subst. right. split; [reflexivity | split; [reflexivity | exact Hlt]].
    + apply negb_false_iff, Z.eqb_eq in Hchk. inversion DL; subst r' size'.
      assert (Hst : Z.to_nat start = (String.length u - size)%nat) by lia.
      destruct (DecodeRune_inv _ r size Hsl D) as [Hr|(-> & -> & _)].
      * left. split; [lia|]. unfold slice_from. rewrite <- Hst. exact Hr.
      * right. split; [reflexivity | split; [reflexivity | exact Hlt]].
Qed.

Lemma scan_back_stop (s : string) (n : nat) (start lim : Z) :
  lim <= start -> utf8.RuneStart (at_index s (Z.to_nat start)) = true ->
  utf8.scan_back s (S n) start lim = start.
Proof.
  intros Hl Hs. cbn [utf8.scan_back].
  destruct (start <? lim) eqn:E; [reflexivity|]. rewrite Hs. reflexivity.
Qed.

Lemma scan_back_go (s : string) (n : nat) (start lim : Z) :
  lim <= start -> utf8.RuneStart (at_index s (Z.to_nat start)) = false ->
  utf8.scan_back s (S n) start lim = utf8.scan_back s n (start - 1) lim.
Proof.
  intros Hl Hs. cbn [utf8.scan_back].
  destruct (start <? lim) eqn:E; [apply Z.ltb_lt in E; lia|]. rewrite Hs. reflexivity.
Qed.

(** A string that ends with the encoding of a rune has it as its last
    rune. *)
Lemma DecodeLast_append (x w : string) (r : Z) :
  rune_at w r (String.length w) ->
  utf8.DecodeLastRuneInString (x +:+ w) = (r, String.length w).
Proof.
  intros Hr.
  pose proof (rune_at_width _ _ _ Hr) as [Hsz _].
  destruct (rune_at_first _ _ _ Hr) as [[H1 Hascii]|[H2 Hlead]].
  - (* one byte *)
    assert (Hlast : at_index (x +:+ w) (String.length (x +:+ w) - 1) = at_index w 0).
    { rewrite length_append. replace (String.length x + String.length w - 1)%nat
        with (String.length x + 0)%nat by lia. apply at_index_app_r. }
    rewrite DecodeLast_ascii by (first [rewrite Hlast; exact Hascii | rewrite length_append; lia]).
    rewrite Hlast, H1. destruct Hr as [_ Hr]. rewrite H1 in Hr. cbv beta iota zeta in Hr.
    destruct Hr as [_ ->]. reflexivity.
  - (* several bytes *)
    set (size := String.length w) in *.
    assert (Hat : forall k, (1 <= k <= size)%nat ->
                at_index (x +:+ w) (Z.to_nat (Z.of_nat (String.length x + size) - Z.of_nat k))
                = at_index w (size - k)).
    { intros k Hk.
      replace (Z.to_nat (Z.of_nat (String.length x + size) - Z.of_nat k))
        with (String.length x + (size - k))%nat by lia.
      apply at_index_app_r. }
    assert (Hcont : forall k, (1 <= k < size)%nat ->
                utf8.RuneStart (at_index (x +:+ w)
                   (Z.to_nat (Z.of_nat (String.length x + size) - Z.of_nat k))) = false).
    { intros k Hk. rewrite Hat by lia. rewrite RuneStart_at.
      pose proof (rune_at_cont w r size (size - k) Hr ltac:(lia)) as Hc.
      unfold utf8.continuation.
      assert (E1 : (128 <=? at_index w (size - k)) = true) by (apply Z.leb_le; lia).
      assert (E2 : (at_index w (size - k) <=? 191) = true) by (apply Z.leb_le; lia).
      rewrite E1, E2. reflexivity. }
    assert (Hstart : utf8.RuneStart (at_index (x +:+ w)
                   (Z.to_nat (Z.of_nat (String.length x + size) - Z.of_nat size))) = true).
    { rewrite Hat by lia. rewrite Nat.sub_diag, RuneStart_at.
      unfold utf8.continuation.
      assert (E2 : (at_index w 0 <=? 191) = false) by (apply Z.leb_gt; lia).
      rewrite E2, andb_false_r. reflexivity. }
    unfold utf8.DecodeLastRuneInString.
    rewrite length_append. fold size.
    destruct (String.length x + size =? 0)%nat eqn:E; [apply Nat.eqb_eq in E; lia|]. clear E.
    set (e := Z.of_nat (String.length x + size)) in *.
    assert (Hlastb : (at_index (x +:+ w) (Z.to_nat (e - 1)) <? utf8.RuneSelf) = false).
    { apply Z.ltb_ge. unfold e. change 1 with (Z.of_nat 1). rewrite Hat by lia.
      pose proof (rune_at_cont w r size (size - 1) Hr ltac:(lia)). unfold utf8.RuneSelf. lia. }
    rewrite Hlastb. cbv zeta.
    set (lim := Z.max (e - Z.of_nat utf8.UTFMax) 0).
    assert (Hlim : lim <= e - Z.of_nat size) by (unfold lim, utf8.UTFMax, e; lia).
    assert (Hscan : utf8.scan_back (x +:+ w) (S utf8.UTFMax) (e - 1 - 1) lim = e - Z.of_nat size).
    { unfold utf8.UTFMax.
      destruct size as [|[|[|[|[|sz]]]]] eqn:Hsize; try lia.
      - replace (e - 1 - 1) with (e - Z.of_nat 2) by lia.
        apply scan_back_stop; [lia | exact Hstart].
      - replace (e - 1 - 1) with (e - Z.of_nat 2) by lia.
        rewrite scan_back_go by (first [lia | apply Hcont; lia]).
        replace (e - Z.of_nat 2 - 1) with (e - Z.of_nat 3) by lia.
        apply scan_back_stop; [lia | exact Hstart].
      - replace (e - 1 - 1) with (e - Z.of_nat 2) by lia.
        rewrite scan_back_go by (first [lia | apply Hcont; lia]).
        replace (e - Z.of_nat 2 - 1) with (e - Z.of_nat 3) by lia.
        rewrite scan_back_go by (first [lia | apply Hcont; lia]).
        replace (e - Z.of_nat 3 - 1) with (e - Z.of_nat 4) by lia.
        apply scan_back_stop; [lia | exact Hstart]. }
    rewrite Hscan.
    destruct (e - Z.of_nat size <? 0) eqn:E; [apply Z.ltb_lt in E; unfold e in E; lia|]. clear E.
    replace (Z.to_nat (e - Z.of_nat size)) with (String.length x) by (unfold e; lia).
    unfold size at 2. rewrite slice_append_r.
    rewrite (rune_at_DecodeRune _ _ _ Hr). fold size.
    replace (e - Z.of_nat size + Z.of_nat size =? e) with true by (symmetry; apply Z.eqb_eq; lia).
    reflexivity.
Qed.

(** ** The loop of [TrimRightFunc] *)

Lemma last_index_not_blank (fuel : nat) (s : string) (i : nat) :
  (i <= String.length s)%nat -> (i < fuel)%nat ->
  (strings.last_index_not unicode.IsSpace fuel s i = -1
   /\ blank (slice s 0 i) = true)
  \/ exists (i' : nat) (r : Z) (size : nat),
       (0 < i' <= i)%nat
       /\ utf8.DecodeLastRuneInString (slice s 0 i') = (r, size)
       /\ (1 <= size <= i')%nat
       /\ strings.last_index_not unicode.IsSpace fuel s i = Z.of_nat (i' - size)
       /\ unicode.IsSpace r = false
       /\ blank (slice s i' i) = true.
Proof.
  revert i. induction fuel as [|k IH]; intros i Hi Hf; [lia|].
  cbn [strings.last_index_not].
  destruct (i =? 0)%nat eqn:E.
  { apply Nat.eqb_eq in E. subst i. left. split; [reflexivity|].
    rewrite slice_empty by lia. reflexivity. }
  apply Nat.eqb_neq in E.
  assert (Hlen : String.length (slice s 0 i) = i) by (rewrite length_slice by lia; lia).
  destruct (utf8.DecodeLastRuneInString (slice s 0 i)) as [r size] eqn:D.
  cbv zeta.
  destruct (DecodeLast_inv (slice s 0 i) r size ltac:(lia) D) as [[Hle Hr]|(-> & -> & Hhigh)].
  - rewrite Hlen in Hle, Hr. rewrite slice_from_slice in Hr by lia. rewrite Nat.add_0_l in Hr.
    pose proof (rune_at_width _ _ _ Hr) as [Hsz _].
    destruct (unicode.IsSpace r) eqn:Hsp; simpl negb; cbv iota.
    + assert (Hw : blank (slice s (i - size) i) = true).
      { apply (blank_rune _ r); [|exact Hsp]. rewrite length_slice by lia.
        replace (i - (i - size))%nat with size by lia. exact Hr. }
      destruct (IH (i - size)%nat ltac:(lia) ltac:(lia))
        as [[Hres Hb]|(i' & r' & size' & Hrange & D' & Hsz' & Hres & Hns & Hb)].
      * left. split; [exact Hres|].
        rewrite (slice_split s 0 (i - size) i) by lia.
        apply blank_append; assumption.
      * right. exists i', r', size'.
        split; [lia|]. split; [exact D'|]. split; [exact Hsz'|]. split; [exact Hres|].
        split; [exact Hns|].
        rewrite (slice_split s i' (i - size) i) by lia.
        apply blank_append; assumption.
    + right. exists i, r, size.
      split; [lia|]. split; [exact D|]. split; [lia|]. split; [reflexivity|].
      split; [exact Hsp|]. rewrite slice_empty by lia. reflexivity.
  - simpl negb. cbv iota. right. exists i, utf8.RuneError, 1%nat.
    split; [lia|]. split; [exact D|]. split; [lia|]. split; [reflexivity|].
    split; [reflexivity|]. rewrite slice_empty by lia. reflexivity.
Qed.

(** [TrimRightFunc] takes white space off the end, and all of it. *)
Lemma TrimRightFunc_spec (u : string) :
  exists post,
    u = strings.TrimRightFunc u unicode.IsSpace +:+ post
    /\ blank post = true
    /\ unicode.IsSpace
         (utf8.DecodeLastRuneInString (strings.TrimRightFunc u unicode.IsSpace)).1 = false.
Proof.
  unfold strings.TrimRightFunc.
  destruct (last_index_not_blank (S (String.length u)) u (String.length u) ltac:(lia) ltac:(lia))
    as [[Hres Hb]|(i' & r & size & Hrange & D & Hsz & Hres & Hns & Hb)].
  - rewrite Hres. change (0 <=? -1) with false. cbn [andb].
    change (Z.to_nat (-1 + 1)) with 0%nat. rewrite slice_empty by lia.
    exists u. rewrite slice_all in Hb. split; [reflexivity | split; [exact Hb | reflexivity]].
  - rewrite Hres. set (j := (i' - size)%nat) in *.
    replace (Z.to_nat (Z.of_nat j)) with j by lia.
    assert (Hlen : String.length (slice u 0 i') = i') by (rewrite length_slice by lia; lia).
    assert (Hj : (j < String.length u)%nat) by (unfold j; lia).
    assert (Hend : Z.to_nat
                     (if (0 <=? Z.of_nat j) && (utf8.RuneSelf <=? at_index u j)
                      then let '(_, wid) := utf8.DecodeRuneInString (slice_from u j) in
                           Z.of_nat j + Z.of_nat wid
                      else Z.of_nat j + 1) = i').
    { destruct (DecodeLast_inv (slice u 0 i') r size ltac:(lia) D) as [[Hle Hr]|(-> & -> & Hhigh)].
      - rewrite Hlen in Hle, Hr. rewrite slice_from_slice in Hr by lia.
        rewrite Nat.add_0_l in Hr. fold j in Hr.
        assert (H0 : at_index (slice u j i') 0 = at_index u j).
        { rewrite at_index_slice by lia. rewrite Nat.add_0_r. reflexivity. }
        destruct (rune_at_first _ _ _ Hr) as [[H1 Hascii]|[H2 Hlead]]; rewrite H0 in *.
        + assert (Hc : (0 <=? Z.of_nat j) && (utf8.RuneSelf <=? at_index u j) = false).
          { apply andb_false_iff. right. apply Z.leb_gt. unfold utf8.RuneSelf. lia. }
          rewrite Hc. unfold j. lia.
        + assert (Hc : (0 <=? Z.of_nat j) && (utf8.RuneSelf <=? at_index u j) = true).
          { apply andb_true_iff. split; apply Z.leb_le; unfold utf8.RuneSelf; lia. }
          rewrite Hc.
          assert (Hfull : rune_at (slice_from u j) r size).
          { apply (rune_at_agree (slice u j i')); [exact Hr | rewrite length_slice_from by lia; lia |].
            intros k Hk. rewrite at_index_slice_from by lia. rewrite at_index_slice by lia.
            reflexivity. }
          rewrite (rune_at_DecodeRune _ _ _ Hfull). unfold j. lia.
      - rewrite Hlen in Hhigh. unfold j in *.
        rewrite at_index_slice in Hhigh by lia. rewrite Nat.add_0_l in Hhigh.
        assert (Hc : (0 <=? Z.of_nat (i' - 1)) && (utf8.RuneSelf <=? at_index u (i' - 1)) = true).
        { apply andb_true_iff. split; apply Z.leb_le; unfold utf8.RuneSelf; lia. }
        rewrite Hc.
        assert (Hsl : (1 <= String.length (slice_from u (i' - 1)))%nat)
          by (rewrite length_slice_from by lia; lia).
        destruct (utf8.DecodeRuneInString (slice_from u (i' - 1))) as [r' wid] eqn:D'.
        destruct (DecodeRune_inv _ r' wid Hsl D') as [Hr'|(-> & _ & _)]; [|lia].
        exfalso.
        pose proof (rune_at_width _ _ _ Hr') as [Hw Hwl].
        rewrite length_slice_from in Hwl by lia.
        destruct (rune_at_first _ _ _ Hr') as [[_ Hascii]|[H2 _]].
        { rewrite at_index_slice_from in Hascii by lia. rewrite Nat.add_0_r in Hascii. lia. }
        pose proof (rune_at_second _ _ _ Hr' H2) as Hsec.
        rewrite at_index_slice_from in Hsec by lia.
        replace (i' - 1 + 1)%nat with i' in Hsec by lia.
        (* the byte at [i'] starts a rune of white space *)
        assert (Hpl : (1 <= String.length (slice u i' (String.length u)))%nat)
          by (rewrite length_slice by lia; lia).
        destruct (blank_head _ Hpl Hb) as (rs & sz & Hrs & _ & _).
        destruct (rune_at_first _ _ _ Hrs) as [[_ Ha]|[_ Ha]];
          rewrite at_index_slice in Ha by lia; rewrite Nat.add_0_r in Ha; lia. }
    rewrite Hend.
    exists (slice u i' (String.length u)).
    split; [apply split_at; lia|]. split; [exact Hb|].
    rewrite D. exact Hns.
Qed.

(** ** Text that white space neither opens nor closes *)

Lemma append_nil_inv (a b : string) : a +:+ b = "" -> a = "" /\ b = "".
Proof. destruct a; [intros H; split; [reflexivity | exact H] | discriminate]. Qed.

Lemma no_blank_prefix (t : string) :
  unicode.IsSpace (utf8.DecodeRuneInString t).1 = false ->
  forall a b, t = a +:+ b -> blank a = true -> a = "".
Proof.
  intros Hns a b -> Hb.
  destruct a as [|c a']; [reflexivity|]. exfalso.
  destruct (blank_head (String c a') ltac:(simpl; lia) Hb) as (r & size & Hr & Hsp & _).
  rewrite (DecodeRune_append _ b r size Hr) in Hns. cbn [fst] in Hns. congruence.
Qed.

(** The last rune of a string of runes that satisfy [p]. *)
Lemma all_runes_last (p : Z -> nat -> bool) (v : string) :
  p utf8.RuneError 1%nat = false ->
  all_runes p v = true -> v <> "" ->
  exists v' w r,
    v = v' +:+ w /\ rune_at w r (String.length w) /\ p r (String.length w) = true.
Proof.
  intros Hp. remember (String.length v) as n eqn:Hn.
  revert v Hn. induction n as [n IH] using lt_wf_ind. intros v Hn Hv Hne.
  destruct v as [|c v0]; [congruence|]. set (v := String c v0) in *.
  assert (Hlen : (1 <= String.length v)%nat) by (simpl; lia).
  rewrite all_runes_step in Hv by exact Hlen.
  destruct (utf8.DecodeRuneInString v) as [r size] eqn:D. cbn [fst snd] in Hv.
  apply andb_true_iff in Hv as [Hpr Hrest].
  destruct (DecodeRune_inv v r size Hlen D) as [Hr|(-> & -> & _)]; [|congruence].
  pose proof (rune_at_width _ _ _ Hr) as [Hsz Hle].
  assert (Hw : String.length (slice v 0 size) = size) by (rewrite length_slice by lia; lia).
  destruct (slice_from v size) as [|d rest0] eqn:Hrestv.
  - exists "", v, r.
    assert (Hsize : size = String.length v).
    { pose proof (length_slice_from v size Hle) as Hl. rewrite Hrestv in Hl.
      change (String.length "") with 0%nat in Hl. lia. }
    rewrite <- Hsize. split; [reflexivity | split; [exact Hr | exact Hpr]].
  - destruct (IH (String.length (slice_from v size))) with (v := slice_from v size)
      as (v' & w & r' & Hv' & Hrw & Hpw).
    + rewrite length_slice_from by lia. lia.
    + reflexivity.
    + rewrite Hrestv. exact Hrest.
    + rewrite Hrestv. discriminate.
    + exists (slice v 0 size +:+ v'), w, r'.
      split; [|split; [exact Hrw | exact Hpw]].
      rewrite append_assoc, <- Hv'. apply split_at. exact Hle.
Qed.

Lemma no_blank_suffix (t : string) :
  unicode.IsSpace (utf8.DecodeLastRuneInString t).1 = false ->
  forall a b, t = a +:+ b -> blank b = true -> b = "".
Proof.
  intros Hns a b -> Hb.
  destruct b as [|c b']; [reflexivity|]. exfalso.
  destruct (all_runes_last _ (String c b') eq_refl Hb ltac:(discriminate))
    as (v' & w & r & Hv & Hr & Hsp).
  rewrite Hv, <- append_assoc, (DecodeLast_append _ w r Hr) in Hns.
  cbn [fst] in Hns. congruence.
Qed.

(** ** [TrimFunc] *)

Lemma TrimFunc_spec (s : string) : trims_to s (strings.TrimFunc s unicode.IsSpace).
Proof.
  unfold strings.TrimFunc.
  destruct (TrimLeftFunc_spec s) as (pre & Hs & Hpre & Hhead).
  set (u := strings.TrimLeftFunc s unicode.IsSpace) in *.
  destruct (TrimRightFunc_spec u) as (post & Hu & Hpost & Hlast).
  set (t := strings.TrimRightFunc u unicode.IsSpace) in *.
  exists pre, post.
  split; [rewrite <- Hu; exact Hs|]. split; [exact Hpre|]. split; [exact Hpost|]. split.
  - intros a b Ht Ha.
    apply (no_blank_prefix u Hhead a (b +:+ post)); [|exact Ha].
    rewrite Hu, Ht, append_assoc. reflexivity.
  - apply no_blank_suffix. exact Hlast.
Qed.

(** ** The two loops of [TrimSpace] *)

Lemma trim_start_strong (fuel : nat) (s : string) (start : nat) :
  (start <= String.length s)%nat -> (String.length s - start < fuel)%nat ->
  match strings.trim_start fuel s start with
  | inl st =>
      (start <= st <= String.length s)%nat
      /\ (forall k, (start <= k < st)%nat -> strings.asciiSpace (at_index s k) = true)
      /\ (st = String.length s
          \/ (at_index s st < 128 /\ strings.asciiSpace (at_index s st) = false))
  | inr w =>
      exists st,
        (start <= st < String.length s)%nat
        /\ (forall k, (start <= k < st)%nat -> strings.asciiSpace (at_index s k) = true)
        /\ w = strings.TrimFunc (slice_from s st) unicode.IsSpace
  end.
Proof.
  revert start. induction fuel as [|k IH]; intros start Hs Hf; [lia|].
  cbn [strings.trim_start].
  destruct (String.length s <=? start)%nat eqn:E.
  { apply Nat.leb_le in E. split; [lia|]. split; [intros; lia | left; lia]. }
  apply Nat.leb_gt in E. cbv zeta.
  destruct (utf8.RuneSelf <=? at_index s start) eqn:Hhigh.
  { exists start. split; [lia|]. split; [intros; lia | reflexivity]. }
  apply Z.leb_gt in Hhigh. unfold utf8.RuneSelf in Hhigh.
  destruct (strings.asciiSpace (at_index s start)) eqn:Hsp; simpl negb; cbv iota.
  - specialize (IH (S start) ltac:(lia) ltac:(lia)).
    destruct (strings.trim_start k s (S start)) as [st|w].
    + destruct IH as (Hr & Hall & Hend). split; [lia|]. split; [|exact Hend].
      intros n Hn. destruct (Nat.eq_dec n start) as [->|Hne]; [exact Hsp | apply Hall; lia].
    + destruct IH as (st & Hr & Hall & Hw). exists st. split; [lia|]. split; [|exact Hw].
      intros n Hn. destruct (Nat.eq_dec n start) as [->|Hne]; [exact Hsp | apply Hall; lia].
  - split; [lia|]. split; [intros; lia | right; split; [exact Hhigh | exact Hsp]].
Qed.

Lemma trim_stop_strong (fuel : nat) (s : string) (start stop : nat) :
  (stop <= String.length s)%nat -> (stop - start < fuel)%nat ->
  match strings.trim_stop fuel s start stop with
  | inl sp =>
      (sp <= stop)%nat /\ (start <= stop -> start <= sp)%nat
      /\ (forall k, (sp <= k < stop)%nat -> strings.asciiSpace (at_index s k) = true)
      /\ ((sp <= start)%nat
          \/ (at_index s (sp - 1) < 128 /\ strings.asciiSpace (at_index s (sp - 1)) = false))
  | inr w =>
      exists sp,
        (start < sp <= stop)%nat
        /\ (forall k, (sp <= k < stop)%nat -> strings.asciiSpace (at_index s k) = true)
        /\ 128 <= at_index s (sp - 1)
        /\ w = strings.TrimRightFunc (slice s start sp) unicode.IsSpace
  end.
Proof.
  revert stop. induction fuel as [|k IH]; intros stop Hs Hf; [lia|].
  cbn [strings.trim_stop].
  destruct (stop <=? start)%nat eqn:E.
  { apply Nat.leb_le in E. split; [lia|]. split; [lia|]. split; [intros; lia | left; lia]. }
  apply Nat.leb_gt in E. cbv zeta.
  destruct (utf8.RuneSelf <=? at_index s (stop - 1)) eqn:Hhigh.
  { apply Z.leb_le in Hhigh. unfold utf8.RuneSelf in Hhigh.
    exists stop. split; [lia|]. split; [intros; lia|]. split; [exact Hhigh | reflexivity]. }
  apply Z.leb_gt in Hhigh. unfold utf8.RuneSelf in Hhigh.
  destruct (strings.asciiSpace (at_index s (stop - 1))) eqn:Hsp; simpl negb; cbv iota.
  - specialize (IH (stop - 1)%nat ltac:(lia) ltac:(lia)).
    destruct (strings.trim_stop k s start (stop - 1)) as [sp|w].
    + destruct IH as (Hr & Hr2 & Hall & Hend). split; [lia|]. split; [lia|]. split; [|exact Hend].
      intros n Hn. destruct (Nat.eq_dec n (stop - 1)%nat) as [->|Hne]; [exact Hsp | apply Hall; lia].
    + destruct IH as (sp & Hr & Hall & Hb & Hw). exists sp. split; [lia|].
      split; [|split; [exact Hb | exact Hw]].
      intros n Hn. destruct (Nat.eq_dec n (stop - 1)%nat) as [->|Hne]; [exact Hsp | apply Hall; lia].
  - split; [lia|]. split; [lia|]. split; [intros; lia | right; split; [exact Hhigh | exact Hsp]].
Qed.

Lemma blank_slice_ascii (s : string) (lo hi : nat) :
  (hi <= String.length s)%nat ->
  (forall k, (lo <= k < hi)%nat -> strings.asciiSpace (at_index s k) = true) ->
  blank (slice s lo hi) = true.
Proof.
  intros Hhi Hall. apply blank_ascii. apply all_bytes_of_at. intros k Hk.
  destruct (Nat.le_gt_cases hi lo) as [Hle|Hlt].
  - rewrite slice_empty in Hk by lia. simpl in Hk. lia.
  - rewrite length_slice in Hk by lia. rewrite at_index_slice by lia. apply Hall. lia.
Qed.

(** ** [TrimSpace] *)

(** What [TrimSpace] returns is the string without the white space
    around it, white space as [unicode.IsSpace] has it. *)
Lemma TrimSpace_spec (s : string) : trims_to s (strings.TrimSpace s).
Proof.
  unfold strings.TrimSpace.
  pose proof (trim_start_strong (S (String.length s)) s 0 ltac:(lia) ltac:(lia)) as Hstart.
  destruct (strings.trim_start (S (String.length s)) s 0) as [start|w].
  - destruct Hstart as (Hrange & Hpre & Hat).
    pose proof (trim_stop_strong (S (String.length s)) s start (String.length s)
                  ltac:(lia) ltac:(lia)) as Hstop.
    assert (Hbpre : blank (slice s 0 start) = true) by (apply blank_slice_ascii; [lia | exact Hpre]).
    destruct (strings.trim_stop (S (String.length s)) s start (String.length s)) as [stop|w].
    + (* ASCII at both ends *)
      destruct Hstop as (Hs1 & Hs2 & Hpost & Hend).
      specialize (Hs2 ltac:(lia)).
      exists (slice s 0 start), (slice s stop (String.length s)).
      split.
      { rewrite <- slice_split by lia. change (slice s start (String.length s))
          with (slice_from s start). apply split_at. lia. }
      split; [exact Hbpre|].
      split; [apply blank_slice_ascii; [lia | exact Hpost]|].
      destruct (Nat.eq_dec stop start) as [->|Hne].
      { rewrite slice_empty by lia.
        split; intros a b Hab _; symmetry in Hab; apply append_nil_inv in Hab; tauto. }
      assert (Hlt : (start < stop)%nat) by lia.
      destruct Hat as [Hat|[Hat1 Hat2]]; [lia|].
      destruct Hend as [Hend|[Hend1 Hend2]]; [lia|].
      assert (Hl : String.length (slice s start stop) = (stop - start)%nat)
        by (apply length_slice; lia).
      split.
      * apply no_blank_prefix.
        rewrite DecodeRune_ascii
          by (rewrite ?Hl, ?at_index_slice, ?Nat.add_0_r by lia; (lia || exact Hat1)).
        cbn [fst]. rewrite at_index_slice, Nat.add_0_r by lia.
        rewrite IsSpace_ascii by exact Hat1. exact Hat2.
      * apply no_blank_suffix.
        assert (Hidx : at_index (slice s start stop) (String.length (slice s start stop) - 1)
                       = at_index s (stop - 1)).
        { rewrite Hl, at_index_slice by lia. f_equal. lia. }
        rewrite DecodeLast_ascii by (first [rewrite Hidx; exact Hend1 | rewrite Hl; lia]).
        cbn [fst]. rewrite Hidx.
        rewrite IsSpace_ascii by exact Hend1. exact Hend2.
    + (* ASCII at the start, a byte outside ASCII at the end *)
      destruct Hstop as (sp & Hsp & Hpost & Hhigh & ->).
      destruct Hat as [Hat|[Hat1 Hat2]]; [lia|].
      destruct (TrimRightFunc_spec (slice s start sp)) as (post & Hu & Hbpost & Hlast).
      set (t := strings.TrimRightFunc (slice s start sp) unicode.IsSpace) in *.
      exists (slice s 0 start), (post +:+ slice s sp (String.length s)).
      split.
      { rewrite <- (append_assoc t post), <- Hu.
        rewrite <- (slice_split s start sp) by lia.
        rewrite <- (slice_split s 0 start) by lia. symmetry. apply slice_all. }
      split; [exact Hbpre|].
      split; [apply blank_append; [exact Hbpost | apply blank_slice_ascii; [lia | exact Hpost]]|].
      split; [|apply no_blank_suffix; exact Hlast].
      intros a b Ht Ha.
      apply (no_blank_prefix (slice s start sp)) with (b := b +:+ post); [| |exact Ha].
      * rewrite DecodeRune_ascii
          by (rewrite ?length_slice, ?at_index_slice, ?Nat.add_0_r by lia; (lia || exact Hat1)).
        cbn [fst]. rewrite at_index_slice, Nat.add_0_r by lia.
        rewrite IsSpace_ascii by exact Hat1. exact Hat2.
      * rewrite Hu, Ht, append_assoc. reflexivity.
  - (* a byte outside ASCII at the start *)
    destruct Hstart as (st & Hst & Hpre & ->).
    destruct (TrimFunc_spec (slice_from s st)) as (pre & post & Hs & Hbpre & Hbpost & Hp & Hq).
    exists (slice s 0 st +:+ pre), post.
    split; [rewrite append_assoc, <- Hs; apply split_at; lia|].
    split; [apply blank_append; [apply blank_slice_ascii; [lia | intros; apply Hpre; lia] | exact Hbpre]|].
    split; [exact Hbpost|]. split; assumption.
Qed.

(** * The request as the server reads it, and the summary *)

Section Wire.

Variable environ : gmap string string.
Variable Do : http.Client -> http.Request -> http.Response + error.

(** The one request of a run with plans and a key, and the JSON value
    of its body. *)
Lemma sent_body (terraformOutputs : list string) :
  terraformOutputs <> [] ->
  os.Getenv environ openRouterAPIKeyEnv <> "" ->
  exists req,
    requests (SummarizePlans environ Do terraformOutputs).2 = [req]
    /\ json.Marshal (reqBody environ terraformOutputs) = inl (http.Payload req)
    /\ jsonsyntax.parse (http.Payload req)
       = Some (request_value (reqBody environ terraformOutputs)).
Proof.
  intros Hout Hkey. eexists. split; [apply one_request; assumption|].
  split; [reflexivity|]. apply parse_marshalled. discriminate.
Qed.

(** What the server reads as the content of the two messages is what
    the literals that [Marshal] wrote for them read back to. *)
Lemma user_content_read (terraformOutputs : list string) (text : string) :
  terraformOutputs <> [] ->
  os.Getenv environ openRouterAPIKeyEnv <> "" ->
  sent_user_content (SummarizePlans environ Do terraformOutputs).2 text
  <-> json.unquote (escaped (strings.Join terraformOutputs planSeparator)) = Some text.
Proof.
  intros Hout Hkey.
  destruct (sent_body terraformOutputs Hout Hkey) as (req & Hreq & _ & Hparse).
  split.
  - intros (req' & system & literal & Hreq' & Hparse' & Hread).
    rewrite Hreq in Hreq'. injection Hreq' as <-.
    rewrite Hparse in Hparse'. injection Hparse' as _ <-. exact Hread.
  - intros Hread. exists req. do 2 eexists.
    split; [exact Hreq|]. split; [exact Hparse | exact Hread].
Qed.

Lemma system_content_read (terraformOutputs : list string) (text : string) :
  terraformOutputs <> [] ->
  os.Getenv environ openRouterAPIKeyEnv <> "" ->
  sent_system_content (SummarizePlans environ Do terraformOutputs).2 text
  <-> json.unquote
        (escaped (if String.eqb (os.Getenv environ openRouterSystemPromptEnv) ""
                  then defaultSystemPrompt
                  else os.Getenv environ openRouterSystemPromptEnv)) = Some text.
Proof.
  intros Hout Hkey.
  destruct (sent_body terraformOutputs Hout Hkey) as (req & Hreq & _ & Hparse).
  split.
  - intros (req' & literal & user & Hreq' & Hparse' & Hread).
    rewrite Hreq in Hreq'. injection Hreq' as <-.
    rewrite Hparse in Hparse'. injection Hparse' as <- _. exact Hread.
  - intros Hread. exists req. do 2 eexists.
    split; [exact Hreq|]. split; [exact Hparse | exact Hread].
Qed.

(** C4 (amended). For plans that are not empty and are well-formed
    UTF-8, and with a key, the run sends one request, and what the server
    reads as the content of its user message is the plans in their order
    with the separator between them.  The separator is two line feeds,
    three dashes and two line feeds, so the plans planA and planB give
    planA, the separator and planB with nothing else between. *)
Theorem user_message_joins_plans (terraformOutputs : list string) :
  terraformOutputs <> [] ->
  os.Getenv environ openRouterAPIKeyEnv <> "" ->
  Forall (fun plan => valid_utf8 plan = true) terraformOutputs ->
  sent_user_content (SummarizePlans environ Do terraformOutputs).2
                    (String.concat planSeparator terraformOutputs)
  /\ map byte_of (list_ascii_of_string planSeparator) = [10; 10; 45; 45; 45; 10; 10]
  /\ String.concat planSeparator ["planA"; "planB"]
     = "planA" +:+ newline +:+ newline +:+ "---" +:+ newline +:+ newline +:+ "planB".
Proof.
  intros Hout Hkey Hvalid. split; [|split; reflexivity].
  apply user_content_read; [assumption | assumption |].
  rewrite Join_concat. apply unquote_escaped.
  apply valid_utf8_concat; [reflexivity | exact Hvalid].
Qed.

(** C5 (amended). With plans and a key: when
    OPENROUTER_TERRAFORM_PLAN_SUMMARIZER_SYSTEM_PROMPT is set to a string
    X that is not empty and is well-formed UTF-8, the run sends one
    request and what the server reads as the content of its system
    message is X; when the variable is unset or empty, what it reads is
    the default prompt. *)
Theorem system_prompt_override (terraformOutputs : list string) (X : string) :
  terraformOutputs <> [] ->
  os.Getenv environ openRouterAPIKeyEnv <> "" ->
  (environ !! openRouterSystemPromptEnv = Some X -> X <> "" -> valid_utf8 X = true ->
   sent_system_content (SummarizePlans environ Do terraformOutputs).2 X)
  /\ (environ !! openRouterSystemPromptEnv = None
      \/ environ !! openRouterSystemPromptEnv = Some "" ->
      sent_system_content (SummarizePlans environ Do terraformOutputs).2 defaultSystemPrompt).
Proof.
  intros Hout Hkey. split.
  - intros Hset Hne Hvalid.
    apply system_content_read; [assumption | assumption |].
    rewrite (Getenv_set _ _ _ Hset).
    apply String.eqb_neq in Hne. rewrite Hne.
    apply unquote_escaped. exact Hvalid.
  - intros Hunset.
    assert (Hget : os.Getenv environ openRouterSystemPromptEnv = "").
    { destruct Hunset as [H|H]; [apply Getenv_unset | apply Getenv_set]; exact H. }
    apply system_content_read; [assumption | assumption |].
    rewrite Hget. change (String.eqb "" "") with true. cbv iota.
    apply unquote_escaped. vm_compute. reflexivity.
Qed.

(** C6. With plans and a key, [SummarizePlans] builds one payload and
    sends it: the run gives one request to the client, the body of the
    request is what [Marshal] writes for the payload with the model
    anthropic/claude-sonnet-4.5 and exactly two messages, the first with
    role system and the resolved prompt, the second with role user and
    the joined plans, and that body is a JSON object with the model and
    an array of two objects, role system with the literal of the prompt,
    then role user with the literal of the joined plans. *)
Theorem payload_has_model_and_two_messages (terraformOutputs : list string) :
  terraformOutputs <> [] ->
  os.Getenv environ openRouterAPIKeyEnv <> "" ->
  let prompt := os.Getenv environ openRouterSystemPromptEnv in
  let system := if String.eqb prompt "" then defaultSystemPrompt else prompt in
  let user := strings.Join terraformOutputs planSeparator in
  exists req,
    requests (SummarizePlans environ Do terraformOutputs).2 = [req]
    /\ json.Marshal {| Model := "anthropic/claude-sonnet-4.5";
                       Messages := [ {| Role := "system"; Content := system |};
                                     {| Role := "user"; Content := user |} ] |}
       = inl (http.Payload req)
    /\ jsonsyntax.parse (http.Payload req)
       = Some (jsonsyntax.Object
                 [ ("model", jsonsyntax.Str "anthropic/claude-sonnet-4.5");
                   ("messages",
                    jsonsyntax.Array
                      [ jsonsyntax.Object
                          [ ("role", jsonsyntax.Str "system");
                            ("content", jsonsyntax.Str (escaped system)) ];
                        jsonsyntax.Object
                          [ ("role", jsonsyntax.Str "user");
                            ("content", jsonsyntax.Str (escaped user)) ] ]) ]).
Proof.
  intros Hout Hkey prompt system user.
  destruct (sent_body terraformOutputs Hout Hkey) as (req & Hreq & Hbody & Hparse).
  exists req. split; [exact Hreq|]. split; [exact Hbody | exact Hparse].
Qed.

(** C8. For a response with status 200 whose body decodes to no error
    and at least one choice, what [SummarizePlans] returns is the content
    of the first choice without the white space around it: the content
    is the result between two strings of white space, and white space
    neither opens nor closes the result.  When nothing is left, the
    result is the empty string and the warning of the empty summary is
    logged; otherwise no warning is logged. *)
Theorem summary_is_trimmed_content (terraformOutputs : list string)
        (resp : http.Response) (r : openRouterResponse)
        (c : openRouterChoice) (cs : list openRouterChoice) :
  terraformOutputs <> [] ->
  os.Getenv environ openRouterAPIKeyEnv <> "" ->
  (forall client req, Do client req = inl resp) ->
  io.failure (http.Body resp) = None ->
  http.StatusCode resp = http.StatusOK ->
  json.Unmarshal (io.data (http.Body resp)) = inl r ->
  Error r = None ->
  Choices r = c :: cs ->
  trims_to (Content (choice_Message c)) (SummarizePlans environ Do terraformOutputs).1
  /\ ((SummarizePlans environ Do terraformOutputs).1 = "" ->
      warnings (SummarizePlans environ Do terraformOutputs).2
      = ["OpenRouter returned empty summary"])
  /\ ((SummarizePlans environ Do terraformOutputs).1 <> "" ->
      warnings (SummarizePlans environ Do terraformOutputs).2 = []).
Proof.
  intros Hout Hkey Hdo Hread Hstatus Hjson He Hc.
  rewrite run_after_sending by assumption. cbv zeta. rewrite Hdo.
  rewrite (readSummary_decoded resp r Hread Hstatus Hjson), He, Hc. cbv zeta.
  pose proof (TrimSpace_spec (Content (choice_Message c))) as Hspec.
  destruct (String.eqb (strings.TrimSpace (Content (choice_Message c))) "") eqn:Hempty.
  - apply String.eqb_eq in Hempty. rewrite Hempty in Hspec. cbn [fst snd].
    split; [exact Hspec|]. split; [reflexivity | congruence].
  - apply String.eqb_neq in Hempty. cbn [fst snd].
    split; [exact Hspec|]. split; [congruence | reflexivity].
Qed.

End Wire.

(** C4 (amended) on the plans planA and planB, and on three plans, one
    of them with a letter outside ASCII. *)
Lemma user_message_joins_plans_witness :
  sent_user_content
    (SummarizePlans env_key (always (inr "timeout")) ["planA"; "planB"]).2
    ("planA" +:+ newline +:+ newline +:+ "---" +:+ newline +:+ newline +:+ "planB")
  /\ sent_user_content
       (SummarizePlans env_key (always (inr "timeout")) ["planA"; plan_accent; "planC"]).2
       (String.concat planSeparator ["planA"; plan_accent; "planC"]).
Proof.
  split.
  - apply (user_message_joins_plans env_key (always (inr "timeout")) ["planA"; "planB"]).
    + discriminate.
    + vm_compute. discriminate.
    + repeat constructor.
  - apply (user_message_joins_plans env_key (always (inr "timeout"))
             ["planA"; plan_accent; "planC"]).
    + discriminate.
    + vm_compute. discriminate.
    + repeat constructor.
Defined.

(** C4 as it was stated fails on a plan that is not well-formed UTF-8:
    what the server reads as the content of the user message has U+FFFD
    where the plan has the bytes 255 and 195, so it is not the plan. *)
Lemma ill_formed_plan_is_replaced :
  sent_user_content
    (SummarizePlans env_key (always (inr "timeout")) [plan_ill_formed]).2
    ("bad" +:+ json.replacement +:+ json.replacement)
  /\ ~ sent_user_content
         (SummarizePlans env_key (always (inr "timeout")) [plan_ill_formed]).2
         (strings.Join [plan_ill_formed] planSeparator).
Proof.
  assert (Hiff := fun text =>
            user_content_read env_key (always (inr "timeout")) [plan_ill_formed] text
              ltac:(discriminate) ltac:(vm_compute; discriminate)).
  split.
  - apply Hiff. vm_compute. reflexivity.
  - intros H. apply Hiff in H. vm_compute in H. discriminate.
Qed.

(** C5 (amended) with the prompt set to X, and with no prompt. *)
Lemma system_prompt_override_witness :
  sent_system_content (SummarizePlans env_prompt (always (inr "timeout")) ["planA"]).2 "X"
  /\ sent_system_content (SummarizePlans env_key (always (inr "timeout")) ["planA"]).2
                         defaultSystemPrompt.
Proof.
  split.
  - apply (system_prompt_override env_prompt (always (inr "timeout")) ["planA"] "X");
      [discriminate | vm_compute; discriminate | reflexivity | discriminate | reflexivity].
  - apply (system_prompt_override env_key (always (inr "timeout")) ["planA"] "X");
      [discriminate | vm_compute; discriminate | left; reflexivity].
Defined.

(** C5 as it was stated fails on a prompt that is not well-formed UTF-8:
    with the prompt set to the byte 255, what the server reads as the
    content of the system message is U+FFFD. *)
Lemma ill_formed_prompt_is_replaced :
  env_prompt_ill_formed !! openRouterSystemPromptEnv = Some (String (byte_to 255) "")
  /\ sent_system_content
       (SummarizePlans env_prompt_ill_formed (always (inr "timeout")) ["planA"]).2
       json.replacement
  /\ ~ sent_system_content
         (SummarizePlans env_prompt_ill_formed (always (inr "timeout")) ["planA"]).2
         (String (byte_to 255) "").
Proof.
  assert (Hiff := fun text =>
            system_content_read env_prompt_ill_formed (always (inr "timeout")) ["planA"] text
              ltac:(discriminate) ltac:(vm_compute; discriminate)).
  split; [reflexivity|]. split.
  - apply Hiff. vm_compute. reflexivity.
  - intros H. apply Hiff in H. vm_compute in H. discriminate.
Qed.

(** C6 on two plans and the prompt X. *)
Lemma payload_has_model_and_two_messages_witness :
  exists req,
    requests (SummarizePlans env_prompt (always (inr "timeout")) ["planA"; "planB"]).2 = [req]
    /\ json.Marshal {| Model := "anthropic/claude-sonnet-4.5";
                       Messages := [ {| Role := "system"; Content := "X" |};
                                     {| Role := "user";
                                        Content := strings.Join ["planA"; "planB"] planSeparator |} ] |}
       = inl (http.Payload req)
    /\ jsonsyntax.parse (http.Payload req)
       = Some (jsonsyntax.Object
                 [ ("model", jsonsyntax.Str "anthropic/claude-sonnet-4.5");
                   ("messages",
                    jsonsyntax.Array
                      [ jsonsyntax.Object
                          [ ("role", jsonsyntax.Str "system");
                            ("content", jsonsyntax.Str (escaped "X")) ];
                        jsonsyntax.Object
                          [ ("role", jsonsyntax.Str "user");
                            ("content",
                             jsonsyntax.Str
                               (escaped (strings.Join ["planA"; "planB"] planSeparator))) ] ]) ]).
Proof.
  apply (payload_has_model_and_two_messages env_prompt (always (inr "timeout"))
           ["planA"; "planB"]).
  - discriminate.
  - vm_compute. discriminate.
Defined.

(** C8 on the body of the specification's example. *)
Lemma summary_is_trimmed_content_witness :
  trims_to "  Summary text.  " "Summary text.".
Proof.
  pose proof (summary_is_trimmed_content env_key (always (inl (respond 200 body_summary)))
           ["planA"; "planB"] (respond 200 body_summary)
           {| Choices := [ {| choice_Message := {| Role := "assistant";
                                                    Content := "  Summary text.  " |} |} ];
              Error := None |}
           {| choice_Message := {| Role := "assistant"; Content := "  Summary text.  " |} |}
           []) as H.
  assert (E : (SummarizePlans env_key (always (inl (respond 200 body_summary)))
                 ["planA"; "planB"]).1 = "Summary text.") by (vm_compute; reflexivity).
  rewrite E in H. apply H.
  - discriminate.
  - vm_compute. discriminate.
  - reflexivity.
  - reflexivity.
  - reflexivity.
  - vm_compute. reflexivity.
  - reflexivity.
  - reflexivity.
Defined.
